(** * HarAnalyzer: a shallow embedding of [har_analyzer.py]

    The analyzer turns a parsed HAR capture (a list of request/response
    entries) into a report.  Every method of [HarAnalyzer] that the report
    is built from is embedded below as a function on the entry list.

    Conventions of the embedding.
    - A JSON object read with [d.get(k, default)] is a record whose fields
      are options; the accessor functions apply the default of the source.
      An absent nested object ([e.get('response', {})]) is [None] and reads
      like an object with no key at all.
    - A Python [str] is a [string]; its characters are the code points
      below 256.  Integers are [Z], other numbers are [Q] (the rounding of
      binary floating point is not part of the model).
    - A Python [dict] used for grouping is an association list in insertion
      order, since the source iterates over it to build ordered output.
    - The fixed Chinese labels of the report (severity, finding type, unit
      suffixes) are constructors; a number rendered by a format string is
      kept as the number with its number of decimals and its unit.  The
      constant [suggestion] texts and the [description] texts, which are
      rendered from fields recorded next to them, are left out.
    - The library functions [datetime.fromisoformat], [urlparse],
      [json.loads]/[json.dumps] and [datetime.now] are parameters. *)

From Stdlib Require Import List String Ascii Bool Arith ZArith QArith Lia.
From Stdlib Require Import Permutation Sorted DecimalString Lqa.
Import ListNotations.

Local Open Scope string_scope.
Local Open Scope Z_scope.

(** ** Strings *)

Module Str.

(** [c.lower()] on one code point below 256: the ASCII capitals and the
    Latin-1 capitals (0xC0..0xDE without the multiplication sign). *)
Definition lower_char (c : ascii) : ascii :=
  let n := nat_of_ascii c in
  if ((65 <=? n) && (n <=? 90))%nat then ascii_of_nat (n + 32)
  else if ((192 <=? n) && (n <=? 222) && negb (n =? 215))%nat
       then ascii_of_nat (n + 32)
  else c.

(** [s.lower()] *)
Fixpoint lower (s : string) : string :=
  match s with
  | EmptyString => EmptyString
  | String c r => String (lower_char c) (lower r)
  end.

(** [c.isspace()] below 256: TAB..CR, FS..US, space, NEL, NBSP. *)
Definition is_space (c : ascii) : bool :=
  let n := nat_of_ascii c in
  (((9 <=? n) && (n <=? 13)) || ((28 <=? n) && (n <=? 32))
   || (n =? 133) || (n =? 160))%nat.

(** [s.lstrip()] *)
Fixpoint lstrip (s : string) : string :=
  match s with
  | EmptyString => EmptyString
  | String c r => if is_space c then lstrip r else s
  end.

(** [s.rstrip()] *)
Fixpoint rstrip (s : string) : string :=
  match s with
  | EmptyString => EmptyString
  | String c r =>
      match rstrip r with
      | EmptyString => if is_space c then EmptyString else String c EmptyString
      | r' => String c r'
      end
  end.

(** [s.strip()] *)
Definition strip (s : string) : string := rstrip (lstrip s).

(** [s.split(sep)] for a one-character separator: never empty. *)
Fixpoint split (sep : ascii) (s : string) : list string :=
  match s with
  | EmptyString => [EmptyString]
  | String c r =>
      if Ascii.eqb c sep then EmptyString :: split sep r
      else match split sep r with
           | [] => [String c EmptyString]
           | p :: ps => String c p :: ps
           end
  end.

(** [s.replace(c, t)] for a one-character pattern. *)
Fixpoint replace (c : ascii) (t : string) (s : string) : string :=
  match s with
  | EmptyString => EmptyString
  | String d r =>
      if Ascii.eqb d c then t ++ replace c t r else String d (replace c t r)
  end.

(** [s.startswith(p)] *)
Definition startswith (p s : string) : bool := String.prefix p s.

(** [s[:n]] *)
Definition take (n : nat) (s : string) : string := String.substring 0 n s.

(** The part of [s] before the first [sep], all of [s] when there is none. *)
Fixpoint before (sep : ascii) (s : string) : string :=
  match s with
  | EmptyString => EmptyString
  | String c r =>
      if Ascii.eqb c sep then EmptyString else String c (before sep r)
  end.

End Str.

(** [s[:limit] + ('...' if len(s) > limit else '')] *)
Definition truncate (limit : nat) (s : string) : string :=
  Str.take limit s ++ (if (limit <? String.length s)%nat then "..." else "").

(** ** Numbers and rendered numbers *)

Definition Qltb (a b : Q) : bool := negb (Qle_bool b a).

(** [sum(xs)]: Python adds from the left, starting at 0. *)
Definition sumQ (xs : list Q) : Q := fold_left Qplus xs 0%Q.
Definition sumZ (xs : list Z) : Z := fold_left Z.add xs 0.

(** [min(xs)] and [max(xs)] of a non-empty list: the first extremal item. *)
Definition minQ (x : Q) (xs : list Q) : Q :=
  fold_left (fun m y => if Qltb y m then y else m) xs x.
Definition maxQ (x : Q) (xs : list Q) : Q :=
  fold_left (fun m y => if Qltb m y then y else m) xs x.

(** Unit suffixes of the format strings. *)
Inductive unit_ : Type :=
| UPercent   (* "%"  *)
| UMs        (* "ms" *)
| USec       (* "秒" *)
| UB | UKB | UMB | UGB.

(** A string of the report: a literal, or [f"{x:.{digits}f}{unit}"]. *)
Inductive text : Type :=
| Lit (s : string)
| Fixed (digits : nat) (x : Q) (u : unit_).

(** [_format_size]: the loop divides by 1024 while a larger unit remains. *)
Fixpoint scale_size (size : Q) (u : unit_) (larger : list unit_) : Q * unit_ :=
  match larger with
  | [] => (size, u)
  | u' :: rest =>
      if Qle_bool 1024 size then scale_size (size / 1024) u' rest else (size, u)
  end.

Definition _format_size (size_bytes : Q) : text :=
  if Qeq_bool size_bytes 0 then Lit "0B"
  else let (size, u) := scale_size size_bytes UB [UKB; UMB; UGB] in
       Fixed 1 size u.

(** ** Python's [sorted]: a stable sort.

    [precedes y x] says that the key of [y] is strictly before the key of
    [x] in the requested order.  Insertion from the right keeps items whose
    keys are equal in their original order, as [sorted] does (also with
    [reverse=True]). *)
Section Sorting.
Context {A : Type} (precedes : A -> A -> bool).

Fixpoint insert_sorted (x : A) (l : list A) : list A :=
  match l with
  | [] => [x]
  | y :: ys => if precedes y x then y :: insert_sorted x ys else x :: l
  end.

Definition sorted (l : list A) : list A := fold_right insert_sorted [] l.
End Sorting.

(** ** Grouping dictionaries

    [if k not in d: d[k] = []] followed by [d[k].append(v)]. *)
Section Grouping.
Context {V : Type}.

Fixpoint group_append (k : string) (v : V) (d : list (string * list V))
  : list (string * list V) :=
  match d with
  | [] => [(k, [v])]
  | (k', vs) :: rest =>
      if String.eqb k' k then (k', (vs ++ [v])%list) :: rest
      else (k', vs) :: group_append k v rest
  end.

(** [d[k] = f(d.get(k, init))], keeping the position of an existing key. *)
Fixpoint dict_update (k : string) (init : V) (f : V -> V)
         (d : list (string * V)) : list (string * V) :=
  match d with
  | [] => [(k, f init)]
  | (k', v) :: rest =>
      if String.eqb k' k then (k', f v) :: rest
      else (k', v) :: dict_update k init f rest
  end.

Fixpoint dict_get (k : string) (d : list (string * V)) : option V :=
  match d with
  | [] => None
  | (k', v) :: rest => if String.eqb k' k then Some v else dict_get k rest
  end.
End Grouping.

(** [enumerate(xs)] *)
Fixpoint enumerate_from {A : Type} (i : Z) (xs : list A) : list (Z * A) :=
  match xs with
  | [] => []
  | x :: r => (i, x) :: enumerate_from (i + 1) r
  end.
Definition enumerate {A : Type} (xs : list A) : list (Z * A) :=
  enumerate_from 0 xs.

(** [str(n)] for an integer. *)
Definition str_of_Z (n : Z) : string :=
  DecimalString.NilZero.string_of_int (Z.to_int n).

Definition len {A : Type} (xs : list A) : Z := Z.of_nat (List.length xs).
Arguments len : simpl never.

(** ** The document model *)

Record Header : Type := mkHeader {
  h_name  : option string;
  h_value : option string }.

Record Content : Type := mkContent {
  c_size     : option Z;
  c_mimeType : option string;
  c_text     : option string;
  c_encoding : option string }.

Record PostData : Type := mkPostData {
  pd_mimeType : option string;
  pd_text     : option string;
  pd_params   : option (list Header) }.

Record Request : Type := mkRequest {
  rq_method      : option string;
  rq_url         : option string;
  rq_headers     : option (list Header);
  rq_queryString : option (list Header);
  rq_postData    : option PostData }.

Record Response : Type := mkResponse {
  rs_status     : option Z;
  rs_statusText : option string;
  rs_headers    : option (list Header);
  rs_content    : option Content }.

Record Timings : Type := mkTimings {
  t_dns : option Q; t_connect : option Q; t_ssl : option Q;
  t_send : option Q; t_wait : option Q; t_receive : option Q }.

Record Entry : Type := mkEntry {
  e_request         : option Request;
  e_response        : option Response;
  e_timings         : option Timings;
  e_time            : option Q;
  e_serverIPAddress : option string;
  e_startedDateTime : option string;
  e_cache           : option string }.

(** [o.get(k, d)] *)
Definition get {A : Type} (o : option A) (d : A) : A :=
  match o with Some a => a | None => d end.

(** [o.get(k1, {}).get(k2, d)] *)
Definition get2 {A B : Type} (o : option A) (f : A -> option B) (d : B) : B :=
  match o with Some a => get (f a) d | None => d end.

Definition name_of (h : Header) : string := get (h_name h) "".
Definition value_of (h : Header) : string := get (h_value h) "".

(** [entry.get('response', {}).get('status', 0)] and its siblings. *)
Definition status_of (e : Entry) : Z := get2 (e_response e) rs_status 0.
Definition url_of (e : Entry) : string := get2 (e_request e) rq_url "".
Definition method_of (e : Entry) : string := get2 (e_request e) rq_method "GET".
Definition time_of (e : Entry) : Q := get (e_time e) 0%Q.
Definition started_of (e : Entry) : string := get (e_startedDateTime e) "".
Definition server_ip_of (e : Entry) : string := get (e_serverIPAddress e) "N/A".
Definition response_headers_of (e : Entry) : list Header :=
  get2 (e_response e) rs_headers [].
Definition request_headers_of (e : Entry) : list Header :=
  get2 (e_request e) rq_headers [].
Definition content_of (e : Entry) : option Content :=
  match e_response e with Some r => rs_content r | None => None end.
Definition size_of (e : Entry) : Z := get2 (content_of e) c_size 0.

(** The three tests on the status that the source uses. *)
Definition is_success (s : Z) : bool := (200 <=? s) && (s <? 400).
Definition is_error (s : Z) : bool := (400 <=? s) || (s =? 0).
Definition is_http_error (s : Z) : bool := 400 <=? s.

(** ** Summary *)

Record Summary : Type := mkSummary {
  total_requests      : Z;
  successful_requests : Z;
  failed_requests     : Z;
  success_rate        : text;
  sm_avg_response_time : text;
  sm_total_size       : text;
  sm_total_time       : text;
  analysis_time       : string }.

Definition _get_summary (now : string) (entries : list Entry) : Summary :=
  let total := len entries in
  let successful := len (filter (fun e => is_success (status_of e)) entries) in
  let failed := total - successful in
  let total_size := sumZ (map size_of entries) in
  let times := map time_of entries in
  let avg :=
    match times with
    | [] => 0%Q
    | _ => (sumQ times / inject_Z (len times))%Q
    end in
  let total_time := sumQ (map time_of entries) in
  {| total_requests := total;
     successful_requests := successful;
     failed_requests := failed;
     success_rate :=
       if 0 <? total
       then Fixed 1 (inject_Z successful / inject_Z total * 100)%Q UPercent
       else Lit "0%";
     sm_avg_response_time := Fixed 2 avg UMs;
     sm_total_size := _format_size (inject_Z total_size);
     sm_total_time := Fixed 2 total_time UMs;
     analysis_time := now |}.

(** ** Library functions the analyzer calls *)

(** What the analyzer uses of a parsed [datetime]: whether it carries a UTC
    offset, its position on the time line in microseconds (the UTC instant
    when aware, the wall clock when naive) and its [isoformat()] text. *)
Record DateTime : Type := mkDateTime {
  dt_aware  : bool;
  dt_micros : Z;
  dt_iso    : string }.

(** [urlparse(url)]: the two components the analyzer reads. *)
Record UrlParts : Type := mkUrlParts {
  netloc : string;
  path   : string }.

(** ** Records of the report *)

Inductive Severity : Type :=
| High     (* "高" *)
| Medium   (* "中" *)
| Low.     (* "低" *)

(** Status codes of the two fixed tables, [error_info] and
    [error_categories]; both have the same keys. *)
Definition catalog : list Z :=
  [400; 401; 403; 404; 405; 408; 429; 500; 502; 503; 504].

Definition in_catalog (s : Z) : bool := existsb (Z.eqb s) catalog.

(** Which record of the knowledge base an error resolves to. *)
Inductive CatalogRecord : Type :=
| ConnectionFailure            (* the special case of status 0 *)
| Known (status : Z)           (* [error_info[status]] *)
| UnknownError (status : Z).   (* the default of [error_info.get] *)

Record WhitelistInfo : Type := mkWhitelistInfo {
  wl_ip     : string;
  wl_domain : string }.

Record ErrorAnalysis : Type := mkErrorAnalysis {
  ea_record    : CatalogRecord;
  ea_domain    : string;      (* interpolated into the solutions *)
  ea_server_ip : string;      (* interpolated into the solutions *)
  whitelist_info : option WhitelistInfo }.

Record ErrorDetails : Type := mkErrorDetails {
  ed_status_code : Z;
  ed_status_text : string;
  ed_category    : option Z;  (* key of [error_categories]; [None]: unknown *)
  ed_url         : string;
  ed_method      : string }.

Record PostDataView : Type := mkPostDataView {
  pv_mime_type    : string;
  pv_text         : string;
  pv_full_content : string;
  pv_params       : list Header;
  pv_is_json      : bool;
  pv_is_form      : bool;
  pv_is_multipart : bool }.

Record ResponseView : Type := mkResponseView {
  rv_size         : Z;
  rv_mime_type    : string;
  rv_preview      : string;
  rv_full_content : string;
  rv_encoding     : string;
  rv_is_json      : bool;
  rv_is_html      : bool;
  rv_is_image     : bool;
  rv_is_text      : bool }.

Record TimingView : Type := mkTimingView {
  tv_dns : Q; tv_connect : Q; tv_ssl : Q;
  tv_send : Q; tv_wait : Q; tv_receive : Q }.

Record RequestInfo : Type := mkRequestInfo {
  ri_index              : Z;
  ri_method             : string;
  ri_url                : string;
  ri_domain             : string;
  ri_path               : string;
  ri_status_code        : Z;
  ri_status_text        : string;
  ri_is_error           : bool;
  ri_server_ip          : string;
  ri_content_size       : text;
  ri_content_size_bytes : Z;
  ri_total_time         : text;
  ri_total_time_ms      : Q;
  ri_start_time         : string;
  ri_content_type       : string;
  ri_request_headers    : list (string * string);
  ri_response_headers   : list (string * string);
  ri_query_params       : list (string * string);
  ri_post_data          : option PostDataView;      (* [None]: [{}] *)
  ri_response_content   : option ResponseView;      (* [None]: [{}] *)
  ri_timings            : TimingView;
  ri_cache              : option string;
  ri_error_details      : option ErrorDetails }.

Record RankedRequest : Type := mkRankedRequest {
  rr_url    : string;
  rr_method : string;
  rr_value  : text;      (* "time" or "size" *)
  rr_status : Z }.

Record Performance : Type := mkPerformance {
  avg_response_time   : text;
  min_response_time   : text;
  max_response_time   : text;
  total_transfer_size : text;
  avg_transfer_size   : text;
  slowest_requests    : list RankedRequest;
  largest_requests    : list RankedRequest }.

Record ErrorDetail : Type := mkErrorDetail {
  er_url              : string;
  er_domain           : string;
  er_server_ip        : string;
  er_method           : string;
  er_time             : string;
  er_status           : Z;
  er_status_text      : string;
  er_index            : Z;
  er_error_analysis   : ErrorAnalysis;
  er_response_headers : list (string * string);
  er_response_content : option ResponseView;
  er_timings          : option Timings }.

Record Errors : Type := mkErrors {
  total_errors    : Z;
  error_rate      : text;
  error_breakdown : list (string * list ErrorDetail);
  detailed_errors : list ErrorDetail }.

(** ** Header lookup and formatting *)

(** [_get_content_type]: the loop returns at the first header whose
    lower-cased name is [content-type]. *)
Fixpoint content_type_loop (headers : list Header) : string :=
  match headers with
  | [] => "unknown"
  | header :: rest =>
      if String.eqb (Str.lower (name_of header)) "content-type"
      then Str.strip (hd "" (Str.split ";" (value_of header)))
      else content_type_loop rest
  end.

Definition _get_content_type (response : option Response) : string :=
  content_type_loop (get2 response rs_headers []).

(** [_format_headers] and [_format_query_params]: a later pair overwrites
    the value of an earlier pair with the same name. *)
Definition _format_headers (headers : list Header) : list (string * string) :=
  fold_left (fun d h => dict_update (name_of h) "" (fun _ => value_of h) d)
            headers [].

Definition _format_query_params := _format_headers.

(** [_get_error_details] *)
Definition _get_error_details (entry : Entry) : ErrorDetails :=
  let status := status_of entry in
  {| ed_status_code := status;
     ed_status_text := get2 (e_response entry) rs_statusText "";
     ed_category := if in_catalog status then Some status else None;
     ed_url := url_of entry;
     ed_method := method_of entry |}.

(** [_get_error_analysis] *)
Definition _get_error_analysis (status : Z) (url server_ip domain : string)
  : ErrorAnalysis :=
  if status =? 0 then
    {| ea_record := ConnectionFailure; ea_domain := domain;
       ea_server_ip := server_ip; whitelist_info := None |}
  else
    {| ea_record := if in_catalog status then Known status
                    else UnknownError status;
       ea_domain := domain;
       ea_server_ip := server_ip;
       whitelist_info :=
         if String.eqb server_ip "N/A" then None
         else Some {| wl_ip := server_ip; wl_domain := domain |} |}.

(** ** Exceptions

    The only exception the analyzer can raise on a well-typed document is
    the [TypeError] of comparing a naive with an aware [datetime]. *)
Inductive exn : Type := TypeError.

Inductive result (A : Type) : Type :=
| Ok (a : A)
| Raise (e : exn).
Arguments Ok {A} a.
Arguments Raise {A} e.

Definition bind {A B : Type} (r : result A) (k : A -> result B) : result B :=
  match r with
  | Ok a => k a
  | Raise e => Raise e
  end.

Notation "x <- r ;; k" := (bind r (fun x => k))
  (at level 61, r at next level, right associativity).

(** ** Records of the anomaly detectors *)

Record Hop : Type := mkHop {
  hop_index : Z;
  from_url  : string;
  to_url    : string;
  hop_status : Z;
  hop_time  : string }.

Inductive RedirectType : Type :=
| RedirectLoop        (* "重定向循环" *)
| FrequentRedirect.   (* "频繁重定向" *)

Record RedirectFinding : Type := mkRedirectFinding {
  rf_type         : RedirectType;
  rf_severity     : Severity;
  rf_url          : string;
  rf_chain_length : Z;
  rf_chain        : list Hop }.

Record Occurrence : Type := mkOccurrence {
  oc_index    : Z;
  oc_url      : string;
  oc_method   : string;
  oc_time     : string;
  oc_status   : Z;
  oc_duration : Q }.

(** A finding of type "重复请求". *)
Record DuplicateFinding : Type := mkDuplicateFinding {
  df_severity     : Severity;
  df_url          : string;
  df_method       : string;
  df_count        : Z;
  df_time_span    : text;
  df_avg_interval : text;
  df_requests     : list Occurrence }.

Record Offender : Type := mkOffender {
  of_index : Z;
  of_url   : string;
  of_value : Q }.

Inductive SuspiciousEvidence : Type :=
| HighErrorRate (count total : Z) (rate : text)      (* "高错误率" *)
| LargeResponses (responses : list Offender)         (* "异常大响应" *)
| TimeoutRequests (requests : list Offender).        (* "超时请求" *)

Record SuspiciousFinding : Type := mkSuspiciousFinding {
  sp_severity : Severity;
  sp_evidence : SuspiciousEvidence }.

Inductive PerformanceIssueType : Type :=
| SlowDns        (* "DNS解析缓慢" *)
| SlowConnect    (* "连接建立缓慢" *)
| SlowSsl.       (* "SSL握手缓慢" *)

Record PerformanceIssue : Type := mkPerformanceIssue {
  pi_type     : PerformanceIssueType;
  pi_severity : Severity;
  pi_requests : list Offender }.

Record AuthFailure : Type := mkAuthFailure {
  af_index : Z; af_url : string; af_status : Z; af_method : string }.

Record UserAgentOffender : Type := mkUserAgentOffender {
  ua_index : Z;
  ua_url   : string;
  ua_user_agent : option string }.   (* [None]: the placeholder "空" *)

Inductive SecurityEvidence : Type :=
| InsecureHttp (requests : list (Z * string)) (total_count : Z)
                                                     (* "不安全HTTP连接" *)
| AuthFailures (requests : list AuthFailure)         (* "频繁认证失败" *)
| SuspiciousUserAgent (requests : list UserAgentOffender) (total_count : Z).
                                                     (* "可疑User-Agent" *)

Record SecurityFinding : Type := mkSecurityFinding {
  sc_severity : Severity;
  sc_evidence : SecurityEvidence }.

Record Anomalies : Type := mkAnomalies {
  redirect_loops      : list RedirectFinding;
  duplicate_requests  : list DuplicateFinding;
  suspicious_patterns : list SuspiciousFinding;
  performance_issues  : list PerformanceIssue;
  security_concerns   : list SecurityFinding;
  total_anomalies     : Z;
  has_anomalies       : bool }.

(** ** Records of the grouping analyzers, the timeline and the report *)

Record DomainCounters : Type := mkDomainCounters {
  dc_count      : Z;
  dc_total_size : Z;
  dc_total_time : Q;
  dc_errors     : Z }.

Record DomainStat : Type := mkDomainStat {
  ds_domain        : string;
  ds_request_count : Z;
  ds_total_size    : text;
  ds_avg_time      : text;
  ds_error_count   : Z;
  ds_error_rate    : text }.

Record Domains : Type := mkDomains {
  total_domains : Z;
  domain_stats  : list DomainStat }.

Record TypeCounters : Type := mkTypeCounters {
  tc_count      : Z;
  tc_total_size : Z }.

Record FileTypeStat : Type := mkFileTypeStat {
  ft_type       : string;
  ft_count      : Z;
  ft_total_size : text;
  ft_avg_size   : text;
  ft_percentage : text }.

Record TimelineItem : Type := mkTimelineItem {
  tl_index    : Z;
  tl_time     : string;
  tl_url      : string;
  tl_method   : string;
  tl_status   : Z;
  tl_duration : Q }.

Record Report : Type := mkReport {
  summary     : Summary;
  requests    : list RequestInfo;
  performance : option Performance;
  errors      : Errors;
  anomalies   : Anomalies;
  domains     : Domains;
  file_types  : list FileTypeStat;
  timeline    : list TimelineItem }.

(** ** The analyzer *)

Section Analyzer.

(** [datetime.fromisoformat]; [None] when it raises. *)
Variable fromisoformat : string -> option DateTime.
(** [urlparse] *)
Variable urlparse : string -> UrlParts.
(** [json.dumps(json.loads(text), indent=2, ensure_ascii=False)];
    [None] when it raises. *)
Variable json_pretty : string -> option string.
(** [datetime.now().strftime("%Y-%m-%d %H:%M:%S")] *)
Variable now : string.

(** [datetime.fromisoformat(s.replace('Z', '+00:00'))] under [try]. *)
Definition parse_time (s : string) : option DateTime :=
  fromisoformat (Str.replace "Z" "+00:00" s).

(** *** Body previews *)

Definition _format_post_data (post_data : option PostData)
  : option PostDataView :=
  match post_data with
  | None => None
  | Some pd =>
      let text := get (pd_text pd) "" in
      let mime_type := get (pd_mimeType pd) "" in
      let preview :=
        if String.eqb mime_type "application/json"
           && negb (String.eqb text "")
        then match json_pretty text with
             | Some formatted_text => truncate 2000 formatted_text
             | None => truncate 1000 text
             end
        else truncate 1000 text in
      Some {| pv_mime_type := mime_type;
              pv_text := preview;
              pv_full_content := text;
              pv_params := get (pd_params pd) [];
              pv_is_json := String.eqb mime_type "application/json";
              pv_is_form :=
                String.eqb mime_type "application/x-www-form-urlencoded";
              pv_is_multipart := Str.startswith "multipart/" mime_type |}
  end.

Definition _get_response_preview (content : option Content)
  : option ResponseView :=
  match content with
  | None => None
  | Some c =>
      let text := get (c_text c) "" in
      let mime_type := get (c_mimeType c) "" in
      let raw := if String.eqb text "" then "" else truncate 1000 text in
      let preview :=
        if Str.startswith "application/json" mime_type
        then if String.eqb text "" then ""
             else match json_pretty text with
                  | Some formatted_text => truncate 2000 formatted_text
                  | None => raw
                  end
        else raw in
      Some {| rv_size := get (c_size c) 0;
              rv_mime_type := mime_type;
              rv_preview := preview;
              rv_full_content := text;
              rv_encoding := get (c_encoding c) "";
              rv_is_json := Str.startswith "application/json" mime_type;
              rv_is_html := Str.startswith "text/html" mime_type;
              rv_is_image := Str.startswith "image/" mime_type;
              rv_is_text := Str.startswith "text/" mime_type |}
  end.

(** *** Request list *)

Definition request_info (i : Z) (entry : Entry) : RequestInfo :=
  let url := url_of entry in
  let parsed_url := urlparse url in
  let status_code := status_of entry in
  let is_err := is_error status_code in
  let content_size := size_of entry in
  let total_time := time_of entry in
  {| ri_index := i + 1;
     ri_method := method_of entry;
     ri_url := url;
     ri_domain := netloc parsed_url;
     ri_path := path parsed_url;
     ri_status_code := status_code;
     ri_status_text := get2 (e_response entry) rs_statusText "";
     ri_is_error := is_err;
     ri_server_ip := server_ip_of entry;
     ri_content_size := _format_size (inject_Z content_size);
     ri_content_size_bytes := content_size;
     ri_total_time := Fixed 2 total_time UMs;
     ri_total_time_ms := total_time;
     ri_start_time := started_of entry;
     ri_content_type := _get_content_type (e_response entry);
     ri_request_headers := _format_headers (request_headers_of entry);
     ri_response_headers := _format_headers (response_headers_of entry);
     ri_query_params :=
       _format_query_params (get2 (e_request entry) rq_queryString []);
     ri_post_data :=
       _format_post_data
         (match e_request entry with
          | Some r => rq_postData r
          | None => None
          end);
     ri_response_content := _get_response_preview (content_of entry);
     ri_timings :=
       {| tv_dns := get2 (e_timings entry) t_dns (-1)%Q;
          tv_connect := get2 (e_timings entry) t_connect (-1)%Q;
          tv_ssl := get2 (e_timings entry) t_ssl (-1)%Q;
          tv_send := get2 (e_timings entry) t_send (-1)%Q;
          tv_wait := get2 (e_timings entry) t_wait (-1)%Q;
          tv_receive := get2 (e_timings entry) t_receive (-1)%Q |};
     ri_cache := e_cache entry;
     ri_error_details :=
       if is_err then Some (_get_error_details entry) else None |}.

Definition _analyze_requests (entries : list Entry) : list RequestInfo :=
  map (fun ie => request_info (fst ie) (snd ie)) (enumerate entries).

(** *** Performance *)

Definition _get_slowest_requests (limit : nat) (entries : list Entry)
  : list RankedRequest :=
  let sorted_entries :=
    sorted (fun y x => Qltb (time_of x) (time_of y)) entries in
  map (fun entry =>
         {| rr_url := url_of entry;
            rr_method := method_of entry;
            rr_value := Fixed 2 (time_of entry) UMs;
            rr_status := status_of entry |})
      (firstn limit sorted_entries).

Definition _get_largest_requests (limit : nat) (entries : list Entry)
  : list RankedRequest :=
  let sorted_entries :=
    sorted (fun y x => size_of x <? size_of y) entries in
  map (fun entry =>
         {| rr_url := url_of entry;
            rr_method := method_of entry;
            rr_value := _format_size (inject_Z (size_of entry));
            rr_status := status_of entry |})
      (firstn limit sorted_entries).

(** [None] is the empty dictionary returned for an empty document. *)
Definition _analyze_performance (entries : list Entry) : option Performance :=
  match entries with
  | [] => None
  | e :: es =>
      let times := map time_of entries in
      let sizes := map size_of entries in
      Some {| avg_response_time :=
                Fixed 2 (sumQ times / inject_Z (len times))%Q UMs;
              min_response_time :=
                Fixed 2 (minQ (time_of e) (map time_of es)) UMs;
              max_response_time :=
                Fixed 2 (maxQ (time_of e) (map time_of es)) UMs;
              total_transfer_size := _format_size (inject_Z (sumZ sizes));
              avg_transfer_size :=
                _format_size (inject_Z (sumZ sizes) / inject_Z (len sizes))%Q;
              slowest_requests := _get_slowest_requests 5 entries;
              largest_requests := _get_largest_requests 5 entries |}
  end.

(** *** Errors *)

(** The inner loop of [_analyze_errors]: the first entry of the document
    with this url and this status, as [j + 1]. *)
Fixpoint find_original (url : string) (status : Z)
         (indexed : list (Z * Entry)) : option Z :=
  match indexed with
  | [] => None
  | (j, orig_entry) :: rest =>
      if String.eqb (url_of orig_entry) url && (status_of orig_entry =? status)
      then Some (j + 1)
      else find_original url status rest
  end.

(** [a or b] on an optional integer: [None] and [0] are false. *)
Definition or_else (a : option Z) (b : Z) : Z :=
  match a with
  | Some n => if n =? 0 then b else n
  | None => b
  end.

Definition error_detail (entries : list Entry) (i : Z) (entry : Entry)
  : ErrorDetail :=
  let status := status_of entry in
  let status_text := get2 (e_response entry) rs_statusText "Unknown" in
  let url := url_of entry in
  let parsed_url := urlparse url in
  let server_ip := server_ip_of entry in
  let original_index := find_original url status (enumerate entries) in
  {| er_url := url;
     er_domain := netloc parsed_url;
     er_server_ip := server_ip;
     er_method := method_of entry;
     er_time := started_of entry;
     er_status := status;
     er_status_text := status_text;
     er_index := or_else original_index (i + 1);
     er_error_analysis :=
       _get_error_analysis status url server_ip (netloc parsed_url);
     er_response_headers := _format_headers (response_headers_of entry);
     er_response_content := _get_response_preview (content_of entry);
     er_timings := e_timings entry |}.

(** The key [f"{status} {status_text}"] of [error_stats]. *)
Definition error_key (d : ErrorDetail) : string :=
  str_of_Z (er_status d) ++ " " ++ er_status_text d.

Definition _analyze_errors (entries : list Entry) : Errors :=
  let error_entries := filter (fun e => is_error (status_of e)) entries in
  let details :=
    map (fun ie => error_detail entries (fst ie) (snd ie))
        (enumerate error_entries) in
  {| total_errors := len error_entries;
     error_rate :=
       match entries with
       | [] => Lit "0%"
       | _ => Fixed 1 (inject_Z (len error_entries)
                       / inject_Z (len entries) * 100)%Q UPercent
       end;
     error_breakdown :=
       fold_left (fun d x => group_append (error_key x) x d) details [];
     detailed_errors := details |}.

(** *** Anomalies: redirect chains *)

(** The header loop of [_detect_redirect_loops]: the value of the first
    header whose lower-cased name is [location]. *)
Fixpoint location_loop (headers : list Header) : option string :=
  match headers with
  | [] => None
  | header :: rest =>
      if String.eqb (Str.lower (name_of header)) "location"
      then Some (value_of header)
      else location_loop rest
  end.

(** [if location:] *)
Definition truthy (location : option string) : bool :=
  match location with
  | None => false
  | Some l => negb (String.eqb l "")
  end.

Definition record_hop (chains : list (string * list Hop)) (ie : Z * Entry)
  : list (string * list Hop) :=
  let (i, entry) := ie in
  let status := status_of entry in
  let url := url_of entry in
  if (300 <=? status) && (status <? 400) then
    let location := location_loop (response_headers_of entry) in
    if truthy location then
      group_append url
        {| hop_index := i + 1;
           from_url := url;
           to_url := get location "";
           hop_status := status;
           hop_time := started_of entry |} chains
    else chains
  else chains.

Definition redirect_chains (entries : list Entry) : list (string * list Hop) :=
  fold_left record_hop (enumerate entries) [].

(** The inner loop over one chain: [true] when it reaches the [append]. *)
Fixpoint revisits (visited_urls : list string) (chain : list Hop) : bool :=
  match chain with
  | [] => false
  | redirect :: rest =>
      if existsb (String.eqb (to_url redirect)) visited_urls then true
      else revisits (from_url redirect :: visited_urls) rest
  end.

Definition chain_findings (uc : string * list Hop) : list RedirectFinding :=
  let (url, chain) := uc in
  if 3 <? len chain then
    if revisits [] chain
    then [ {| rf_type := RedirectLoop; rf_severity := High; rf_url := url;
              rf_chain_length := len chain; rf_chain := chain |} ]
    else []
  else if 1 <? len chain then
    [ {| rf_type := FrequentRedirect; rf_severity := Medium; rf_url := url;
         rf_chain_length := len chain; rf_chain := chain |} ]
  else [].

Definition _detect_redirect_loops (entries : list Entry)
  : list RedirectFinding :=
  flat_map chain_findings (redirect_chains entries).

(** *** Anomalies: duplicate requests *)

Definition request_key (entry : Entry) : string :=
  method_of entry ++ ":" ++ url_of entry.

Definition record_request (d : list (string * list Occurrence))
           (ie : Z * Entry) : list (string * list Occurrence) :=
  let (i, entry) := ie in
  group_append (request_key entry)
    {| oc_index := i + 1;
       oc_url := url_of entry;
       oc_method := method_of entry;
       oc_time := started_of entry;
       oc_status := status_of entry;
       oc_duration := time_of entry |} d.

Definition url_requests (entries : list Entry)
  : list (string * list Occurrence) :=
  fold_left record_request (enumerate entries) [].

(** The start times of a group that parse, in order. *)
Fixpoint parsed_times (requests : list Occurrence) : list DateTime :=
  match requests with
  | [] => []
  | req :: rest =>
      match parse_time (oc_time req) with
      | Some dt => dt :: parsed_times rest
      | None => parsed_times rest
      end
  end.

(** [max(times)] and [min(times)]: comparing an aware with a naive
    [datetime] raises. *)
Fixpoint max_from (m : DateTime) (times : list DateTime) : result DateTime :=
  match times with
  | [] => Ok m
  | t :: rest =>
      if Bool.eqb (dt_aware t) (dt_aware m)
      then max_from (if dt_micros m <? dt_micros t then t else m) rest
      else Raise TypeError
  end.

Fixpoint min_from (m : DateTime) (times : list DateTime) : result DateTime :=
  match times with
  | [] => Ok m
  | t :: rest =>
      if Bool.eqb (dt_aware t) (dt_aware m)
      then min_from (if dt_micros t <? dt_micros m then t else m) rest
      else Raise TypeError
  end.

(** [(a - b).total_seconds()].  The quotients below are exact; with start
    times in whole microseconds the rounded quotients of the source fall on
    the same side of the thresholds 1 and 10 for every group of fewer than
    2^32 requests. *)
Definition total_seconds (a b : DateTime) : Q :=
  (inject_Z (dt_micros a - dt_micros b) / 1000000)%Q.

Definition severity_of_interval (avg_interval : Q) : Severity :=
  if Qltb avg_interval 1 then High
  else if Qltb avg_interval 10 then Medium
  else Low.

(** The body of the loop over the groups: the findings this group adds. *)
Definition group_findings (requests : list Occurrence)
  : result (list DuplicateFinding) :=
  if 3 <? len requests then
    match parsed_times requests, requests with
    | t :: ts, first :: _ =>
        let times := t :: ts in
        if 1 <? len times then
          hi <- max_from t ts ;;
          lo <- min_from t ts ;;
          let time_span := total_seconds hi lo in
          let avg_interval :=
            (if 1 <? len times
             then time_span / inject_Z (len times - 1) else 0)%Q in
          Ok [ {| df_severity := severity_of_interval avg_interval;
                  df_url := oc_url first;
                  df_method := oc_method first;
                  df_count := len requests;
                  df_time_span := Fixed 1 time_span USec;
                  df_avg_interval := Fixed 1 avg_interval USec;
                  df_requests := requests |} ]
        else Ok []
    | _, _ => Ok []
    end
  else Ok [].

Fixpoint duplicate_groups (groups : list (string * list Occurrence))
  : result (list DuplicateFinding) :=
  match groups with
  | [] => Ok []
  | (_, requests) :: rest =>
      found <- group_findings requests ;;
      more <- duplicate_groups rest ;;
      Ok (found ++ more)%list
  end.

Definition _detect_duplicate_requests (entries : list Entry)
  : result (list DuplicateFinding) :=
  found <- duplicate_groups (url_requests entries) ;;
  Ok (sorted (fun y x => df_count x <? df_count y) found).

(** *** Anomalies: suspicious patterns *)

(** The list built by a loop [for i, entry in enumerate(entries)] that
    appends one offender for each entry passing [test]. *)
Definition offenders (test : Entry -> bool) (value : Entry -> Q)
           (entries : list Entry) : list Offender :=
  map (fun ie => {| of_index := fst ie + 1;
                    of_url := url_of (snd ie);
                    of_value := value (snd ie) |})
      (filter (fun ie => test (snd ie)) (enumerate entries)).

(** [error_count / total_count > 0.3].  The quotient is compared exactly;
    the rounded quotient of the source decides the same way for every
    document of fewer than 10^15 entries. *)
Definition over_30_percent (error_count total_count : Z) : bool :=
  Qltb (3 # 10) (inject_Z error_count / inject_Z total_count).

Definition _detect_suspicious_patterns (entries : list Entry)
  : list SuspiciousFinding :=
  let error_count :=
    len (filter (fun e => is_http_error (status_of e)) entries) in
  let total_count := len entries in
  let high_error_rate :=
    if (0 <? total_count) && over_30_percent error_count total_count
    then [ {| sp_severity := High;
              sp_evidence :=
                HighErrorRate error_count total_count
                  (Fixed 1 (inject_Z error_count / inject_Z total_count * 100)%Q
                         UPercent) |} ]
    else [] in
  let large_responses :=
    offenders (fun e => 10 * 1024 * 1024 <? size_of e)
              (fun e => inject_Z (size_of e)) entries in
  let slow_requests :=
    offenders (fun e => Qltb 30000 (time_of e)) time_of entries in
  (high_error_rate
   ++ match large_responses with
      | [] => []
      | _ => [ {| sp_severity := Medium;
                  sp_evidence := LargeResponses large_responses |} ]
      end
   ++ match slow_requests with
      | [] => []
      | _ => [ {| sp_severity := Medium;
                  sp_evidence := TimeoutRequests slow_requests |} ]
      end)%list.

(** *** Anomalies: performance issues *)

Definition timing_issue (kind : PerformanceIssueType) (sev : Severity)
           (timing : Timings -> option Q) (threshold : Q)
           (entries : list Entry) : list PerformanceIssue :=
  let value := fun e => get2 (e_timings e) timing (-1)%Q in
  match offenders (fun e => Qltb threshold (value e)) value entries with
  | [] => []
  | issues => [ {| pi_type := kind; pi_severity := sev;
                   pi_requests := issues |} ]
  end.

Definition _detect_performance_issues (entries : list Entry)
  : list PerformanceIssue :=
  match entries with
  | [] => []
  | _ =>
      (timing_issue SlowDns Medium t_dns 1000 entries
       ++ timing_issue SlowConnect High t_connect 3000 entries
       ++ timing_issue SlowSsl Medium t_ssl 2000 entries)%list
  end.

(** *** Anomalies: security concerns *)

(** The header loop on the user agent: it stops at the first header whose
    lower-cased name is [user-agent], and reports its value when that is
    empty or shorter than 20 characters. *)
Fixpoint user_agent_loop (headers : list Header) : option string :=
  match headers with
  | [] => None
  | header :: rest =>
      if String.eqb (Str.lower (name_of header)) "user-agent" then
        let ua := value_of header in
        if String.eqb ua "" || (String.length ua <? 20)%nat
        then Some ua else None
      else user_agent_loop rest
  end.

Fixpoint suspicious_user_agents (indexed : list (Z * Entry))
  : list UserAgentOffender :=
  match indexed with
  | [] => []
  | (i, entry) :: rest =>
      match user_agent_loop (request_headers_of entry) with
      | Some ua =>
          {| ua_index := i + 1;
             ua_url := url_of entry;
             ua_user_agent := if String.eqb ua "" then None else Some ua |}
          :: suspicious_user_agents rest
      | None => suspicious_user_agents rest
      end
  end.

Definition _detect_security_concerns (entries : list Entry)
  : list SecurityFinding :=
  let http_requests :=
    map (fun ie => (fst ie + 1, url_of (snd ie)))
        (filter (fun ie => Str.startswith "http://" (url_of (snd ie)))
                (enumerate entries)) in
  let auth_failures :=
    map (fun ie => {| af_index := fst ie + 1;
                      af_url := url_of (snd ie);
                      af_status := status_of (snd ie);
                      af_method := method_of (snd ie) |})
        (filter (fun ie => existsb (Z.eqb (status_of (snd ie))) [401; 403])
                (enumerate entries)) in
  let suspicious_ua := suspicious_user_agents (enumerate entries) in
  (match http_requests with
   | [] => []
   | _ => [ {| sc_severity := Medium;
               sc_evidence := InsecureHttp (firstn 10 http_requests)
                                           (len http_requests) |} ]
   end
   ++ (if 5 <? len auth_failures
       then [ {| sc_severity := High;
                 sc_evidence := AuthFailures auth_failures |} ]
       else [])
   ++ match suspicious_ua with
      | [] => []
      | _ => [ {| sc_severity := Low;
                  sc_evidence := SuspiciousUserAgent (firstn 5 suspicious_ua)
                                                     (len suspicious_ua) |} ]
      end)%list.

(** *** Anomalies *)

Definition _analyze_anomalies (entries : list Entry) : result Anomalies :=
  let redirects := _detect_redirect_loops entries in
  duplicates <- _detect_duplicate_requests entries ;;
  let suspicious := _detect_suspicious_patterns entries in
  let issues := _detect_performance_issues entries in
  let concerns := _detect_security_concerns entries in
  let total :=
    sumZ [len redirects; len duplicates; len suspicious; len issues;
          len concerns] in
  Ok {| redirect_loops := redirects;
        duplicate_requests := duplicates;
        suspicious_patterns := suspicious;
        performance_issues := issues;
        security_concerns := concerns;
        total_anomalies := total;
        has_anomalies := 0 <? total |}.

(** *** Domains *)

Definition count_domain (d : list (string * DomainCounters)) (entry : Entry)
  : list (string * DomainCounters) :=
  let domain := netloc (urlparse (url_of entry)) in
  dict_update domain
    {| dc_count := 0; dc_total_size := 0; dc_total_time := 0;
       dc_errors := 0 |}
    (fun st =>
       {| dc_count := dc_count st + 1;
          dc_total_size := dc_total_size st + size_of entry;
          dc_total_time := (dc_total_time st + time_of entry)%Q;
          dc_errors :=
            if is_http_error (status_of entry) then dc_errors st + 1
            else dc_errors st |})
    d.

Definition format_domain (ds : string * DomainCounters) : DomainStat :=
  let (domain, stats) := ds in
  {| ds_domain := domain;
     ds_request_count := dc_count stats;
     ds_total_size := _format_size (inject_Z (dc_total_size stats));
     ds_avg_time :=
       if 0 <? dc_count stats
       then Fixed 2 (dc_total_time stats / inject_Z (dc_count stats))%Q UMs
       else Lit "0ms";
     ds_error_count := dc_errors stats;
     ds_error_rate :=
       if 0 <? dc_count stats
       then Fixed 1 (inject_Z (dc_errors stats)
                     / inject_Z (dc_count stats) * 100)%Q UPercent
       else Lit "0%" |}.

Definition _analyze_domains (entries : list Entry) : Domains :=
  let stats := fold_left count_domain entries [] in
  {| total_domains := len stats;
     domain_stats :=
       sorted (fun y x => ds_request_count x <? ds_request_count y)
              (map format_domain stats) |}.

(** *** File types *)

Definition count_type (d : list (string * TypeCounters)) (entry : Entry)
  : list (string * TypeCounters) :=
  dict_update (_get_content_type (e_response entry))
    {| tc_count := 0; tc_total_size := 0 |}
    (fun st => {| tc_count := tc_count st + 1;
                  tc_total_size := tc_total_size st + size_of entry |})
    d.

Definition format_type (total_requests : Z) (ts : string * TypeCounters)
  : FileTypeStat :=
  let (file_type, stats) := ts in
  {| ft_type := file_type;
     ft_count := tc_count stats;
     ft_total_size := _format_size (inject_Z (tc_total_size stats));
     ft_avg_size :=
       if 0 <? tc_count stats
       then _format_size (inject_Z (tc_total_size stats)
                          / inject_Z (tc_count stats))%Q
       else Lit "0B";
     ft_percentage :=
       if 0 <? total_requests
       then Fixed 1 (inject_Z (tc_count stats)
                     / inject_Z total_requests * 100)%Q UPercent
       else Lit "0%" |}.

Definition file_type_counters (entries : list Entry)
  : list (string * TypeCounters) :=
  fold_left count_type entries [].

Definition _analyze_file_types (entries : list Entry) : list FileTypeStat :=
  sorted (fun y x => ft_count x <? ft_count y)
         (map (format_type (len entries)) (file_type_counters entries)).

(** *** Timeline *)

Fixpoint timeline_items (indexed : list (Z * Entry)) : list TimelineItem :=
  match indexed with
  | [] => []
  | (i, entry) :: rest =>
      let start_time := started_of entry in
      if String.eqb start_time "" then timeline_items rest
      else match parse_time start_time with
           | Some dt =>
               {| tl_index := i + 1;
                  tl_time := dt_iso dt;
                  tl_url := url_of entry;
                  tl_method := method_of entry;
                  tl_status := status_of entry;
                  tl_duration := time_of entry |} :: timeline_items rest
           | None => timeline_items rest
           end
  end.

Definition _create_timeline (entries : list Entry) : list TimelineItem :=
  sorted (fun y x => String.ltb (tl_time y) (tl_time x))
         (timeline_items (enumerate entries)).

(** *** The report *)

Definition analyze (entries : list Entry) : result Report :=
  let the_summary := _get_summary now entries in
  let the_requests := _analyze_requests entries in
  let the_performance := _analyze_performance entries in
  let the_errors := _analyze_errors entries in
  the_anomalies <- _analyze_anomalies entries ;;
  Ok {| summary := the_summary;
        requests := the_requests;
        performance := the_performance;
        errors := the_errors;
        anomalies := the_anomalies;
        domains := _analyze_domains entries;
        file_types := _analyze_file_types entries;
        timeline := _create_timeline entries |}.

End Analyzer.


(** ** Reference notions of the specification

    The notions the properties below are stated with.  They follow the
    words of the specification and are compared with the functions
    embedded from the source. *)

(** Header lookup: the value of the first header whose name matches [name]
    without regard to case. *)
Definition header_lookup (name : string) (headers : list Header)
  : option string :=
  option_map value_of
    (find (fun h => String.eqb (Str.lower (name_of h)) name) headers).

(** The number of entries of a document that pass a test. *)
Definition count (test : Entry -> bool) (entries : list Entry) : Z :=
  len (filter test entries).

(** The number a rendered string was made from. *)
Definition text_value (t : text) : Q :=
  match t with
  | Lit _ => 0
  | Fixed _ x _ => x
  end.

Definition is_low (s : Severity) : bool :=
  match s with Low => true | _ => false end.

(** A dictionary entry after more values were appended under its key. *)
Definition extended {V : Type} (old : option (list V)) (more : list V)
  : option (list V) :=
  match old, more with
  | Some vs, _ => Some (vs ++ more)%list
  | None, [] => None
  | None, _ => Some more
  end.

(** *** User agent *)

(** An entry whose first [User-Agent] request header has a value of fewer
    than 20 characters (the empty value included). *)
Definition short_user_agent (e : Entry) : bool :=
  match header_lookup "user-agent" (request_headers_of e) with
  | Some ua => (String.length ua <? 20)%nat
  | None => false
  end.

Definition user_agent_offender (ie : Z * Entry) : UserAgentOffender :=
  {| ua_index := fst ie + 1;
     ua_url := url_of (snd ie);
     ua_user_agent :=
       match header_lookup "user-agent" (request_headers_of (snd ie)) with
       | Some ua => if String.eqb ua "" then None else Some ua
       | None => None
       end |}.

(** *** Content types *)

(** The resolved content type of an entry. *)
Definition content_type_of (e : Entry) : string :=
  _get_content_type (e_response e).

(** The number of entries of a document that resolve to a content type. *)
Definition tally (k : string) (entries : list Entry) : Z :=
  count (fun e => String.eqb (content_type_of e) k) entries.

Definition count_of (k : string) (d : list (string * TypeCounters)) : Z :=
  tc_count (get (dict_get k d) {| tc_count := 0; tc_total_size := 0 |}).

(** *** Errors *)

(** An entry with this url and this status. *)
Definition same_request (url : string) (status : Z) (e : Entry) : Prop :=
  url_of e = url /\ status_of e = status.

(** *** Body previews *)

(** Truncation: a text within the limit is kept, a longer one is cut to the
    limit and gets an ellipsis. *)
Definition clip (limit : nat) (s : string) : string :=
  if (String.length s <=? limit)%nat then s else Str.take limit s ++ "...".

(** The preview policy; [json] says whether the JSON branch applies to the
    declared MIME type. *)
Definition body_preview (json_pretty : string -> option string)
           (json : bool) (text : string) : string :=
  if json && negb (String.eqb text "") then
    match json_pretty text with
    | Some pretty => clip 2000 pretty
    | None => clip 1000 text
    end
  else clip 1000 text.

(** *** Redirect chains *)

(** A 3xx response that carries a non-empty [Location] header. *)
Definition is_hop (e : Entry) : bool :=
  (300 <=? status_of e) && (status_of e <? 400)
  && truthy (header_lookup "location" (response_headers_of e)).

Definition hop_of (ie : Z * Entry) : Hop :=
  {| hop_index := fst ie + 1;
     from_url := url_of (snd ie);
     to_url :=
       get (header_lookup "location" (response_headers_of (snd ie))) "";
     hop_status := status_of (snd ie);
     hop_time := started_of (snd ie) |}.

(** The hops of the entries requesting [u], in document order. *)
Definition hops_in (u : string) (indexed : list (Z * Entry)) : list Hop :=
  map hop_of
      (filter (fun ie => is_hop (snd ie) && String.eqb (url_of (snd ie)) u)
              indexed).

Definition hops_of (u : string) (entries : list Entry) : list Hop :=
  hops_in u (enumerate entries).

(** An earlier-seen "from" url reappears as the "to" url of a later hop. *)
Definition chain_revisits (chain : list Hop) : Prop :=
  exists i j hi hj,
    (j < i)%nat /\ nth_error chain i = Some hi /\ nth_error chain j = Some hj
    /\ to_url hi = from_url hj.

(** The findings the detector reports for the url [u]. *)
Definition findings_for (u : string) (entries : list Entry)
  : list RedirectFinding :=
  filter (fun f => String.eqb (rf_url f) u) (_detect_redirect_loops entries).

(** *** Duplicate requests *)

Definition occurrence_of (ie : Z * Entry) : Occurrence :=
  {| oc_index := fst ie + 1;
     oc_url := url_of (snd ie);
     oc_method := method_of (snd ie);
     oc_time := started_of (snd ie);
     oc_status := status_of (snd ie);
     oc_duration := time_of (snd ie) |}.

(** The occurrences of the request [k] (a "method:url" key), in document
    order. *)
Definition occurrences_in (k : string) (indexed : list (Z * Entry))
  : list Occurrence :=
  map occurrence_of
      (filter (fun ie => String.eqb (request_key (snd ie)) k) indexed).

Definition occurrences_of (k : string) (entries : list Entry)
  : list Occurrence :=
  occurrences_in k (enumerate entries).

Definition occurrence_key (o : Occurrence) : string :=
  oc_method o ++ ":" ++ oc_url o.

Definition finding_key (f : DuplicateFinding) : string :=
  df_method f ++ ":" ++ df_url f.

(** The latest and the earliest of the parsed start times, in microseconds. *)
Definition latest (t : DateTime) (ts : list DateTime) : Z :=
  fold_left Z.max (map dt_micros ts) (dt_micros t).
Definition earliest (t : DateTime) (ts : list DateTime) : Z :=
  fold_left Z.min (map dt_micros ts) (dt_micros t).

(** The severity bands: high below 1 s, medium below 10 s, low otherwise. *)
Definition interval_severity (avg_interval : Q) : Severity :=
  if Qlt_le_dec avg_interval 1 then High
  else if Qlt_le_dec avg_interval 10 then Medium
  else Low.

(** The finding for a group whose parsed start times are [t :: ts]: the
    average divides the span by the number of parsed start times minus 1. *)
Definition expected_finding (group : list Occurrence) (first : Occurrence)
           (t : DateTime) (ts : list DateTime) : DuplicateFinding :=
  let time_span := (inject_Z (latest t ts - earliest t ts) / 1000000)%Q in
  let avg_interval := (time_span / inject_Z (len (t :: ts) - 1))%Q in
  {| df_severity := interval_severity avg_interval;
     df_url := oc_url first;
     df_method := oc_method first;
     df_count := len group;
     df_time_span := Fixed 1 time_span USec;
     df_avg_interval := Fixed 1 avg_interval USec;
     df_requests := group |}.

Section TimeNotions.
Variable fromisoformat : string -> option DateTime.

(** The start times of a document that parse. *)
Definition entry_times (entries : list Entry) : list DateTime :=
  flat_map (fun e => match parse_time fromisoformat (started_of e) with
                     | Some dt => [dt]
                     | None => []
                     end) entries.

(** All the start times that parse are aware, or all are naive. *)
Definition uniform_awareness (entries : list Entry) : bool :=
  match entry_times entries with
  | [] => true
  | t :: ts => forallb (fun x => Bool.eqb (dt_aware x) (dt_aware t)) ts
  end.

(** The findings for the occurrences of one key: one finding when there
    are more than 3 occurrences of which at least 2 have a start time that
    parses, none otherwise. *)
Definition expected_findings (group : list Occurrence)
  : list DuplicateFinding :=
  match group, parsed_times fromisoformat group with
  | first :: _, t :: ts =>
      if (3 <? len group) && (1 <? len (t :: ts))
      then [expected_finding group first t ts]
      else []
  | _, _ => []
  end.

(** *** Timeline *)

(** An entry whose start time is present and parses. *)
Definition has_start_time (e : Entry) : bool :=
  negb (String.eqb (started_of e) "")
  && match parse_time fromisoformat (started_of e) with
     | Some _ => true
     | None => false
     end.

(** The instant an entry started, in microseconds. *)
Definition started_instant (e : Entry) : option Z :=
  option_map dt_micros (parse_time fromisoformat (started_of e)).

End TimeNotions.

(** The record the timeline keeps of entry [e] at 0-based position [i]
    whose start time parsed to [dt]. *)
Definition timeline_item (i : Z) (e : Entry) (dt : DateTime) : TimelineItem :=
  {| tl_index := i + 1;
     tl_time := dt_iso dt;
     tl_url := url_of e;
     tl_method := method_of e;
     tl_status := status_of e;
     tl_duration := time_of e |}.

(** ** Sample documents *)

(** An entry with a method, a url, a status, a start time and headers. *)
Definition sample_entry (method url : string) (status : Z) (started : string)
           (request_headers response_headers : list Header) : Entry :=
  {| e_request :=
       Some {| rq_method := Some method; rq_url := Some url;
               rq_headers := Some request_headers;
               rq_queryString := None; rq_postData := None |};
     e_response :=
       Some {| rs_status := Some status; rs_statusText := None;
               rs_headers := Some response_headers; rs_content := None |};
     e_timings := None;
     e_time := None;
     e_serverIPAddress := None;
     e_startedDateTime := Some started;
     e_cache := None |}.

Definition header (name value : string) : Header :=
  {| h_name := Some name; h_value := Some value |}.

Definition browser_agent : Header :=
  header "User-Agent" "Mozilla/5.0 (X11; Linux x86_64) Gecko/20100101".

(** A [GET] of [url] answered with [status]. *)
Definition get_entry (url : string) (status : Z) : Entry :=
  sample_entry "GET" url status "" [browser_agent] [].

(** Values of [datetime.fromisoformat] on the start times of the sample
    documents (after [Z] was replaced); the other start times of the
    samples, the empty string and "yesterday", are rejected by it. *)
Definition sample_fromisoformat (s : string) : option DateTime :=
  if String.eqb s "2024-01-01T09:00:00+00:00" then
    Some {| dt_aware := true; dt_micros := 1704099600000000;
            dt_iso := "2024-01-01T09:00:00+00:00" |}
  else if String.eqb s "2024-01-01T09:00:01+00:00" then
    Some {| dt_aware := true; dt_micros := 1704099601000000;
            dt_iso := "2024-01-01T09:00:01+00:00" |}
  else if String.eqb s "2024-01-01T10:00:00+05:00" then
    Some {| dt_aware := true; dt_micros := 1704085200000000;
            dt_iso := "2024-01-01T10:00:00+05:00" |}
  else if String.eqb s "2024-01-01T09:00:00.500+00:00" then
    Some {| dt_aware := true; dt_micros := 1704099600500000;
            dt_iso := "2024-01-01T09:00:00.500000+00:00" |}
  else if String.eqb s "2024-01-01T09:00:01.500+00:00" then
    Some {| dt_aware := true; dt_micros := 1704099601500000;
            dt_iso := "2024-01-01T09:00:01.500000+00:00" |}
  else if String.eqb s "2024-01-01T09:00:00" then
    Some {| dt_aware := false; dt_micros := 1704099600000000;
            dt_iso := "2024-01-01T09:00:00" |}
  else None.

(** Values of [urlparse] on the urls of the sample documents. *)
Definition sample_urlparse (url : string) : UrlParts :=
  if String.eqb url "https://a.example/x" then
    {| netloc := "a.example"; path := "/x" |}
  else if String.eqb url "https://a.example/y" then
    {| netloc := "a.example"; path := "/y" |}
  else {| netloc := ""; path := url |}.

Definition newline : string := String (ascii_of_nat 10) EmptyString.

(** Value of the JSON pretty-printer on the body of the sample documents:
    [[1,2]] is printed on four lines. *)
Definition sample_json_pretty (text : string) : option string :=
  if String.eqb text "[1,2]" then
    Some ("[" ++ newline ++ "  1," ++ newline ++ "  2" ++ newline ++ "]")
  else None.

(** Two responses that differ only in the parameters of the content type,
    seen by the file-type analysis as one group of two. *)
Definition html_documents : list Entry :=
  [ sample_entry "GET" "https://a.example/x" 200 "" [browser_agent]
      [header "Content-Type" "text/html; charset=utf-8"];
    sample_entry "GET" "https://a.example/y" 200 "" [browser_agent]
      [header "content-type" "text/html"] ].

(** A response whose MIME type carries a parameter. *)
Definition json_with_charset : Content :=
  {| c_size := Some 5;
     c_mimeType := Some "application/json; charset=utf-8";
     c_text := Some "[1,2]";
     c_encoding := None |}.

(** The same MIME type and text as a request body. *)
Definition post_with_charset : PostData :=
  {| pd_mimeType := Some "application/json; charset=utf-8";
     pd_text := Some "[1,2]";
     pd_params := None |}.

(** A request of [url] answered with a 302 to [target]. *)
Definition redirect_entry (url target : string) : Entry :=
  sample_entry "GET" url 302 "" [browser_agent] [header "Location" target].

Definition self_redirect : Entry :=
  redirect_entry "https://a.example/x" "https://a.example/x".
Definition plain_redirect : Entry :=
  redirect_entry "https://a.example/x" "https://a.example/y".

(** The second entry has no usable start time, the first and the third
    have one. *)
Definition started_entries : list Entry :=
  [ sample_entry "GET" "https://a.example/x" 200 "2024-01-01T09:00:01Z"
      [browser_agent] [];
    sample_entry "GET" "https://a.example/y" 200 "yesterday"
      [browser_agent] [];
    sample_entry "GET" "https://a.example/x" 200 "2024-01-01T09:00:00Z"
      [browser_agent] [] ].

(** Two start times with different UTC offsets: 10:00 at +05:00 is four
    hours before 09:00 at +00:00. *)
Definition mixed_offsets : list Entry :=
  [ sample_entry "GET" "https://a.example/x" 200 "2024-01-01T10:00:00+05:00"
      [browser_agent] [];
    sample_entry "GET" "https://a.example/y" 200 "2024-01-01T09:00:00Z"
      [browser_agent] [] ].

(** A request of one url at a given start time. *)
Definition poll (started : string) : Entry :=
  sample_entry "GET" "https://a.example/x" 200 started [browser_agent] [].

(** Four requests, half a second apart. *)
Definition half_second_polls : list Entry :=
  [ poll "2024-01-01T09:00:00Z"; poll "2024-01-01T09:00:00.500Z";
    poll "2024-01-01T09:00:01Z"; poll "2024-01-01T09:00:01.500Z" ].

(** Four occurrences of which only the first and the last have a start
    time, one second apart. *)
Definition sparse_polls : list Entry :=
  [ poll "2024-01-01T09:00:00Z"; poll ""; poll "";
    poll "2024-01-01T09:00:01Z" ].

(** Four occurrences with one naive start time among aware ones. *)
Definition mixed_awareness_polls : list Entry :=
  [ poll "2024-01-01T09:00:00Z"; poll "2024-01-01T09:00:00";
    poll "2024-01-01T09:00:01Z"; poll "2024-01-01T09:00:01Z" ].

(** ** Further reference notions *)

(** The power of 1024 a unit of [_format_size] stands for. *)
Definition unit_rank (u : unit_) : Z :=
  match u with
  | UKB => 1
  | UMB => 2
  | UGB => 3
  | _ => 0
  end.

(** The value of the last header of a list with exactly this name. *)
Definition last_value (name : string) (headers : list Header)
  : option string :=
  option_map value_of
    (find (fun h => String.eqb (name_of h) name) (rev headers)).

(** The 1-based positions [1; ...; n]. *)
Definition positions (n : nat) : list Z :=
  map (fun k => Z.of_nat k + 1) (seq 0 n).

(** The record of an entry in the two rankings of the performance report. *)
Definition ranked_by_time (entry : Entry) : RankedRequest :=
  {| rr_url := url_of entry;
     rr_method := method_of entry;
     rr_value := Fixed 2 (time_of entry) UMs;
     rr_status := status_of entry |}.

Definition ranked_by_size (entry : Entry) : RankedRequest :=
  {| rr_url := url_of entry;
     rr_method := method_of entry;
     rr_value := _format_size (inject_Z (size_of entry));
     rr_status := status_of entry |}.

(** Two failures with the same url and status, and the detailed record of
    the second one. *)
Definition twin_failures : list Entry :=
  [ get_entry "https://a.example/x" 404; get_entry "https://a.example/x" 404 ].

Definition second_failure : ErrorDetail :=
  error_detail sample_urlparse sample_json_pretty twin_failures 1
               (get_entry "https://a.example/x" 404).

Definition is_medium (s : Severity) : bool :=
  match s with Medium => true | _ => false end.
Definition is_high (s : Severity) : bool :=
  match s with High => true | _ => false end.

(** The timing a kind of performance issue looks at, its threshold in
    milliseconds and its severity. *)
Definition issue_timing (kind : PerformanceIssueType) (e : Entry) : Q :=
  match kind with
  | SlowDns => get2 (e_timings e) t_dns (-1)%Q
  | SlowConnect => get2 (e_timings e) t_connect (-1)%Q
  | SlowSsl => get2 (e_timings e) t_ssl (-1)%Q
  end.

Definition issue_threshold (kind : PerformanceIssueType) : Q :=
  match kind with
  | SlowDns => 1000
  | SlowConnect => 3000
  | SlowSsl => 2000
  end.

Definition issue_severity (kind : PerformanceIssueType) : Severity :=
  match kind with
  | SlowDns => Medium
  | SlowConnect => High
  | SlowSsl => Medium
  end.

(** An entry with only a DNS timing. *)
Definition entry_with_dns (dns : Q) : Entry :=
  {| e_request := None; e_response := None;
     e_timings :=
       Some {| t_dns := Some dns; t_connect := None; t_ssl := None;
               t_send := None; t_wait := None; t_receive := None |};
     e_time := None; e_serverIPAddress := None; e_startedDateTime := None;
     e_cache := None |}.

(** Entries with an authentication failure, and plain-http entries. *)
Definition is_auth_failure (e : Entry) : bool :=
  (status_of e =? 401) || (status_of e =? 403).

Definition is_plain_http (e : Entry) : bool :=
  Str.startswith "http://" (url_of e).

(** Four redirects of one url to another one. *)
Definition four_plain_redirects : list Entry :=
  [plain_redirect; plain_redirect; plain_redirect; plain_redirect].

(** The domain an entry is grouped under. *)
Definition domain_of (urlparse : string -> UrlParts) (e : Entry) : string :=
  netloc (urlparse (url_of e)).

(** A success, a server error and a switch of protocols. *)
Definition three_statuses : list Entry :=
  [ get_entry "https://a.example/x" 200; get_entry "https://a.example/y" 500;
    get_entry "https://a.example/x" 101 ].

(** The parsed start times of a group are not all aware or all naive. *)
Definition mixed_awareness (times : list DateTime) : bool :=
  match times with
  | [] => false
  | t :: ts =>
      negb (forallb (fun x => Bool.eqb (dt_aware x) (dt_aware t)) ts)
  end.

(** An entry with only a total time, and one with only a body size. *)
Definition entry_with_time (ms : Q) : Entry :=
  {| e_request := None; e_response := None; e_timings := None;
     e_time := Some ms; e_serverIPAddress := None;
     e_startedDateTime := None; e_cache := None |}.

(** ** The web shells: [main.py] (FastAPI) and [run.py] (Flask)

    Both shells receive an uploaded file, a name and its bytes, build the
    analyzer from it and relay the report.  The three steps that turn the
    bytes into the entry list ([content.decode('utf-8')], [json.loads] and
    the constructor of [HarAnalyzer]) are one parameter [load]; the
    control flow around it, the [try] block with its two handlers, is
    embedded as written. *)

Module Upload.

(** [c in s] for one character. *)
Fixpoint contains (c : ascii) (s : string) : bool :=
  match s with
  | EmptyString => false
  | String d r => Ascii.eqb d c || contains c r
  end.

(** [s.endswith(suffix)] *)
Definition endswith (suffix s : string) : bool :=
  (String.length suffix <=? String.length s)%nat
  && String.eqb
       (String.substring (String.length s - String.length suffix)
                         (String.length suffix) s)
       suffix.

(** [s.rsplit(sep, 1)] for a one-character separator: the text before and
    after the last separator, or the text alone when it has none. *)
Fixpoint rsplit1 (sep : ascii) (s : string) : list string :=
  match s with
  | EmptyString => [EmptyString]
  | String c r =>
      match rsplit1 sep r with
      | [a; b] => [String c a; b]
      | _ => if Ascii.eqb c sep then [EmptyString; r] else [String c r]
      end
  end.

(** What became of the uploaded bytes. *)
Inductive Loaded : Type :=
| Entries (entries : list Entry)   (* the [entries] of the analyzer *)
| NotJson                          (* [json.loads] raised [JSONDecodeError] *)
| LoadFailed.                      (* another exception, as of [decode] *)

(** The exceptions that reach the handlers of the shells, and the texts
    of the responses. *)
Inductive Exc : Type :=
| HTTPException (status_code : Z) (detail : Message)
| JSONDecodeError
| OtherException
| AnalyzerException (e : exn)
with Message : Type :=
| UploadHarFile                    (* "请上传.har文件" *)
| NoFileSelected                   (* "没有选择文件" *)
| UnsupportedType                  (* "文件类型不支持，请上传.har文件" *)
| InvalidJson                      (* "HAR文件格式错误，..." *)
| AnalysisFailed (cause : Exc)     (* f"分析失败: {str(e)}" *)
| Completed.                       (* "HAR文件分析完成" *)

Inductive outcome (A : Type) : Type :=
| Returns (a : A)
| Raises (e : Exc).
Arguments Returns {A} a.
Arguments Raises {A} e.

(** The answer of a shell: the status code, and the fields of the JSON
    envelope. *)
Record Response : Type := mkResponse {
  status  : Z;
  success : bool;
  message : Message;
  data    : option Report }.

End Upload.

Module MainPy.
Import Upload.

Section Shell.
Variable load : string -> Loaded.
Variable fromisoformat : string -> option DateTime.
Variable urlparse : string -> UrlParts.
Variable json_pretty : string -> option string.
Variable now : string.

(** The body of the [try] block of [analyze_har]. *)
Definition try_block (filename content : string) : outcome Response :=
  if negb (endswith ".har" filename) then
    Raises (HTTPException 400 UploadHarFile)
  else
    match load content with
    | NotJson => Raises JSONDecodeError
    | LoadFailed => Raises OtherException
    | Entries entries =>
        match analyze fromisoformat urlparse json_pretty now entries with
        | Raise e => Raises (AnalyzerException e)
        | Ok analysis_result =>
            Returns {| status := 200; success := true; message := Completed;
                       data := Some analysis_result |}
        end
    end.

(** [analyze_har]: [except json.JSONDecodeError] comes first, then
    [except Exception], which also catches an [HTTPException]. *)
Definition analyze_har (filename content : string) : outcome Response :=
  match try_block filename content with
  | Returns r => Returns r
  | Raises JSONDecodeError => Raises (HTTPException 400 InvalidJson)
  | Raises e => Raises (HTTPException 500 (AnalysisFailed e))
  end.

(** The status code the client sees: FastAPI answers an [HTTPException]
    with its status code. *)
Definition status_seen (o : outcome Response) : option Z :=
  match o with
  | Returns r => Some (status r)
  | Raises (HTTPException code _) => Some code
  | Raises _ => None
  end.

End Shell.
End MainPy.

Module RunPy.
Import Upload.

Definition ALLOWED_EXTENSIONS : list string := ["har"].

(** [allowed_file] *)
Definition allowed_file (filename : string) : bool :=
  contains "." filename
  && existsb (String.eqb (Str.lower (nth 1 (rsplit1 "." filename) "")))
             ALLOWED_EXTENSIONS.

Section Shell.
Variable load : string -> Loaded.
Variable fromisoformat : string -> option DateTime.
Variable urlparse : string -> UrlParts.
Variable json_pretty : string -> option string.
Variable now : string.

Definition failure (code : Z) (text : Message) : Response :=
  {| status := code; success := false; message := text; data := None |}.

(** The body of the [try] block of the route. *)
Definition try_block (content : string) : outcome Response :=
  match load content with
  | NotJson => Raises JSONDecodeError
  | LoadFailed => Raises OtherException
  | Entries entries =>
      match analyze fromisoformat urlparse json_pretty now entries with
      | Raise e => Raises (AnalyzerException e)
      | Ok analysis_result =>
          Returns {| status := 200; success := true; message := Completed;
                     data := Some analysis_result |}
      end
  end.

(** The route [analyze] of [run.py]; [upload] is [None] when the request
    has no part named [file], and else the name and the bytes of the
    file.  The extension is tested before the [try] block. *)
Definition analyze (upload : option (string * string)) : Response :=
  match upload with
  | None => failure 400 NoFileSelected
  | Some (filename, content) =>
      if String.eqb filename "" then failure 400 NoFileSelected
      else if allowed_file filename then
        match try_block content with
        | Returns r => r
        | Raises JSONDecodeError => failure 400 InvalidJson
        | Raises e => failure 500 (AnalysisFailed e)
        end
      else failure 400 UnsupportedType
  end.

End Shell.
End RunPy.

(** Sample uploads: the bytes [doc] hold the four polls, [junk] is not
    JSON. *)
Definition sample_load (content : string) : Upload.Loaded :=
  if String.eqb content "doc" then Upload.Entries half_second_polls
  else if String.eqb content "junk" then Upload.NotJson
  else Upload.LoadFailed.

(** * Properties *)

(** ** Basic facts *)

Lemma len_nil {A : Type} : len (@nil A) = 0.
Proof. reflexivity. Qed.

Lemma len_cons {A : Type} (x : A) (l : list A) : len (x :: l) = len l + 1.
Proof. unfold len. simpl List.length. lia. Qed.

Lemma len_nonneg {A : Type} (l : list A) : 0 <= len l.
Proof. unfold len. lia. Qed.

Lemma len_app {A : Type} (l1 l2 : list A) : len (l1 ++ l2) = len l1 + len l2.
Proof. unfold len. rewrite length_app. lia. Qed.

Lemma len_filter_le {A : Type} (f : A -> bool) (l : list A) :
  len (filter f l) <= len l.
Proof.
  induction l as [|x l IH]; cbn [filter].
  - lia.
  - destruct (f x); rewrite ?len_cons; lia.
Qed.

Lemma len_filter_split {A : Type} (f : A -> bool) (l : list A) :
  len (filter f l) + len (filter (fun x => negb (f x)) l) = len l.
Proof.
  induction l as [|x l IH]; cbn [filter].
  - reflexivity.
  - destruct (f x); cbn [negb]; rewrite !len_cons; lia.
Qed.

Lemma is_error_not_success (s : Z) : is_error s = true -> is_success s = false.
Proof.
  unfold is_error, is_success.
  rewrite Bool.orb_true_iff, Z.leb_le, Z.eqb_eq, Bool.andb_false_iff,
    Z.leb_gt, Z.ltb_ge.
  lia.
Qed.

(** ** Summary *)

Lemma is_success_iff (s : Z) : is_success s = true <-> 200 <= s < 400.
Proof.
  unfold is_success. rewrite Bool.andb_true_iff, Z.leb_le, Z.ltb_lt. tauto.
Qed.

Lemma is_error_iff (s : Z) : is_error s = true <-> 400 <= s \/ s = 0.
Proof.
  unfold is_error. rewrite Bool.orb_true_iff, Z.leb_le, Z.eqb_eq. tauto.
Qed.

Lemma count_le_count (f g : Entry -> bool) (entries : list Entry) :
  (forall e, f e = true -> g e = true) -> count f entries <= count g entries.
Proof.
  intros Himp. unfold count.
  induction entries as [|e es IH]; cbn [filter].
  - lia.
  - destruct (f e) eqn:E.
    + rewrite (Himp e E), !len_cons. lia.
    + destruct (g e); rewrite ?len_cons; lia.
Qed.

(** What the summary counts as failed: every entry that is not successful. *)
Lemma failed_requests_counts_non_success (now : string) (entries : list Entry) :
  failed_requests (_get_summary now entries)
  = count (fun e => negb (is_success (status_of e))) entries.
Proof.
  unfold _get_summary, count. cbn [failed_requests].
  pose proof (len_filter_split (fun e => is_success (status_of e)) entries)
    as H.
  cbv beta in H. lia.
Qed.

(** The errors of the error analyzer are among the failures of the summary;
    the two are counted by different tests. *)
Lemma total_errors_le_failed_requests
      (urlparse : string -> UrlParts) (json_pretty : string -> option string)
      (now : string) (entries : list Entry) :
  total_errors (_analyze_errors urlparse json_pretty entries)
  <= failed_requests (_get_summary now entries).
Proof.
  rewrite failed_requests_counts_non_success.
  apply (count_le_count (fun e => is_error (status_of e))).
  intros e He. now rewrite (is_error_not_success _ He).
Qed.

(** C1, as amended.  The two counts of the summary add up to the total; the
    successful entries are those with a status from 200 to 399, and the
    failed ones are all the others: the entries with a status of at least
    400 or of 0, and also those with any other status below 200. *)
Theorem summary_counts (now : string) (entries : list Entry) :
  successful_requests (_get_summary now entries)
  + failed_requests (_get_summary now entries)
  = total_requests (_get_summary now entries)
  /\ total_requests (_get_summary now entries) = len entries
  /\ successful_requests (_get_summary now entries)
     = count (fun e => is_success (status_of e)) entries
  /\ failed_requests (_get_summary now entries)
     = count (fun e => negb (is_success (status_of e))) entries
  /\ count (fun e => is_error (status_of e)) entries
     <= failed_requests (_get_summary now entries).
Proof.
  split; [|split; [reflexivity|split; [reflexivity|split]]].
  - unfold _get_summary.
    cbn [successful_requests failed_requests total_requests]. lia.
  - apply failed_requests_counts_non_success.
  - rewrite failed_requests_counts_non_success.
    apply (count_le_count (fun e => is_error (status_of e))).
    intros e He. now rewrite (is_error_not_success _ He).
Qed.

(** The claim as written fails: an entry with status 101 is counted as
    failed by the summary, although its status is neither 0 nor at least
    400; the request list does not flag it and the error analyzer does not
    count it. *)
Lemma status_101_counted_as_failed :
  let doc := [get_entry "https://a.example/x" 101] in
  failed_requests (_get_summary "2024-01-02 00:00:00" doc) = 1
  /\ map status_of doc = [101]
  /\ map (fun e => is_error (status_of e)) doc = [false]
  /\ map ri_is_error (_analyze_requests sample_urlparse sample_json_pretty doc)
     = [false]
  /\ total_errors (_analyze_errors sample_urlparse sample_json_pretty doc) = 0.
Proof. repeat split. Qed.

(** ** Empty document *)

(** C2.  On the empty document [analyze] returns a report, the two rates
    are the literal "0%", and every aggregate is zero or empty. *)
Theorem analyze_empty_document
        (fromisoformat : string -> option DateTime)
        (urlparse : string -> UrlParts) (json_pretty : string -> option string)
        (now : string) :
  analyze fromisoformat urlparse json_pretty now []
  = Ok {| summary :=
            {| total_requests := 0;
               successful_requests := 0;
               failed_requests := 0;
               success_rate := Lit "0%";
               sm_avg_response_time := Fixed 2 0 UMs;
               sm_total_size := Lit "0B";
               sm_total_time := Fixed 2 0 UMs;
               analysis_time := now |};
          requests := [];
          performance := None;
          errors :=
            {| total_errors := 0;
               error_rate := Lit "0%";
               error_breakdown := [];
               detailed_errors := [] |};
          anomalies :=
            {| redirect_loops := [];
               duplicate_requests := [];
               suspicious_patterns := [];
               performance_issues := [];
               security_concerns := [];
               total_anomalies := 0;
               has_anomalies := false |};
          domains := {| total_domains := 0; domain_stats := [] |};
          file_types := [];
          timeline := [] |}.
Proof. reflexivity. Qed.

(** ** Suspicious patterns *)

Lemma over_30_percent_iff (error_count total_count : Z) :
  0 < total_count ->
  over_30_percent error_count total_count = true
  <-> 3 * total_count < 10 * error_count.
Proof.
  intros Ht. unfold over_30_percent, Qltb.
  rewrite Bool.negb_true_iff.
  destruct total_count as [|t|t]; try lia.
  unfold Qle_bool, Qdiv, Qinv, Qmult, inject_Z. cbn [Qnum Qden].
  rewrite Z.leb_gt. lia.
Qed.

(** X8.  The detector of suspicious patterns emits its high finding, the
    one on the error rate, exactly when the document is not empty and more
    than 30% of its entries have a status of at least 400. *)
Lemma high_error_rate_finding_iff (entries : list Entry) :
  (exists f, In f (_detect_suspicious_patterns entries)
             /\ sp_severity f = High)
  <-> 0 < len entries
      /\ 3 * len entries
         < 10 * count (fun e => is_http_error (status_of e)) entries.
Proof.
  unfold _detect_suspicious_patterns, count.
  set (n := len entries).
  set (k := len (filter (fun e => is_http_error (status_of e)) entries)).
  set (large := offenders _ _ entries).
  set (slow := offenders _ _ entries).
  split.
  - intros [f [Hin Hsev]].
    apply in_app_or in Hin. destruct Hin as [Hin | Hin].
    + destruct (0 <? n) eqn:Hn; cbn [andb] in Hin; [|contradiction].
      apply Z.ltb_lt in Hn.
      destruct (over_30_percent k n) eqn:Ho; [|contradiction].
      split; [assumption|]. now apply over_30_percent_iff.
    + exfalso. apply in_app_or in Hin. destruct Hin as [Hin | Hin].
      * destruct large; [contradiction|].
        destruct Hin as [<- | []]. discriminate.
      * destruct slow; [contradiction|].
        destruct Hin as [<- | []]. discriminate.
  - intros [Hn Hk].
    apply (over_30_percent_iff k n Hn) in Hk.
    apply Z.ltb_lt in Hn. rewrite Hn, Hk. cbn [andb].
    eexists. split; [apply in_or_app; left; left; reflexivity|reflexivity].
Qed.

(** C3.  A document whose only entry has status 0 has a failure rate of
    100% under the classification of the error analyzer, and the detector
    emits no finding for it: it counts only the statuses of at least 400. *)
Theorem suspicious_patterns_ignore_status_0 :
  let doc := [get_entry "https://a.example/x" 0] in
  _detect_suspicious_patterns doc = []
  /\ count (fun e => is_error (status_of e)) doc = len doc
  /\ len doc = 1
  /\ count (fun e => is_http_error (status_of e)) doc = 0.
Proof. repeat split. Qed.

(** ** Security concerns: the user agent *)

Lemma user_agent_loop_lookup (headers : list Header) :
  user_agent_loop headers
  = match header_lookup "user-agent" headers with
    | Some ua => if (String.length ua <? 20)%nat then Some ua else None
    | None => None
    end.
Proof.
  unfold header_lookup.
  induction headers as [|h hs IH]; cbn [user_agent_loop find].
  - reflexivity.
  - destruct (String.eqb (Str.lower (name_of h)) "user-agent").
    + cbn [option_map].
      destruct (value_of h) as [|c s]; [reflexivity|].
      cbn [String.eqb orb]. reflexivity.
    + exact IH.
Qed.

Lemma suspicious_user_agents_filter (indexed : list (Z * Entry)) :
  suspicious_user_agents indexed
  = map user_agent_offender
        (filter (fun ie => short_user_agent (snd ie)) indexed).
Proof.
  induction indexed as [|[i e] rest IH]; cbn [suspicious_user_agents filter].
  - reflexivity.
  - rewrite user_agent_loop_lookup. unfold short_user_agent at 1.
    cbn [snd].
    destruct (header_lookup "user-agent" (request_headers_of e)) as [ua|] eqn:E.
    + destruct (String.length ua <? 20)%nat; [|exact IH].
      cbn [map]. rewrite IH. f_equal.
      unfold user_agent_offender. cbn [fst snd]. rewrite E. reflexivity.
    + exact IH.
Qed.

(** The claim as written fails: an entry without any [User-Agent] header
    is not reported. *)
Lemma absent_user_agent_not_flagged :
  let doc := [sample_entry "GET" "https://a.example/x" 200 "" [] []] in
  (exists e, In e doc
             /\ header_lookup "user-agent" (request_headers_of e) = None)
  /\ _detect_security_concerns doc = [].
Proof.
  split; [|reflexivity].
  eexists. split; [left; reflexivity|reflexivity].
Qed.

(** C9, as amended.  The low-severity findings of the detector are: none
    when no entry has a first [User-Agent] header with an empty value or a
    value shorter than 20 characters; otherwise a single finding that lists
    the first 5 such entries and their total number.  An entry with no
    [User-Agent] header is not an offender. *)
Theorem suspicious_user_agent_finding (entries : list Entry) :
  let offending :=
    filter (fun ie => short_user_agent (snd ie)) (enumerate entries) in
  filter (fun f => is_low (sc_severity f)) (_detect_security_concerns entries)
  = match offending with
    | [] => []
    | _ => [ {| sc_severity := Low;
                sc_evidence :=
                  SuspiciousUserAgent
                    (firstn 5 (map user_agent_offender offending))
                    (len offending) |} ]
    end.
Proof.
  cbv zeta. unfold _detect_security_concerns.
  rewrite suspicious_user_agents_filter.
  set (offending := filter (fun ie => short_user_agent (snd ie)) _).
  set (http := map _ (filter (fun ie => Str.startswith _ _) _)).
  set (auth := map _ (filter (fun ie => existsb _ _) _)).
  rewrite !filter_app.
  assert (H1 : filter (fun f => is_low (sc_severity f))
                 match http with
                 | [] => []
                 | _ :: _ => [ {| sc_severity := Medium;
                                  sc_evidence := InsecureHttp (firstn 10 http)
                                                              (len http) |} ]
                 end = []) by (destruct http; reflexivity).
  assert (H2 : filter (fun f => is_low (sc_severity f))
                 (if 5 <? len auth
                  then [ {| sc_severity := High;
                            sc_evidence := AuthFailures auth |} ]
                  else []) = []) by (destruct (5 <? len auth); reflexivity).
  rewrite H1, H2. cbn [app].
  destruct offending as [|o os]; [reflexivity|].
  cbn [map filter sc_severity is_low].
  rewrite !len_cons. unfold len. rewrite length_map. reflexivity.
Qed.

(** ** Facts on dictionaries and on [sorted] *)

Section DictFacts.
Context {V : Type}.
Implicit Types (d : list (string * V)) (k : string).

Lemma dict_get_update_same k init f d :
  dict_get k (dict_update k init f d) = Some (f (get (dict_get k d) init)).
Proof.
  induction d as [|[k' v] d IH]; cbn [dict_update dict_get].
  - rewrite String.eqb_refl. reflexivity.
  - destruct (String.eqb k' k) eqn:E; cbn [dict_get]; rewrite E.
    + reflexivity.
    + exact IH.
Qed.

Lemma dict_get_update_other k k0 init f d :
  k0 <> k -> dict_get k0 (dict_update k init f d) = dict_get k0 d.
Proof.
  intros Hne.
  induction d as [|[k' v] d IH]; cbn [dict_update dict_get].
  - destruct (String.eqb k k0) eqn:E; [|reflexivity].
    apply String.eqb_eq in E. congruence.
  - destruct (String.eqb k' k) eqn:E; cbn [dict_get].
    + apply String.eqb_eq in E. subst k'.
      destruct (String.eqb k k0) eqn:E0; [|reflexivity].
      apply String.eqb_eq in E0. congruence.
    + rewrite IH. reflexivity.
Qed.

Lemma dict_get_None k d : dict_get k d = None <-> ~ In k (map fst d).
Proof.
  induction d as [|[k' v] d IH]; cbn [dict_get map fst In].
  - tauto.
  - destruct (String.eqb k' k) eqn:E.
    + apply String.eqb_eq in E. split; [discriminate|tauto].
    + apply String.eqb_neq in E. tauto.
Qed.

Lemma dict_get_In k v d : dict_get k d = Some v -> In (k, v) d.
Proof.
  induction d as [|[k' v'] d IH]; cbn [dict_get In].
  - discriminate.
  - destruct (String.eqb k' k) eqn:E.
    + apply String.eqb_eq in E. intros [= ->]. left. congruence.
    + intros H. right. auto.
Qed.

Lemma In_dict_get k v d :
  NoDup (map fst d) -> In (k, v) d -> dict_get k d = Some v.
Proof.
  induction d as [|[k' v'] d IH]; cbn [dict_get In map fst].
  - contradiction.
  - intros Hnd [Heq | Hin].
    + injection Heq as -> ->. rewrite String.eqb_refl. reflexivity.
    + apply NoDup_cons_iff in Hnd. destruct Hnd as [Hk Hnd].
      destruct (String.eqb k' k) eqn:E.
      * apply String.eqb_eq in E. subst k'. exfalso. apply Hk.
        change k with (fst (k, v)). now apply in_map.
      * auto.
Qed.

Lemma dict_update_keys k init f d :
  map fst (dict_update k init f d)
  = if existsb (fun k' => String.eqb k' k) (map fst d) then map fst d
    else (map fst d ++ [k])%list.
Proof.
  induction d as [|[k' v] d IH]; cbn [dict_update map fst existsb app].
  - reflexivity.
  - destruct (String.eqb k' k) eqn:E; cbn [orb map fst].
    + reflexivity.
    + rewrite IH. destruct (existsb _ (map fst d)); reflexivity.
Qed.

Lemma dict_update_NoDup k init f d :
  NoDup (map fst d) -> NoDup (map fst (dict_update k init f d)).
Proof.
  intros Hnd. rewrite dict_update_keys.
  destruct (existsb _ (map fst d)) eqn:E; [assumption|].
  apply NoDup_app; [assumption|constructor; [intros []|constructor]|].
  intros a Ha [<- | []].
  assert (existsb (fun k' => String.eqb k' k) (map fst d) = true);
    [|congruence].
  apply existsb_exists. exists k. split; [assumption|apply String.eqb_refl].
Qed.

End DictFacts.

Lemma group_append_update {V : Type} (k : string) (v : V)
      (d : list (string * list V)) :
  group_append k v d = dict_update k [] (fun vs => (vs ++ [v])%list) d.
Proof.
  induction d as [|[k' vs] d IH]; cbn [group_append dict_update].
  - reflexivity.
  - rewrite IH. reflexivity.
Qed.

Section SortedFacts.
Context {A : Type} (precedes : A -> A -> bool).

Lemma insert_sorted_perm (x : A) (l : list A) :
  Permutation (insert_sorted precedes x l) (x :: l).
Proof.
  induction l as [|y ys IH]; cbn [insert_sorted].
  - apply Permutation_refl.
  - destruct (precedes y x).
    + eapply perm_trans; [apply perm_skip, IH|apply perm_swap].
    + apply Permutation_refl.
Qed.

Lemma sorted_perm (l : list A) : Permutation (sorted precedes l) l.
Proof.
  induction l as [|x l IH]; cbn [sorted fold_right].
  - apply perm_nil.
  - eapply perm_trans; [apply insert_sorted_perm|apply perm_skip, IH].
Qed.

Lemma sorted_In (x : A) (l : list A) : In x (sorted precedes l) <-> In x l.
Proof.
  split; apply Permutation_in;
    [apply sorted_perm|apply Permutation_sym, sorted_perm].
Qed.

(** The items a test selects from a sorted list are those it selects from
    the list, when it selects at most one. *)
Lemma filter_sorted_short (test : A -> bool) (l : list A) :
  (List.length (filter test l) <= 1)%nat ->
  filter test (sorted precedes l) = filter test l.
Proof.
  intros Hlen.
  assert (Hp : Permutation (filter test l) (filter test (sorted precedes l))).
  { clear Hlen. apply Permutation_sym.
    generalize (sorted_perm l). generalize (sorted precedes l).
    intros l' Hp. induction Hp; cbn [filter].
    - apply perm_nil.
    - destruct (test x); [apply perm_skip|]; assumption.
    - destruct (test x), (test y);
        try apply perm_swap; apply Permutation_refl.
    - eapply perm_trans; eassumption. }
  destruct (filter test l) as [|a [|b r]].
  - apply Permutation_nil in Hp. assumption.
  - apply Permutation_length_1_inv in Hp. assumption.
  - cbn [List.length] in Hlen. lia.
Qed.

(** The order [sorted] establishes, for a test [precedes] that is the
    strict part of a total preorder. *)
Hypothesis precedes_trans :
  forall x y z, precedes x y = false -> precedes y z = false ->
                precedes x z = false.
Hypothesis precedes_asym :
  forall x y, precedes x y = true -> precedes y x = false.

Lemma insert_sorted_ordered (x : A) (l : list A) :
  StronglySorted (fun a b => precedes b a = false) l ->
  StronglySorted (fun a b => precedes b a = false) (insert_sorted precedes x l).
Proof.
  induction l as [|y ys IH]; cbn [insert_sorted]; intros Hs.
  - constructor; constructor.
  - apply StronglySorted_inv in Hs. destruct Hs as [Hs Hall].
    destruct (precedes y x) eqn:E.
    + constructor; [auto|].
      apply (Permutation_Forall (Permutation_sym (insert_sorted_perm x ys))).
      constructor; [now apply precedes_asym|assumption].
    + constructor; [constructor; assumption|].
      constructor; [assumption|].
      eapply Forall_impl; [|exact Hall].
      intros a Ha. cbv beta in Ha |- *.
      eapply precedes_trans; eassumption.
Qed.

Lemma sorted_ordered (l : list A) :
  StronglySorted (fun a b => precedes b a = false) (sorted precedes l).
Proof.
  induction l as [|x l IH]; cbn [sorted fold_right].
  - constructor.
  - apply insert_sorted_ordered, IH.
Qed.

End SortedFacts.

(** ** Content types and the file-type groups *)

Lemma split_hd_before (sep : ascii) (s : string) :
  hd "" (Str.split sep s) = Str.before sep s.
Proof.
  induction s as [|c r IH]; cbn [Str.split Str.before].
  - reflexivity.
  - destruct (Ascii.eqb c sep); [reflexivity|].
    destruct (Str.split sep r) as [|p ps]; cbn [hd] in *; now rewrite <- IH.
Qed.

Lemma content_type_loop_lookup (headers : list Header) :
  content_type_loop headers
  = match header_lookup "content-type" headers with
    | Some v => Str.strip (Str.before ";" v)
    | None => "unknown"
    end.
Proof.
  unfold header_lookup.
  induction headers as [|h hs IH]; cbn [content_type_loop find].
  - reflexivity.
  - destruct (String.eqb (Str.lower (name_of h)) "content-type").
    + cbn [option_map]. now rewrite split_hd_before.
    + exact IH.
Qed.

Lemma count_of_fold (k : string) (entries : list Entry)
      (d : list (string * TypeCounters)) :
  count_of k (fold_left count_type entries d) = count_of k d + tally k entries.
Proof.
  revert d. unfold tally, count.
  induction entries as [|e es IH]; intros d; cbn [fold_left filter].
  - rewrite len_nil. lia.
  - rewrite IH. unfold count_type. fold (content_type_of e).
    destruct (String.eqb (content_type_of e) k) eqn:E.
    + apply String.eqb_eq in E. rewrite E, len_cons.
      unfold count_of. rewrite dict_get_update_same.
      cbn [get tc_count]. lia.
    + apply String.eqb_neq in E.
      unfold count_of. rewrite dict_get_update_other by congruence. lia.
Qed.

Lemma counters_NoDup (entries : list Entry) (d : list (string * TypeCounters)) :
  NoDup (map fst d) -> NoDup (map fst (fold_left count_type entries d)).
Proof.
  revert d. induction entries as [|e es IH]; intros d Hd; cbn [fold_left].
  - assumption.
  - apply IH. now apply dict_update_NoDup.
Qed.

Lemma counters_keys (entries : list Entry) (d : list (string * TypeCounters))
      (e : Entry) :
  In e entries ->
  In (content_type_of e) (map fst (fold_left count_type entries d)).
Proof.
  assert (Hmono : forall es d' k,
             In k (map fst d') -> In k (map fst (fold_left count_type es d'))).
  { induction es as [|x xs IHx]; intros d' k Hk; cbn [fold_left].
    - assumption.
    - apply IHx. unfold count_type. rewrite dict_update_keys.
      destruct (existsb _ (map fst d')); [assumption|].
      apply in_or_app. now left. }
  revert d. induction entries as [|x xs IH]; intros d Hin;
    [contradiction|].
  cbn [fold_left]. destruct Hin as [-> | Hin].
  - apply Hmono. unfold count_type at 1. fold (content_type_of e).
    rewrite dict_update_keys.
    destruct (existsb _ (map fst d)) eqn:E.
    + apply existsb_exists in E. destruct E as [k [Hk Heq]].
      apply String.eqb_eq in Heq. now subst k.
    + apply in_or_app. right. now left.
  - now apply IH.
Qed.

(** Every entry of the document falls in exactly one group of the file-type
    analysis, the group of its resolved content type, and the count of that
    group is the number of entries resolving to this type. *)
Lemma file_type_group (entries : list Entry) (e : Entry) :
  In e entries ->
  exists g, In g (_analyze_file_types entries)
            /\ ft_type g = content_type_of e
            /\ ft_count g = tally (content_type_of e) entries
            /\ forall g', In g' (_analyze_file_types entries) ->
                          ft_type g' = ft_type g -> g' = g.
Proof.
  intros Hin. unfold _analyze_file_types, file_type_counters.
  set (d := fold_left count_type entries []).
  assert (Hnd : NoDup (map fst d)) by (apply counters_NoDup; constructor).
  pose proof (counters_keys entries [] e Hin) as Hk. fold d in Hk.
  destruct (dict_get (content_type_of e) d) as [st|] eqn:Hget;
    [|apply dict_get_None in Hget; contradiction].
  exists (format_type (len entries) (content_type_of e, st)).
  split; [|split; [reflexivity|split]].
  - apply sorted_In, in_map, dict_get_In, Hget.
  - cbn [format_type ft_count].
    pose proof (count_of_fold (content_type_of e) entries []) as Hc.
    fold d in Hc. unfold count_of in Hc. rewrite Hget in Hc.
    cbn [get dict_get tc_count] in Hc. lia.
  - intros g' Hg' Hty. apply sorted_In in Hg'.
    apply in_map_iff in Hg'. destruct Hg' as [[k' st'] [<- Hin']].
    cbn [format_type ft_type] in Hty. subst k'.
    apply (In_dict_get _ _ _ Hnd) in Hin'. congruence.
Qed.



(** ** The index of a detailed error *)

Lemma enumerate_from_In {A : Type} (l : list A) (j i : Z) (x : A) :
  In (i, x) (enumerate_from j l) -> In x l.
Proof.
  revert j. induction l as [|y ys IH]; intros j; cbn [enumerate_from In].
  - tauto.
  - intros [[= _ ->] | Hin]; [now left|right; eauto].
Qed.

Lemma find_original_spec (url : string) (status : Z) (entries : list Entry)
      (j0 : Z) :
  match find_original url status (enumerate_from j0 entries) with
  | Some n =>
      exists k e, nth_error entries k = Some e
                  /\ n = j0 + Z.of_nat k + 1
                  /\ same_request url status e
                  /\ forall k' e', (k' < k)%nat ->
                                   nth_error entries k' = Some e' ->
                                   ~ same_request url status e'
  | None => forall e, In e entries -> ~ same_request url status e
  end.
Proof.
  revert j0. induction entries as [|x xs IH]; intros j0;
    cbn [enumerate_from find_original].
  - intros e [].
  - destruct (String.eqb (url_of x) url && (status_of x =? status)) eqn:E.
    + apply Bool.andb_true_iff in E. destruct E as [Eu Es].
      apply String.eqb_eq in Eu. apply Z.eqb_eq in Es.
      exists 0%nat, x.
      split; [reflexivity|split; [lia|split; [now split|]]].
      intros k' e' Hlt. lia.
    + assert (Hx : ~ same_request url status x).
      { intros [Hu Hs]. apply Bool.andb_false_iff in E.
        destruct E as [E | E].
        - apply String.eqb_neq in E. contradiction.
        - apply Z.eqb_neq in E. contradiction. }
      specialize (IH (j0 + 1)).
      destruct (find_original url status (enumerate_from (j0 + 1) xs)) as [n|].
      * destruct IH as [k [e [Hk [Hn [He Hfirst]]]]].
        exists (S k), e.
        split; [assumption|split; [lia|split; [assumption|]]].
        intros [|k'] e' Hlt Hnth; cbn [nth_error] in Hnth.
        -- now injection Hnth as <-.
        -- apply (Hfirst k'); [lia|assumption].
      * intros e [<- | Hin]; auto.
Qed.

(** X7.  The index of a detailed error is the 1-based position of the
    first entry of the document that has the url and the status of the
    failure; the fallback to the position among the failures is never
    taken. *)
Lemma error_index_is_first_match
      (urlparse : string -> UrlParts) (json_pretty : string -> option string)
      (entries : list Entry) (d : ErrorDetail) :
  In d (detailed_errors (_analyze_errors urlparse json_pretty entries)) ->
  exists k e, nth_error entries k = Some e
              /\ er_index d = Z.of_nat k + 1
              /\ same_request (er_url d) (er_status d) e
              /\ forall k' e', (k' < k)%nat ->
                               nth_error entries k' = Some e' ->
                               ~ same_request (er_url d) (er_status d) e'.
Proof.
  cbn [_analyze_errors detailed_errors]. intros Hin.
  apply in_map_iff in Hin. destruct Hin as [[i entry] [<- Hin]].
  cbn [fst snd]. apply enumerate_from_In, filter_In in Hin.
  destruct Hin as [Hin _].
  unfold error_detail. cbn [er_index er_url er_status].
  pose proof (find_original_spec (url_of entry) (status_of entry) entries 0)
    as Hspec.
  unfold enumerate.
  destruct (find_original (url_of entry) (status_of entry)
              (enumerate_from 0 entries)) as [n|].
  - destruct Hspec as [k [e [Hk [Hn [He Hfirst]]]]].
    exists k, e.
    split; [assumption|split; [|split; assumption]].
    cbn [or_else]. destruct (n =? 0) eqn:E; [apply Z.eqb_eq in E|]; lia.
  - exfalso. apply (Hspec entry Hin). split; reflexivity.
Qed.

(** C4.  Two failures with the same url and the same status: the second
    one is entry 2 of the document, and its detailed record carries the
    index 1 of the first. *)
Theorem duplicate_failures_share_index
        (urlparse : string -> UrlParts)
        (json_pretty : string -> option string) :
  let doc := [ get_entry "https://a.example/x" 404;
               get_entry "https://a.example/x" 404 ] in
  map er_index (detailed_errors (_analyze_errors urlparse json_pretty doc))
  = [1; 1]
  /\ map ri_index (_analyze_requests urlparse json_pretty doc) = [1; 2]
  /\ map ri_is_error (_analyze_requests urlparse json_pretty doc)
     = [true; true].
Proof. repeat split. Qed.

(** ** Body previews *)

Lemma append_empty_r (s : string) : s ++ "" = s.
Proof. induction s as [|c r IH]; cbn [append]; congruence. Qed.

Lemma take_all (n : nat) (s : string) :
  (String.length s <= n)%nat -> Str.take n s = s.
Proof.
  unfold Str.take. revert n.
  induction s as [|c r IH]; intros [|n] Hlen; cbn [String.length] in Hlen;
    cbn [substring]; try reflexivity; try lia.
  rewrite IH by lia. reflexivity.
Qed.

Lemma length_take (n : nat) (s : string) :
  String.length (Str.take n s) = Nat.min n (String.length s).
Proof.
  unfold Str.take. revert n.
  induction s as [|c r IH]; intros [|n]; cbn [substring String.length Nat.min];
    try reflexivity.
  rewrite IH. reflexivity.
Qed.

Lemma length_append (s t : string) :
  String.length (s ++ t) = (String.length s + String.length t)%nat.
Proof.
  induction s as [|c r IH]; cbn [append String.length plus]; congruence.
Qed.

Lemma truncate_clip (limit : nat) (s : string) :
  truncate limit s = clip limit s.
Proof.
  unfold truncate, clip.
  destruct (String.length s <=? limit)%nat eqn:E.
  - apply Nat.leb_le in E.
    assert (H : (limit <? String.length s)%nat = false)
      by (apply Nat.ltb_ge; lia).
    rewrite H, append_empty_r. now apply take_all.
  - apply Nat.leb_gt in E. apply Nat.ltb_lt in E. now rewrite E.
Qed.

(** A preview never exceeds its limit by more than the ellipsis. *)
Lemma length_truncate (limit : nat) (s : string) :
  (String.length (truncate limit s) <= limit + 3)%nat.
Proof.
  unfold truncate. rewrite length_append, length_take.
  destruct (limit <? String.length s)%nat; cbn [String.length]; lia.
Qed.

Section Previews.
Variable json_pretty : string -> option string.


End Previews.


(** ** Redirect chains *)

Lemma location_loop_lookup (headers : list Header) :
  location_loop headers = header_lookup "location" headers.
Proof.
  unfold header_lookup.
  induction headers as [|h hs IH]; cbn [location_loop find].
  - reflexivity.
  - destruct (String.eqb (Str.lower (name_of h)) "location"); [reflexivity|].
    exact IH.
Qed.

Lemma record_hop_get (u : string) (indexed : list (Z * Entry))
      (d : list (string * list Hop)) :
  dict_get u (fold_left record_hop indexed d)
  = extended (dict_get u d) (hops_in u indexed).
Proof.
  revert d. unfold hops_in.
  induction indexed as [|[i e] rest IH]; intros d; cbn [fold_left filter map].
  - destruct (dict_get u d); cbn [extended];
      [now rewrite app_nil_r|reflexivity].
  - rewrite IH. clear IH. unfold record_hop, is_hop. cbn [snd].
    rewrite location_loop_lookup.
    destruct ((300 <=? status_of e) && (status_of e <? 400)); cbn [andb];
      [|reflexivity].
    destruct (truthy (header_lookup "location" (response_headers_of e)));
      cbn [andb]; [|reflexivity].
    rewrite group_append_update.
    destruct (String.eqb (url_of e) u) eqn:E.
    + apply String.eqb_eq in E. subst u. rewrite dict_get_update_same.
      cbn [map].
      destruct (dict_get (url_of e) d) as [vs|]; cbn [get extended app].
      * now rewrite <- app_assoc.
      * reflexivity.
    + apply String.eqb_neq in E.
      rewrite dict_get_update_other by congruence. reflexivity.
Qed.

Lemma record_hop_NoDup (indexed : list (Z * Entry))
      (d : list (string * list Hop)) :
  NoDup (map fst d) -> NoDup (map fst (fold_left record_hop indexed d)).
Proof.
  revert d. induction indexed as [|[i e] rest IH]; intros d Hd;
    cbn [fold_left].
  - assumption.
  - apply IH. unfold record_hop.
    destruct ((300 <=? status_of e) && (status_of e <? 400)); [|assumption].
    destruct (truthy _); [|assumption].
    rewrite group_append_update. now apply dict_update_NoDup.
Qed.

Lemma redirect_chains_get (u : string) (entries : list Entry) :
  dict_get u (redirect_chains entries)
  = match hops_of u entries with
    | [] => None
    | chain => Some chain
    end.
Proof.
  unfold redirect_chains, hops_of. rewrite record_hop_get.
  cbn [dict_get extended].
  destruct (hops_in u (enumerate entries)); reflexivity.
Qed.

(** The findings of one url among the findings of all chains. *)
Lemma chain_findings_of_url (u : string) (d : list (string * list Hop)) :
  NoDup (map fst d) ->
  filter (fun f => String.eqb (rf_url f) u) (flat_map chain_findings d)
  = match dict_get u d with
    | Some chain => chain_findings (u, chain)
    | None => []
    end.
Proof.
  assert (Hkey : forall k c,
             filter (fun f => String.eqb (rf_url f) u) (chain_findings (k, c))
             = if String.eqb k u then chain_findings (k, c) else []).
  { intros k c. unfold chain_findings.
    destruct (3 <? len c); [destruct (revisits [] c)|destruct (1 <? len c)];
      cbn [filter rf_url]; destruct (String.eqb k u); reflexivity. }
  induction d as [|[k c] rest IH]; intros Hnd; cbn [flat_map dict_get].
  - reflexivity.
  - cbn [map fst] in Hnd. apply NoDup_cons_iff in Hnd.
    destruct Hnd as [Hk Hnd].
    rewrite filter_app, Hkey, (IH Hnd).
    destruct (String.eqb k u) eqn:E.
    + apply String.eqb_eq in E. subst k.
      apply dict_get_None in Hk. rewrite Hk. apply app_nil_r.
    + reflexivity.
Qed.

Lemma revisits_iff (visited : list string) (chain : list Hop) :
  revisits visited chain = true
  <-> (exists i hi, nth_error chain i = Some hi /\ In (to_url hi) visited)
      \/ chain_revisits chain.
Proof.
  revert visited. unfold chain_revisits.
  induction chain as [|h rest IH]; intros visited; cbn [revisits].
  - split; [discriminate|].
    intros [[[|i] [hi [H _]]] | [[|i] [j [hi [hj [_ [H _]]]]]]]; discriminate.
  - destruct (existsb (String.eqb (to_url h)) visited) eqn:E.
    + split; [intros _|reflexivity]. left.
      apply existsb_exists in E. destruct E as [v [Hv Heq]].
      apply String.eqb_eq in Heq. subst v.
      exists 0%nat, h. now split.
    + assert (Hnot : ~ In (to_url h) visited).
      { intros Hin.
        assert (existsb (String.eqb (to_url h)) visited = true);
          [|congruence].
        apply existsb_exists. exists (to_url h).
        split; [assumption|apply String.eqb_refl]. }
      rewrite IH. clear IH. split.
      * intros [[i [hi [Hi [Heq | Hin]]]]
               | [i [j [hi [hj [Hlt [Hi [Hj Heq]]]]]]]].
        -- right. exists (S i), 0%nat, hi, h.
           repeat split; [lia|assumption|now symmetry].
        -- left. exists (S i), hi. now split.
        -- right. exists (S i), (S j), hi, hj.
           repeat split; [lia|assumption..].
      * intros [[[|i] [hi [Hi Hin]]]
               | [[|i] [j [hi [hj [Hlt [Hi [Hj Heq]]]]]]]];
          cbn [nth_error] in *.
        -- injection Hi as <-. contradiction.
        -- left. exists i, hi. split; [assumption|now right].
        -- lia.
        -- destruct j as [|j]; cbn [nth_error] in Hj.
           ++ injection Hj as <-. left. exists i, hi.
              split; [assumption|left; now symmetry].
           ++ right. exists i, j, hi, hj. repeat split; [lia|assumption..].
Qed.

Lemma findings_for_chain (u : string) (entries : list Entry) :
  findings_for u entries
  = match hops_of u entries with
    | [] => []
    | chain => chain_findings (u, chain)
    end.
Proof.
  unfold findings_for, _detect_redirect_loops.
  rewrite chain_findings_of_url
    by (apply record_hop_NoDup; constructor).
  rewrite redirect_chains_get. destruct (hops_of u entries); reflexivity.
Qed.

(** C5.  For the hops recorded for a url: more than 3 hops of which a later
    one leads to an earlier-seen "from" url give exactly one high-severity
    loop finding with the full chain; 2 or 3 hops give exactly one
    medium-severity frequent-redirect finding; one hop gives no finding. *)
Theorem redirect_findings (entries : list Entry) (u : string) :
  let chain := hops_of u entries in
  (3 < len chain -> chain_revisits chain ->
   findings_for u entries
   = [ {| rf_type := RedirectLoop; rf_severity := High; rf_url := u;
          rf_chain_length := len chain; rf_chain := chain |} ])
  /\ (1 < len chain <= 3 ->
      findings_for u entries
      = [ {| rf_type := FrequentRedirect; rf_severity := Medium; rf_url := u;
             rf_chain_length := len chain; rf_chain := chain |} ])
  /\ (len chain = 1 -> findings_for u entries = []).
Proof.
  cbv zeta. rewrite findings_for_chain.
  destruct (hops_of u entries) as [|h chain] eqn:E.
  - rewrite len_nil. repeat split; intros; lia.
  - rewrite <- E. clear E. set (c := hops_of u entries).
    unfold chain_findings. repeat split.
    + intros Hlen Hrev. apply Z.ltb_lt in Hlen. rewrite Hlen.
      assert (Hr : revisits [] c = true) by (apply revisits_iff; now right).
      now rewrite Hr.
    + intros [Hlo Hhi]. apply Z.ltb_lt in Hlo. rewrite Hlo.
      assert (Hn : (3 <? len c) = false) by (apply Z.ltb_ge; lia).
      now rewrite Hn.
    + intros Hone. rewrite Hone. reflexivity.
Qed.

(** X14.  A url with more than 3 hops gets no finding at all, neither a
    loop nor a frequent redirect, when none of its hops leads to a url that
    an earlier hop of the chain started from. *)
Lemma long_chain_without_revisit (entries : list Entry) (u : string) :
  3 < len (hops_of u entries) -> ~ chain_revisits (hops_of u entries) ->
  findings_for u entries = [].
Proof.
  intros Hlen Hrev. rewrite findings_for_chain.
  destruct (hops_of u entries) as [|h chain] eqn:E; [reflexivity|].
  rewrite <- E in *. clear E. unfold chain_findings.
  apply Z.ltb_lt in Hlen. rewrite Hlen.
  destruct (revisits [] (hops_of u entries)) eqn:R; [|reflexivity].
  apply revisits_iff in R.
  destruct R as [[i [hi [_ []]]] | R]. contradiction.
Qed.

(** The three cases on sample chains: four redirects of a url to itself,
    two redirects of a url, and a single redirect. *)
Lemma redirect_findings_witness :
  (findings_for "https://a.example/x"
     [self_redirect; self_redirect; self_redirect; self_redirect]
   = [ {| rf_type := RedirectLoop; rf_severity := High;
          rf_url := "https://a.example/x";
          rf_chain_length := 4;
          rf_chain :=
            hops_of "https://a.example/x"
              [self_redirect; self_redirect; self_redirect; self_redirect] |} ])
  /\ (findings_for "https://a.example/x" [plain_redirect; plain_redirect]
      = [ {| rf_type := FrequentRedirect; rf_severity := Medium;
             rf_url := "https://a.example/x";
             rf_chain_length := 2;
             rf_chain :=
               hops_of "https://a.example/x"
                 [plain_redirect; plain_redirect] |} ])
  /\ findings_for "https://a.example/x" [plain_redirect] = [].
Proof.
  split; [|split].
  - apply (proj1 (redirect_findings
                    [self_redirect; self_redirect; self_redirect; self_redirect]
                    "https://a.example/x")).
    + reflexivity.
    + exists 1%nat, 0%nat. eexists. eexists.
      split; [apply Nat.lt_0_1|].
      split; [reflexivity|].
      split; reflexivity.
  - apply (proj1 (proj2 (redirect_findings [plain_redirect; plain_redirect]
                           "https://a.example/x"))).
    split; [reflexivity|discriminate].
  - apply (proj2 (proj2 (redirect_findings [plain_redirect]
                           "https://a.example/x"))).
    reflexivity.
Defined.

(** ** The order of strings *)

Lemma ascii_compare_lt_trans (a b c : ascii) :
  Ascii.compare a b = Lt -> Ascii.compare b c = Lt -> Ascii.compare a c = Lt.
Proof. unfold Ascii.compare. rewrite !N.compare_lt_iff. lia. Qed.

Lemma string_compare_le_trans (a b c : string) :
  String.compare a b <> Gt -> String.compare b c <> Gt ->
  String.compare a c <> Gt.
Proof.
  revert b c. induction a as [|x a IH]; intros [|y b] [|z c];
    cbn [String.compare]; try congruence.
  destruct (Ascii.compare x y) eqn:Exy; try congruence.
  - apply Ascii.compare_eq_iff in Exy. subst y.
    destruct (Ascii.compare x z); try congruence. apply IH.
  - destruct (Ascii.compare y z) eqn:Eyz; try congruence.
    + apply Ascii.compare_eq_iff in Eyz. subst z. rewrite Exy. congruence.
    + rewrite (ascii_compare_lt_trans _ _ _ Exy Eyz). congruence.
Qed.

Lemma string_ltb_false (a b : string) :
  String.ltb a b = false <-> String.leb b a = true.
Proof.
  unfold String.ltb, String.leb. rewrite (String.compare_antisym b a).
  destruct (String.compare a b); cbn [CompOpp]; intuition congruence.
Qed.

Lemma string_leb_trans (a b c : string) :
  String.leb a b = true -> String.leb b c = true -> String.leb a c = true.
Proof.
  unfold String.leb.
  pose proof (string_compare_le_trans a b c) as Htrans.
  destruct (String.compare a b), (String.compare b c), (String.compare a c);
    intros Hab Hbc; try reflexivity; try discriminate;
    exfalso; apply Htrans; congruence.
Qed.

Lemma string_ltb_asym (a b : string) :
  String.ltb a b = true -> String.ltb b a = false.
Proof.
  unfold String.ltb. rewrite (String.compare_antisym b a).
  destruct (String.compare a b); cbn [CompOpp]; congruence.
Qed.

Lemma StronglySorted_impl {A : Type} (R R' : A -> A -> Prop) (l : list A) :
  (forall a b, R a b -> R' a b) -> StronglySorted R l -> StronglySorted R' l.
Proof.
  intros Himp Hs. induction Hs as [|a l Hs IH Hall]; constructor.
  - assumption.
  - eapply Forall_impl; [|exact Hall]. intros b. apply Himp.
Qed.

(** ** Timeline *)

Lemma enumerate_from_nth {A : Type} (l : list A) (j i : Z) (x : A) :
  In (i, x) (enumerate_from j l)
  <-> exists k, nth_error l k = Some x /\ i = j + Z.of_nat k.
Proof.
  revert j. induction l as [|y ys IH]; intros j; cbn [enumerate_from In].
  - split; [tauto|]. intros [[|k] [H _]]; discriminate.
  - rewrite IH. split.
    + intros [[= <- <-] | [k [Hk ->]]].
      * exists 0%nat. split; [reflexivity|lia].
      * exists (S k). split; [assumption|lia].
    + intros [[|k] [Hk ->]]; cbn [nth_error] in Hk.
      * left. injection Hk as ->. f_equal. lia.
      * right. exists k. split; [assumption|lia].
Qed.

Lemma filter_enumerate_len {A : Type} (f : A -> bool) (l : list A) (j : Z) :
  len (filter (fun ie => f (snd ie)) (enumerate_from j l)) = len (filter f l).
Proof.
  revert j. induction l as [|y ys IH]; intros j;
    cbn [enumerate_from filter snd].
  - reflexivity.
  - destruct (f y); rewrite ?len_cons, IH; reflexivity.
Qed.

Section Timeline.
Variable fromisoformat : string -> option DateTime.

Lemma timeline_items_In (indexed : list (Z * Entry)) (it : TimelineItem) :
  In it (timeline_items fromisoformat indexed)
  <-> exists i e dt,
      In (i, e) indexed /\ has_start_time fromisoformat e = true
      /\ parse_time fromisoformat (started_of e) = Some dt
      /\ it = timeline_item i e dt.
Proof.
  induction indexed as [|[i e] rest IH]; cbn [timeline_items].
  - split; [intros []|]. intros [i [e [dt [[] _]]]].
  - assert (Hrest : (exists i0 e0 dt,
                        In (i0, e0) rest
                        /\ has_start_time fromisoformat e0 = true
                        /\ parse_time fromisoformat (started_of e0) = Some dt
                        /\ it = timeline_item i0 e0 dt)
                    -> exists i0 e0 dt,
                        In (i0, e0) ((i, e) :: rest)
                        /\ has_start_time fromisoformat e0 = true
                        /\ parse_time fromisoformat (started_of e0) = Some dt
                        /\ it = timeline_item i0 e0 dt).
    { intros [i0 [e0 [dt [Hin H]]]]. exists i0, e0, dt.
      split; [now right|assumption]. }
    destruct (String.eqb (started_of e) "") eqn:Es;
      [|destruct (parse_time fromisoformat (started_of e)) as [dt|] eqn:Ep].
    + rewrite IH. split; [exact Hrest|].
      intros [i0 [e0 [dt [[Heq | Hin] [Hs Hrem]]]]];
        [injection Heq as <- <-|].
      * unfold has_start_time in Hs. rewrite Es in Hs. discriminate.
      * exists i0, e0, dt. now split.
    + cbn [In]. rewrite IH. split.
      * intros [<- | H]; [|now apply Hrest].
        exists i, e, dt. split; [now left|].
        unfold has_start_time. rewrite Es, Ep. now repeat split.
      * intros [i0 [e0 [dt0 [[Heq | Hin] [Hs [Hp ->]]]]]];
          [injection Heq as <- <-|].
        -- left. rewrite Ep in Hp. injection Hp as ->. reflexivity.
        -- right. exists i0, e0, dt0. now repeat split.
    + rewrite IH. split; [exact Hrest|].
      intros [i0 [e0 [dt [[Heq | Hin] [Hs Hrem]]]]];
        [injection Heq as <- <-|].
      * unfold has_start_time in Hs. rewrite Ep, Bool.andb_false_r in Hs.
        discriminate.
      * exists i0, e0, dt. now split.
Qed.

Lemma timeline_items_len (indexed : list (Z * Entry)) :
  len (timeline_items fromisoformat indexed)
  = len (filter (fun ie => has_start_time fromisoformat (snd ie)) indexed).
Proof.
  induction indexed as [|[i e] rest IH]; cbn [timeline_items filter snd].
  - reflexivity.
  - unfold has_start_time at 1.
    destruct (String.eqb (started_of e) ""); cbn [negb andb]; [exact IH|].
    destruct (parse_time fromisoformat (started_of e));
      rewrite ?len_cons, IH; reflexivity.
Qed.

Lemma timeline_sorted_by_text (entries : list Entry) :
  StronglySorted (fun a b => String.leb (tl_time a) (tl_time b) = true)
                 (_create_timeline fromisoformat entries).
Proof.
  unfold _create_timeline.
  eapply StronglySorted_impl; [|apply sorted_ordered].
  - intros a b H. cbv beta in H. now apply string_ltb_false.
  - intros x y z Hxy Hyz. apply string_ltb_false in Hxy, Hyz.
    apply string_ltb_false. eapply string_leb_trans; eassumption.
  - intros x y. apply string_ltb_asym.
Qed.

End Timeline.

Lemma enumerate_from_length {A : Type} (l : list A) (j : Z) :
  List.length (enumerate_from j l) = List.length l.
Proof.
  revert j.
  induction l as [|x xs IH]; intros j; cbn [enumerate_from List.length].
  - reflexivity.
  - now rewrite IH.
Qed.

(** X21.  The timeline has one record for each entry whose start time is
    present and parses, and no other record; the entries left out are
    still counted by the summary and listed among the requests; the
    records are in ascending order of the ISO text of the parsed start
    time, compared as strings. *)
Lemma timeline_contents
        (fromisoformat : string -> option DateTime)
        (urlparse : string -> UrlParts) (json_pretty : string -> option string)
        (now : string) (entries : list Entry) :
  (forall i e, nth_error entries i = Some e ->
               (has_start_time fromisoformat e = true
                <-> exists it, In it (_create_timeline fromisoformat entries)
                               /\ tl_index it = Z.of_nat i + 1))
  /\ (forall it, In it (_create_timeline fromisoformat entries) ->
                 exists i e dt,
                   nth_error entries i = Some e
                   /\ has_start_time fromisoformat e = true
                   /\ parse_time fromisoformat (started_of e) = Some dt
                   /\ it = timeline_item (Z.of_nat i) e dt)
  /\ len (_create_timeline fromisoformat entries)
     = count (has_start_time fromisoformat) entries
  /\ StronglySorted (fun a b => String.leb (tl_time a) (tl_time b) = true)
                    (_create_timeline fromisoformat entries)
  /\ total_requests (_get_summary now entries) = len entries
  /\ len (_analyze_requests urlparse json_pretty entries) = len entries.
Proof.
  assert (Hitems : forall it,
             In it (_create_timeline fromisoformat entries) ->
             exists i e dt,
               nth_error entries i = Some e
               /\ has_start_time fromisoformat e = true
               /\ parse_time fromisoformat (started_of e) = Some dt
               /\ it = timeline_item (Z.of_nat i) e dt).
  { intros it Hin. unfold _create_timeline in Hin.
    apply sorted_In, timeline_items_In in Hin.
    destruct Hin as [i [e [dt [Hin [Hs [Hp ->]]]]]].
    apply enumerate_from_nth in Hin. destruct Hin as [k [Hk ->]].
    exists k, e, dt. repeat split; try assumption. }
  split; [|split; [exact Hitems|split; [|split; [|split]]]].
  - intros i e Hnth. split.
    + intros Hs.
      destruct (parse_time fromisoformat (started_of e)) as [dt|] eqn:Ep.
      * exists (timeline_item (Z.of_nat i) e dt). split; [|reflexivity].
        unfold _create_timeline. apply sorted_In, timeline_items_In.
        exists (Z.of_nat i), e, dt. repeat split; try assumption.
        apply enumerate_from_nth. exists i. split; [assumption|lia].
      * unfold has_start_time in Hs. rewrite Ep, Bool.andb_false_r in Hs.
        discriminate.
    + intros [it [Hin Hidx]].
      destruct (Hitems it Hin) as [k [e' [dt [Hk [Hs [_ ->]]]]]].
      cbn [timeline_item tl_index] in Hidx.
      assert (k = i) by lia. subst k. congruence.
  - unfold _create_timeline, len, count.
    rewrite (Permutation_length (sorted_perm _ _)).
    fold (len (timeline_items fromisoformat (enumerate entries))).
    rewrite timeline_items_len. apply filter_enumerate_len.
  - apply timeline_sorted_by_text.
  - reflexivity.
  - unfold _analyze_requests, enumerate, len.
    now rewrite length_map, enumerate_from_length.
Qed.

(** The timeline of three entries of which the second has no usable start
    time. *)
Lemma timeline_contents_example :
  (has_start_time sample_fromisoformat
     (sample_entry "GET" "https://a.example/x" 200 "2024-01-01T09:00:01Z"
        [browser_agent] []) = true
   <-> exists it,
       In it (_create_timeline sample_fromisoformat started_entries)
       /\ tl_index it = Z.of_nat 0 + 1)
  /\ map tl_index (_create_timeline sample_fromisoformat started_entries)
     = [3; 1].
Proof.
  split; [|reflexivity].
  apply (proj1 (timeline_contents sample_fromisoformat sample_urlparse
                  sample_json_pretty "2024-01-02 00:00:00" started_entries)
           0%nat).
  reflexivity.
Defined.

(** C7.  With start times of different UTC offsets the timeline is not in
    ascending order of the parsed start times: it is sorted by their ISO
    text, and the entry that started first comes last. *)
Theorem timeline_not_chronological :
  map tl_index (_create_timeline sample_fromisoformat mixed_offsets) = [2; 1]
  /\ map (started_instant sample_fromisoformat) mixed_offsets
     = [Some 1704085200000000; Some 1704099600000000]
  /\ 1704085200000000 < 1704099600000000.
Proof. repeat split. Qed.

(** ** Duplicate requests *)

Lemma record_request_get (k : string) (indexed : list (Z * Entry))
      (d : list (string * list Occurrence)) :
  dict_get k (fold_left record_request indexed d)
  = extended (dict_get k d) (occurrences_in k indexed).
Proof.
  revert d. unfold occurrences_in.
  induction indexed as [|[i e] rest IH]; intros d; cbn [fold_left filter map].
  - destruct (dict_get k d); cbn [extended];
      [now rewrite app_nil_r|reflexivity].
  - rewrite IH. clear IH. unfold record_request. cbn [snd].
    rewrite group_append_update.
    destruct (String.eqb (request_key e) k) eqn:E.
    + apply String.eqb_eq in E. subst k. rewrite dict_get_update_same.
      cbn [map].
      destruct (dict_get (request_key e) d) as [vs|]; cbn [get extended app].
      * now rewrite <- app_assoc.
      * reflexivity.
    + apply String.eqb_neq in E.
      rewrite dict_get_update_other by congruence. reflexivity.
Qed.

Lemma record_request_NoDup (indexed : list (Z * Entry))
      (d : list (string * list Occurrence)) :
  NoDup (map fst d) -> NoDup (map fst (fold_left record_request indexed d)).
Proof.
  revert d. induction indexed as [|[i e] rest IH]; intros d Hd;
    cbn [fold_left].
  - assumption.
  - apply IH. unfold record_request.
    rewrite group_append_update. now apply dict_update_NoDup.
Qed.

Lemma url_requests_get (k : string) (entries : list Entry) :
  dict_get k (url_requests entries)
  = match occurrences_of k entries with
    | [] => None
    | group => Some group
    end.
Proof.
  unfold url_requests, occurrences_of. rewrite record_request_get.
  cbn [dict_get extended].
  destruct (occurrences_in k (enumerate entries)); reflexivity.
Qed.

(** Every group of the dictionary is the list of the occurrences of its
    key, and is not empty. *)
Lemma url_requests_groups (entries : list Entry) (k : string)
      (group : list Occurrence) :
  In (k, group) (url_requests entries) ->
  group = occurrences_of k entries /\ group <> [].
Proof.
  intros Hin.
  apply In_dict_get in Hin;
    [|apply record_request_NoDup; constructor].
  rewrite url_requests_get in Hin.
  destruct (occurrences_of k entries); [discriminate|].
  injection Hin as <-. split; [reflexivity|discriminate].
Qed.

Lemma occurrences_in_key (k : string) (indexed : list (Z * Entry))
      (o : Occurrence) :
  In o (occurrences_in k indexed) -> occurrence_key o = k.
Proof.
  unfold occurrences_in. intros Hin.
  apply in_map_iff in Hin. destruct Hin as [[i e] [<- Hin]].
  apply filter_In in Hin. destruct Hin as [_ Hk].
  now apply String.eqb_eq in Hk.
Qed.

Lemma max_from_latest (ts : list DateTime) (m : DateTime) :
  (forall t, In t ts -> dt_aware t = dt_aware m) ->
  exists hi, max_from m ts = Ok hi /\ dt_micros hi = latest m ts.
Proof.
  unfold latest. revert m.
  induction ts as [|t ts IH]; intros m Hall; cbn [max_from map fold_left].
  - now exists m.
  - rewrite (Hall t (or_introl eq_refl)), Bool.eqb_reflx.
    destruct (IH (if dt_micros m <? dt_micros t then t else m))
      as [hi [Hhi Hmicros]].
    + intros t' Hin. rewrite (Hall t' (or_intror Hin)).
      destruct (dt_micros m <? dt_micros t); [|reflexivity].
      symmetry. apply Hall. now left.
    + exists hi. split; [assumption|]. rewrite Hmicros. f_equal.
      destruct (dt_micros m <? dt_micros t) eqn:E;
        [apply Z.ltb_lt in E|apply Z.ltb_ge in E]; lia.
Qed.

Lemma min_from_earliest (ts : list DateTime) (m : DateTime) :
  (forall t, In t ts -> dt_aware t = dt_aware m) ->
  exists lo, min_from m ts = Ok lo /\ dt_micros lo = earliest m ts.
Proof.
  unfold earliest. revert m.
  induction ts as [|t ts IH]; intros m Hall; cbn [min_from map fold_left].
  - now exists m.
  - rewrite (Hall t (or_introl eq_refl)), Bool.eqb_reflx.
    destruct (IH (if dt_micros t <? dt_micros m then t else m))
      as [lo [Hlo Hmicros]].
    + intros t' Hin. rewrite (Hall t' (or_intror Hin)).
      destruct (dt_micros t <? dt_micros m); [|reflexivity].
      symmetry. apply Hall. now left.
    + exists lo. split; [assumption|]. rewrite Hmicros. f_equal.
      destruct (dt_micros t <? dt_micros m) eqn:E;
        [apply Z.ltb_lt in E|apply Z.ltb_ge in E]; lia.
Qed.

Lemma Qltb_lt (a b : Q) : Qltb a b = true <-> (a < b)%Q.
Proof.
  unfold Qltb. rewrite Bool.negb_true_iff.
  split.
  - intros H. apply Qnot_le_lt. intros Hle.
    apply Qle_bool_iff in Hle. congruence.
  - intros H. destruct (Qle_bool b a) eqn:E; [|reflexivity].
    apply Qle_bool_iff in E. exfalso. now apply (Qlt_not_le a b).
Qed.

Lemma severity_of_interval_bands (avg_interval : Q) :
  severity_of_interval avg_interval = interval_severity avg_interval.
Proof.
  unfold severity_of_interval, interval_severity.
  destruct (Qlt_le_dec avg_interval 1) as [H1 | H1].
  - apply Qltb_lt in H1. now rewrite H1.
  - destruct (Qltb avg_interval 1) eqn:E1.
    + apply Qltb_lt in E1. exfalso. now apply (Qlt_not_le _ _ E1).
    + destruct (Qlt_le_dec avg_interval 10) as [H2 | H2].
      * apply Qltb_lt in H2. now rewrite H2.
      * destruct (Qltb avg_interval 10) eqn:E2; [|reflexivity].
        apply Qltb_lt in E2. exfalso. now apply (Qlt_not_le _ _ E2).
Qed.

Section Duplicates.
Variable fromisoformat : string -> option DateTime.

Lemma parsed_times_In (group : list Occurrence) (dt : DateTime) :
  In dt (parsed_times fromisoformat group) ->
  exists o, In o group /\ parse_time fromisoformat (oc_time o) = Some dt.
Proof.
  induction group as [|o os IH]; cbn [parsed_times].
  - intros [].
  - destruct (parse_time fromisoformat (oc_time o)) as [d|] eqn:E.
    + intros [<- | Hin].
      * exists o. split; [now left|assumption].
      * destruct (IH Hin) as [o' [Ho' Hp]]. exists o'.
        split; [now right|assumption].
    + intros Hin. destruct (IH Hin) as [o' [Ho' Hp]].
      exists o'. split; [now right|assumption].
Qed.

Lemma group_times_in_document (k : string) (entries : list Entry)
      (dt : DateTime) :
  In dt (parsed_times fromisoformat (occurrences_of k entries)) ->
  In dt (entry_times fromisoformat entries).
Proof.
  intros Hin. apply parsed_times_In in Hin. destruct Hin as [o [Ho Hp]].
  unfold occurrences_of, occurrences_in in Ho.
  apply in_map_iff in Ho. destruct Ho as [[i e] [<- Hie]].
  apply filter_In in Hie. destruct Hie as [Hie _].
  apply enumerate_from_In in Hie.
  unfold entry_times. apply in_flat_map. exists e. split; [assumption|].
  cbn [occurrence_of oc_time snd] in Hp. rewrite Hp. now left.
Qed.

Lemma uniform_awareness_spec (entries : list Entry) (a b : DateTime) :
  uniform_awareness fromisoformat entries = true ->
  In a (entry_times fromisoformat entries) ->
  In b (entry_times fromisoformat entries) ->
  dt_aware a = dt_aware b.
Proof.
  unfold uniform_awareness.
  destruct (entry_times fromisoformat entries) as [|t ts]; [intros _ []|].
  intros Hall Ha Hb.
  assert (Ht : forall x, In x (t :: ts) -> dt_aware x = dt_aware t).
  { intros x [<- | Hx]; [reflexivity|].
    rewrite forallb_forall in Hall. apply Bool.eqb_prop. now apply Hall. }
  rewrite (Ht a Ha), (Ht b Hb). reflexivity.
Qed.

(** A group whose parsed times agree on awareness never raises, and adds
    the expected findings. *)
Lemma group_findings_expected (group : list Occurrence) :
  (forall a b, In a (parsed_times fromisoformat group) ->
               In b (parsed_times fromisoformat group) ->
               dt_aware a = dt_aware b) ->
  group_findings fromisoformat group
  = Ok (expected_findings fromisoformat group).
Proof.
  intros Hu. unfold group_findings, expected_findings.
  destruct group as [|first rest];
    [destruct (3 <? len []); reflexivity|].
  destruct (3 <? len (first :: rest)) eqn:E3.
  - destruct (parsed_times fromisoformat (first :: rest)) as [|t ts];
      [reflexivity|].
    cbn [andb].
    destruct (1 <? len (t :: ts)) eqn:E1; [|reflexivity].
    assert (Hall : forall x, In x ts -> dt_aware x = dt_aware t).
    { intros x Hx. apply Hu; [now right|now left]. }
    destruct (max_from_latest ts t Hall) as [hi [Hhi Hmax]].
    destruct (min_from_earliest ts t Hall) as [lo [Hlo Hmin]].
    rewrite Hhi, Hlo. cbn [bind]. unfold expected_finding, total_seconds.
    rewrite Hmax, Hmin, severity_of_interval_bands. reflexivity.
  - destruct (parsed_times fromisoformat (first :: rest)); reflexivity.
Qed.

Lemma expected_findings_key (k : string) (group : list Occurrence)
      (f : DuplicateFinding) :
  (forall o, In o group -> occurrence_key o = k) ->
  In f (expected_findings fromisoformat group) -> finding_key f = k.
Proof.
  intros Hk. unfold expected_findings.
  destruct group as [|first rest]; [intros []|].
  destruct (parsed_times fromisoformat (first :: rest)) as [|t ts];
    [intros []|].
  destruct ((3 <? len (first :: rest)) && (1 <? len (t :: ts)));
    [|intros []].
  intros [<- | []]. apply (Hk first). now left.
Qed.

Lemma expected_findings_short (group : list Occurrence) :
  (List.length (expected_findings fromisoformat group) <= 1)%nat.
Proof.
  unfold expected_findings.
  destruct group as [|first rest]; [cbn; lia|].
  destruct (parsed_times fromisoformat (first :: rest)) as [|t ts];
    [cbn; lia|].
  destruct ((3 <? len (first :: rest)) && (1 <? len (t :: ts))); cbn; lia.
Qed.

(** The loop over the groups of a document with uniform awareness. *)
Lemma duplicate_groups_expected (entries : list Entry)
      (d : list (string * list Occurrence)) :
  uniform_awareness fromisoformat entries = true ->
  (forall k group, In (k, group) d -> group = occurrences_of k entries) ->
  duplicate_groups fromisoformat d
  = Ok (flat_map (fun kg => expected_findings fromisoformat (snd kg)) d).
Proof.
  intros Hu. induction d as [|[k group] rest IH]; intros Hd;
    cbn [duplicate_groups flat_map snd].
  - reflexivity.
  - rewrite group_findings_expected.
    + cbn [bind]. rewrite IH; [reflexivity|].
      intros k' g' Hin. apply Hd. now right.
    + rewrite (Hd k group (or_introl eq_refl)). intros a b Ha Hb.
      apply (uniform_awareness_spec entries); try assumption;
        eapply group_times_in_document; eassumption.
Qed.

Lemma expected_findings_of_key (k : string) (entries : list Entry)
      (d : list (string * list Occurrence)) :
  NoDup (map fst d) ->
  (forall k' group, In (k', group) d -> group = occurrences_of k' entries) ->
  filter (fun f => String.eqb (finding_key f) k)
         (flat_map (fun kg => expected_findings fromisoformat (snd kg)) d)
  = match dict_get k d with
    | Some group => expected_findings fromisoformat group
    | None => []
    end.
Proof.
  assert (Hkey : forall k' group,
             group = occurrences_of k' entries ->
             filter (fun f => String.eqb (finding_key f) k)
                    (expected_findings fromisoformat group)
             = if String.eqb k' k then expected_findings fromisoformat group
               else []).
  { intros k' group ->.
    pose proof (expected_findings_key k' (occurrences_of k' entries)) as Hf.
    pose proof (expected_findings_short (occurrences_of k' entries)) as Hs.
    destruct (expected_findings fromisoformat (occurrences_of k' entries))
      as [|f [|g r]].
    - now destruct (String.eqb k' k).
    - cbn [filter]. rewrite (Hf f); [|apply occurrences_in_key|now left].
      now destruct (String.eqb k' k).
    - cbn [List.length] in Hs. lia. }
  induction d as [|[k' group] rest IH]; intros Hnd Hd;
    cbn [flat_map dict_get snd].
  - reflexivity.
  - cbn [map fst] in Hnd. apply NoDup_cons_iff in Hnd.
    destruct Hnd as [Hk Hnd].
    rewrite filter_app, (Hkey k' group (Hd k' group (or_introl eq_refl))), IH;
      [|assumption|intros k0 g0 Hin; apply Hd; now right].
    destruct (String.eqb k' k) eqn:E.
    + apply String.eqb_eq in E. subst k'.
      apply dict_get_None in Hk. rewrite Hk. apply app_nil_r.
    + reflexivity.
Qed.

End Duplicates.



(** The four polls give one finding of high severity with count 4 and an
    average interval of half a second; three of them give none. *)
Lemma half_second_polls_finding :
  (exists f,
      _detect_duplicate_requests sample_fromisoformat half_second_polls
      = Ok [f]
      /\ df_severity f = High /\ df_count f = 4
      /\ (text_value (df_avg_interval f) == 1 # 2)%Q)
  /\ _detect_duplicate_requests sample_fromisoformat
       (firstn 3 half_second_polls) = Ok [].
Proof.
  split; [|reflexivity].
  eexists. split; [reflexivity|]. repeat split.
Qed.


(** What the amended claim leaves out: when the start times of a candidate
    group mix aware and naive values, the comparison inside [max] raises
    and the whole analysis fails. *)
Lemma mixed_awareness_raises :
  _detect_duplicate_requests sample_fromisoformat mixed_awareness_polls
  = Raise TypeError
  /\ analyze sample_fromisoformat sample_urlparse sample_json_pretty
             "2024-01-02 00:00:00" mixed_awareness_polls = Raise TypeError.
Proof. split; reflexivity. Qed.

(** * Further properties of the analyzer *)

(** ** Byte sizes *)

Lemma Qle_bool_false (a b : Q) : Qle_bool a b = false <-> (b < a)%Q.
Proof.
  split.
  - intros H. apply Qnot_le_lt. intros Hle.
    apply Qle_bool_iff in Hle. congruence.
  - intros H. destruct (Qle_bool a b) eqn:E; [|reflexivity].
    apply Qle_bool_iff in E. lra.
Qed.

(** The loop of [_format_size] divides [k] times by 1024 and stops at the
    [k]-th unit: either the value dropped below 1024 or no unit is left. *)
Lemma scale_size_spec (larger : list unit_) (size : Q) (u : unit_) :
  (1 <= size)%Q ->
  exists (k : nat) v u',
    scale_size size u larger = (v, u')
    /\ nth_error (u :: larger) k = Some u'
    /\ (v * inject_Z (1024 ^ Z.of_nat k) == size)%Q
    /\ (1 <= v)%Q
    /\ ((v < 1024)%Q \/ k = List.length larger).
Proof.
  revert size u.
  induction larger as [|u1 rest IH]; intros size u Hsize; cbn [scale_size].
  - exists 0%nat, size, u.
    split; [reflexivity|split; [reflexivity|]].
    split; [|split; [assumption|now right]].
    change (inject_Z (1024 ^ Z.of_nat 0)) with 1%Q. lra.
  - destruct (Qle_bool 1024 size) eqn:E.
    + apply Qle_bool_iff in E.
      destruct (IH (size / 1024)%Q u1) as [k [v [u' [Hs [Hu [Hv [H1 Hlt]]]]]]].
      { apply Qle_shift_div_l; lra. }
      exists (S k), v, u'.
      split; [assumption|split; [assumption|]].
      split; [|split; [assumption|]].
      * rewrite Nat2Z.inj_succ, Z.pow_succ_r by lia.
        rewrite inject_Z_mult.
        assert (H : (size == size / 1024 * 1024)%Q) by field.
        rewrite H, <- Hv. ring.
      * destruct Hlt as [Hlt | Hlt]; [now left|right; cbn [List.length]; lia].
    + apply Qle_bool_false in E.
      exists 0%nat, size, u.
      split; [reflexivity|split; [reflexivity|]].
      split; [|split; [assumption|now left]].
      change (inject_Z (1024 ^ Z.of_nat 0)) with 1%Q. lra.
Qed.

(** X1.  A positive byte count is rendered with one decimal as a value [v]
    and a unit among B, KB, MB, GB such that [v] times the unit's power of
    1024 is the byte count; [v] is at least 1, and below 1024 unless the
    unit is GB, the largest one. *)
Theorem format_size_scaled (n : Z) :
  0 < n ->
  exists v u,
    _format_size (inject_Z n) = Fixed 1 v u
    /\ In u [UB; UKB; UMB; UGB]
    /\ (v * inject_Z (1024 ^ unit_rank u) == inject_Z n)%Q
    /\ (1 <= v)%Q
    /\ ((v < 1024)%Q \/ u = UGB).
Proof.
  intros Hn. unfold _format_size.
  assert (Hz : Qeq_bool (inject_Z n) 0 = false).
  { destruct (Qeq_bool (inject_Z n) 0) eqn:E; [|reflexivity].
    apply Qeq_bool_iff in E. unfold Qeq, inject_Z in E. cbn in E. lia. }
  rewrite Hz.
  destruct (scale_size_spec [UKB; UMB; UGB] (inject_Z n) UB)
    as [k [v [u [Hs [Hu [Hv [H1 Hlt]]]]]]].
  { unfold Qle, inject_Z. cbn [Qnum Qden]. lia. }
  rewrite Hs. exists v, u. split; [reflexivity|].
  destruct k as [|[|[|[|k]]]]; cbn [nth_error] in Hu;
    try (injection Hu as <-); cbn [unit_rank List.length] in *.
  5: { destruct k; discriminate. }
  all: split; [cbn; tauto|split; [assumption|split; [assumption|]]].
  all: destruct Hlt as [Hlt | Hlt]; [now left|try discriminate; now right].
Qed.

(** One and a half mebibytes. *)
Lemma format_size_scaled_witness :
  exists v u,
    _format_size (inject_Z 1572864) = Fixed 1 v u
    /\ In u [UB; UKB; UMB; UGB]
    /\ (v * inject_Z (1024 ^ unit_rank u) == inject_Z 1572864)%Q
    /\ (1 <= v)%Q
    /\ ((v < 1024)%Q \/ u = UGB).
Proof. apply (format_size_scaled 1572864). reflexivity. Defined.

(** ** Header maps *)

Lemma find_app {A : Type} (f : A -> bool) (l1 l2 : list A) :
  find f (l1 ++ l2)
  = match find f l1 with
    | Some x => Some x
    | None => find f l2
    end.
Proof.
  induction l1 as [|x l1 IH]; cbn [app find].
  - reflexivity.
  - destruct (f x); [reflexivity|exact IH].
Qed.

Lemma format_headers_fold (k : string) (headers : list Header)
      (d : list (string * string)) :
  dict_get k
    (fold_left (fun d h => dict_update (name_of h) "" (fun _ => value_of h) d)
               headers d)
  = match last_value k headers with
    | Some v => Some v
    | None => dict_get k d
    end.
Proof.
  revert d. unfold last_value.
  induction headers as [|h hs IH]; intros d; cbn [fold_left rev].
  - reflexivity.
  - rewrite IH, find_app. cbn [find].
    destruct (find (fun h0 => String.eqb (name_of h0) k) (rev hs));
      [reflexivity|].
    destruct (String.eqb (name_of h) k) eqn:E; cbn [option_map].
    + apply String.eqb_eq in E. subst k. apply dict_get_update_same.
    + apply String.eqb_neq in E. now apply dict_get_update_other.
Qed.

Lemma format_headers_NoDup (headers : list Header) (d : list (string * string)) :
  NoDup (map fst d) ->
  NoDup (map fst
           (fold_left
              (fun d h => dict_update (name_of h) "" (fun _ => value_of h) d)
              headers d)).
Proof.
  revert d. induction headers as [|h hs IH]; intros d Hd; cbn [fold_left].
  - assumption.
  - apply IH. now apply dict_update_NoDup.
Qed.

(** X2.  In the header map of a request or response each name occurs once,
    and a name maps to the value of the last header that has exactly this
    name (case matters here, unlike in the header lookups). *)
Theorem format_headers_last_wins (headers : list Header) (k : string) :
  dict_get k (_format_headers headers) = last_value k headers
  /\ NoDup (map fst (_format_headers headers)).
Proof.
  unfold _format_headers. split.
  - rewrite format_headers_fold. cbn [dict_get].
    destruct (last_value k headers); reflexivity.
  - apply format_headers_NoDup. constructor.
Qed.

(** ** Request list *)

Lemma enumerate_from_fst {A : Type} (l : list A) (j : Z) :
  map fst (enumerate_from j l)
  = map (fun k => j + Z.of_nat k) (seq 0 (List.length l)).
Proof.
  revert j. induction l as [|x xs IH]; intros j;
    cbn [enumerate_from List.length seq map fst].
  - reflexivity.
  - f_equal; [lia|]. rewrite IH, <- seq_shift, map_map.
    apply map_ext. intros k. lia.
Qed.

Lemma enumerate_from_snd {A : Type} (l : list A) (j : Z) :
  map snd (enumerate_from j l) = l.
Proof.
  revert j. induction l as [|x xs IH]; intros j; cbn [enumerate_from map snd].
  - reflexivity.
  - now rewrite IH.
Qed.

(** X3.  The request list has one record per entry, in document order and
    numbered 1, 2, ...; a record is flagged as an error exactly when its
    status is 0 or at least 400, and exactly the flagged records carry
    error details. *)
Theorem request_list_shape
        (urlparse : string -> UrlParts) (json_pretty : string -> option string)
        (entries : list Entry) :
  map ri_index (_analyze_requests urlparse json_pretty entries)
  = positions (List.length entries)
  /\ map ri_url (_analyze_requests urlparse json_pretty entries)
     = map url_of entries
  /\ map ri_status_code (_analyze_requests urlparse json_pretty entries)
     = map status_of entries
  /\ Forall (fun r => (ri_is_error r = true
                       <-> ri_status_code r = 0 \/ 400 <= ri_status_code r)
                      /\ (ri_error_details r <> None
                          <-> ri_is_error r = true))
            (_analyze_requests urlparse json_pretty entries).
Proof.
  unfold _analyze_requests, enumerate, positions.
  split; [|split; [|split]].
  - rewrite map_map. cbn [request_info ri_index].
    rewrite <- (map_map fst (fun i => i + 1)), enumerate_from_fst, map_map.
    apply map_ext. intros k. lia.
  - rewrite map_map. cbn [request_info ri_url].
    now rewrite <- (map_map snd url_of), enumerate_from_snd.
  - rewrite map_map. cbn [request_info ri_status_code].
    now rewrite <- (map_map snd status_of), enumerate_from_snd.
  - apply Forall_forall. intros r Hr.
    apply in_map_iff in Hr. destruct Hr as [[i e] [<- _]].
    cbn [fst snd request_info ri_is_error ri_status_code ri_error_details].
    split.
    + rewrite is_error_iff. tauto.
    + destruct (is_error (status_of e)); split; congruence.
Qed.

(** ** Performance *)

Lemma Qltb_false (a b : Q) : Qltb a b = false <-> (b <= a)%Q.
Proof.
  unfold Qltb. rewrite Bool.negb_false_iff. apply Qle_bool_iff.
Qed.

Lemma minQ_spec (xs : list Q) (x : Q) :
  In (minQ x xs) (x :: xs)
  /\ forall y, In y (x :: xs) -> (minQ x xs <= y)%Q.
Proof.
  unfold minQ. revert x.
  induction xs as [|z zs IH]; intros x; cbn [fold_left].
  - split; [now left|]. intros y [<- | []]. apply Qle_refl.
  - destruct (IH (if Qltb z x then z else x)) as [Hin Hle].
    split.
    + destruct Hin as [Heq | Hin]; [|now right; right].
      rewrite <- Heq. destruct (Qltb z x); [right; now left|now left].
    + intros y Hy.
      assert (Hm : (fold_left (fun m y0 => if Qltb y0 m then y0 else m) zs
                      (if Qltb z x then z else x)
                    <= (if Qltb z x then z else x))%Q)
        by (apply Hle; now left).
      destruct Hy as [<- | [<- | Hy]].
      * destruct (Qltb z x) eqn:E; [|exact Hm].
        apply Qltb_lt in E. lra.
      * destruct (Qltb z x) eqn:E; [exact Hm|].
        apply Qltb_false in E. lra.
      * apply Hle. now right.
Qed.

Lemma maxQ_spec (xs : list Q) (x : Q) :
  In (maxQ x xs) (x :: xs)
  /\ forall y, In y (x :: xs) -> (y <= maxQ x xs)%Q.
Proof.
  unfold maxQ. revert x.
  induction xs as [|z zs IH]; intros x; cbn [fold_left].
  - split; [now left|]. intros y [<- | []]. apply Qle_refl.
  - destruct (IH (if Qltb x z then z else x)) as [Hin Hle].
    split.
    + destruct Hin as [Heq | Hin]; [|now right; right].
      rewrite <- Heq. destruct (Qltb x z); [right; now left|now left].
    + intros y Hy.
      assert (Hm : ((if Qltb x z then z else x)
                    <= fold_left (fun m y0 => if Qltb m y0 then y0 else m) zs
                         (if Qltb x z then z else x))%Q)
        by (apply Hle; now left).
      destruct Hy as [<- | [<- | Hy]].
      * destruct (Qltb x z) eqn:E; [|exact Hm].
        apply Qltb_lt in E. lra.
      * destruct (Qltb x z) eqn:E; [exact Hm|].
        apply Qltb_false in E. lra.
      * apply Hle. now right.
Qed.

(** X4.  The performance report is the empty dictionary exactly for the
    empty document.  Otherwise its minimum and maximum response times are
    durations of entries of the document, and the duration of every entry
    lies between them. *)
Theorem performance_extremes (entries : list Entry) :
  match _analyze_performance entries with
  | None => entries = []
  | Some p =>
      entries <> []
      /\ exists lo hi,
          min_response_time p = Fixed 2 lo UMs
          /\ max_response_time p = Fixed 2 hi UMs
          /\ In lo (map time_of entries) /\ In hi (map time_of entries)
          /\ forall e, In e entries -> (lo <= time_of e <= hi)%Q
  end.
Proof.
  destruct entries as [|e es]; cbn [_analyze_performance]; [reflexivity|].
  split; [discriminate|].
  destruct (minQ_spec (map time_of es) (time_of e)) as [Hlo Hmin].
  destruct (maxQ_spec (map time_of es) (time_of e)) as [Hhi Hmax].
  eexists. eexists.
  split; [reflexivity|split; [reflexivity|]].
  split; [exact Hlo|split; [exact Hhi|]].
  intros x Hx.
  assert (Hin : In (time_of x) (time_of e :: map time_of es))
    by (change (In (time_of x) (map time_of (e :: es))); now apply in_map).
  split; [now apply Hmin|now apply Hmax].
Qed.

Lemma StronglySorted_app_cross {A : Type} (R : A -> A -> Prop)
      (l1 l2 : list A) :
  StronglySorted R (l1 ++ l2) ->
  forall a b, In a l1 -> In b l2 -> R a b.
Proof.
  induction l1 as [|x l1 IH]; cbn [app]; intros Hs a b Ha Hb.
  - destruct Ha.
  - apply StronglySorted_inv in Hs. destruct Hs as [Hs Hall].
    destruct Ha as [<- | Ha].
    + rewrite Forall_forall in Hall. apply Hall, in_or_app. now right.
    + now apply IH.
Qed.

Lemma StronglySorted_firstn {A : Type} (R : A -> A -> Prop) (n : nat)
      (l : list A) :
  StronglySorted R l -> StronglySorted R (firstn n l).
Proof.
  revert n. induction l as [|x l IH]; intros [|n] Hs; cbn [firstn];
    try constructor.
  - apply IH. now apply StronglySorted_inv in Hs.
  - apply StronglySorted_inv in Hs. destruct Hs as [_ Hall].
    rewrite Forall_forall in *. intros y Hy. apply Hall.
    rewrite <- (firstn_skipn n l). apply in_or_app. now left.
Qed.

(** The first [n] items of a sorted list: they are in order, and together
    with the items left out they make up the list; no item left out comes
    strictly before a chosen one. *)
Lemma sorted_firstn_top {A : Type} (precedes : A -> A -> bool) (n : nat)
      (l : list A) :
  (forall x y z, precedes x y = false -> precedes y z = false ->
                 precedes x z = false) ->
  (forall x y, precedes x y = true -> precedes y x = false) ->
  let chosen := firstn n (sorted precedes l) in
  let rest := skipn n (sorted precedes l) in
  Permutation l (chosen ++ rest)
  /\ StronglySorted (fun a b => precedes b a = false) chosen
  /\ forall a b, In a chosen -> In b rest -> precedes b a = false.
Proof.
  intros Htrans Hasym chosen rest.
  pose proof (sorted_ordered precedes Htrans Hasym l) as Hs.
  split; [|split].
  - unfold chosen, rest. rewrite firstn_skipn.
    apply Permutation_sym, sorted_perm.
  - now apply StronglySorted_firstn.
  - apply StronglySorted_app_cross. unfold chosen, rest.
    now rewrite firstn_skipn.
Qed.

Lemma slower_trans (x y z : Entry) :
  Qltb (time_of y) (time_of x) = false ->
  Qltb (time_of z) (time_of y) = false ->
  Qltb (time_of z) (time_of x) = false.
Proof. rewrite !Qltb_false. intros H1 H2. lra. Qed.

Lemma slower_asym (x y : Entry) :
  Qltb (time_of y) (time_of x) = true -> Qltb (time_of x) (time_of y) = false.
Proof. rewrite Qltb_lt, Qltb_false. intros H. lra. Qed.

(** X5.  The slowest requests are the records of [min(limit, n)] entries
    of the document, in descending order of duration, and no entry left
    out lasted longer than a chosen one; likewise the largest requests,
    with the response size in place of the duration. *)
Theorem ranked_requests_are_top (limit : nat) (entries : list Entry) :
  (exists chosen rest,
      _get_slowest_requests limit entries = map ranked_by_time chosen
      /\ Permutation entries (chosen ++ rest)
      /\ List.length chosen = Nat.min limit (List.length entries)
      /\ StronglySorted (fun a b => (time_of b <= time_of a)%Q) chosen
      /\ forall a b, In a chosen -> In b rest -> (time_of b <= time_of a)%Q)
  /\ (exists chosen rest,
         _get_largest_requests limit entries = map ranked_by_size chosen
         /\ Permutation entries (chosen ++ rest)
         /\ List.length chosen = Nat.min limit (List.length entries)
         /\ StronglySorted (fun a b => size_of b <= size_of a) chosen
         /\ forall a b, In a chosen -> In b rest -> size_of b <= size_of a).
Proof.
  split.
  - destruct (sorted_firstn_top
                (fun y x => Qltb (time_of x) (time_of y)) limit entries)
      as [Hperm [Hsorted Hcross]].
    { intros x y z. apply slower_trans. }
    { intros x y. apply slower_asym. }
    eexists. eexists. split; [reflexivity|split; [exact Hperm|split]].
    + rewrite length_firstn, (Permutation_length (sorted_perm _ entries)).
      reflexivity.
    + split.
      * eapply StronglySorted_impl; [|exact Hsorted].
        intros a b H. cbv beta in H. now apply Qltb_false in H.
      * intros a b Ha Hb. apply Qltb_false. now apply Hcross.
  - destruct (sorted_firstn_top
                (fun y x => size_of x <? size_of y) limit entries)
      as [Hperm [Hsorted Hcross]].
    { intros x y z Hxy Hyz. apply Z.ltb_ge in Hxy, Hyz. apply Z.ltb_ge. lia. }
    { intros x y Hxy. apply Z.ltb_lt in Hxy. apply Z.ltb_ge. lia. }
    eexists. eexists. split; [reflexivity|split; [exact Hperm|split]].
    + rewrite length_firstn, (Permutation_length (sorted_perm _ entries)).
      reflexivity.
    + split.
      * eapply StronglySorted_impl; [|exact Hsorted].
        intros a b H. cbv beta in H. now apply Z.ltb_ge in H.
      * intros a b Ha Hb. apply Z.ltb_ge. now apply Hcross.
Qed.

(** ** Errors *)

Lemma group_fold_get {X : Type} (key : X -> string) (k : string)
      (xs : list X) (d : list (string * list X)) :
  dict_get k (fold_left (fun d x => group_append (key x) x d) xs d)
  = extended (dict_get k d) (filter (fun x => String.eqb (key x) k) xs).
Proof.
  revert d. induction xs as [|x xs IH]; intros d; cbn [fold_left filter].
  - destruct (dict_get k d); cbn [extended];
      [now rewrite app_nil_r|reflexivity].
  - rewrite IH, group_append_update.
    destruct (String.eqb (key x) k) eqn:E.
    + apply String.eqb_eq in E. subst k. rewrite dict_get_update_same.
      destruct (dict_get (key x) d) as [vs|]; cbn [get extended app].
      * now rewrite <- app_assoc.
      * reflexivity.
    + apply String.eqb_neq in E.
      rewrite dict_get_update_other by congruence. reflexivity.
Qed.

Lemma group_fold_NoDup {X : Type} (key : X -> string) (xs : list X)
      (d : list (string * list X)) :
  NoDup (map fst d) ->
  NoDup (map fst (fold_left (fun d x => group_append (key x) x d) xs d)).
Proof.
  revert d. induction xs as [|x xs IH]; intros d Hd; cbn [fold_left].
  - assumption.
  - apply IH. rewrite group_append_update. now apply dict_update_NoDup.
Qed.

(** X6.  The error report counts and lists, in document order, the entries
    with status 0 or at least 400; the breakdown has one group per key
    "status statusText", and the group of a key holds exactly the detailed
    records with that key, in document order. *)
Theorem error_breakdown_groups
        (urlparse : string -> UrlParts) (json_pretty : string -> option string)
        (entries : list Entry) :
  let report := _analyze_errors urlparse json_pretty entries in
  total_errors report = count (fun e => is_error (status_of e)) entries
  /\ total_errors report = len (detailed_errors report)
  /\ map er_url (detailed_errors report)
     = map url_of (filter (fun e => is_error (status_of e)) entries)
  /\ NoDup (map fst (error_breakdown report))
  /\ forall k,
      dict_get k (error_breakdown report)
      = match filter (fun d => String.eqb (error_key d) k)
                     (detailed_errors report) with
        | [] => None
        | group => Some group
        end.
Proof.
  cbv zeta. unfold _analyze_errors.
  cbn [total_errors detailed_errors error_breakdown].
  split; [reflexivity|split; [|split; [|split]]].
  - unfold len, enumerate. now rewrite length_map, enumerate_from_length.
  - rewrite map_map. cbn [error_detail er_url]. unfold enumerate.
    now rewrite <- (map_map snd url_of), enumerate_from_snd.
  - apply group_fold_NoDup. constructor.
  - intros k. rewrite group_fold_get. cbn [dict_get extended].
    destruct (filter _ _); reflexivity.
Qed.

(** The second of two twin failures gets the position of the first. *)
Lemma error_index_is_first_match_witness :
  exists k e, nth_error twin_failures k = Some e
              /\ er_index second_failure = Z.of_nat k + 1
              /\ same_request (er_url second_failure)
                              (er_status second_failure) e
              /\ forall k' e', (k' < k)%nat ->
                               nth_error twin_failures k' = Some e' ->
                               ~ same_request (er_url second_failure)
                                              (er_status second_failure) e'.
Proof.
  apply (error_index_is_first_match sample_urlparse sample_json_pretty
           twin_failures second_failure).
  right. left. reflexivity.
Defined.

(** ** Performance issues *)

Lemma offenders_In (test : Entry -> bool) (value : Entry -> Q)
      (entries : list Entry) (o : Offender) :
  In o (offenders test value entries)
  <-> exists i e, nth_error entries i = Some e /\ test e = true
                  /\ o = {| of_index := Z.of_nat i + 1;
                            of_url := url_of e;
                            of_value := value e |}.
Proof.
  unfold offenders, enumerate. rewrite in_map_iff. split.
  - intros [[j e] [<- Hin]]. apply filter_In in Hin.
    destruct Hin as [Hin Ht]. apply enumerate_from_nth in Hin.
    destruct Hin as [i [Hi ->]]. exists i, e.
    split; [assumption|split; [assumption|reflexivity]].
  - intros [i [e [Hi [Ht ->]]]]. exists (Z.of_nat i, e).
    split; [reflexivity|]. apply filter_In. split; [|assumption].
    apply enumerate_from_nth. exists i. split; [assumption|lia].
Qed.

Lemma timing_issue_In (kind : PerformanceIssueType) (entries : list Entry)
      (f : PerformanceIssue) :
  In f (timing_issue kind (issue_severity kind)
          (match kind with
           | SlowDns => t_dns | SlowConnect => t_connect | SlowSsl => t_ssl
           end)
          (issue_threshold kind) entries)
  <-> f = {| pi_type := kind; pi_severity := issue_severity kind;
             pi_requests :=
               offenders (fun e => Qltb (issue_threshold kind)
                                        (issue_timing kind e))
                         (issue_timing kind) entries |}
      /\ pi_requests f <> [].
Proof.
  unfold timing_issue.
  assert (Heq : offenders
                  (fun e => Qltb (issue_threshold kind)
                              (get2 (e_timings e)
                                 match kind with
                                 | SlowDns => t_dns
                                 | SlowConnect => t_connect
                                 | SlowSsl => t_ssl
                                 end (-1)%Q))
                  (fun e => get2 (e_timings e)
                              match kind with
                              | SlowDns => t_dns
                              | SlowConnect => t_connect
                              | SlowSsl => t_ssl
                              end (-1)%Q) entries
                = offenders (fun e => Qltb (issue_threshold kind)
                                         (issue_timing kind e))
                            (issue_timing kind) entries)
    by (destruct kind; reflexivity).
  rewrite Heq. clear Heq.
  destruct (offenders _ (issue_timing kind) entries) as [|o os].
  - split; [intros []|]. intros [-> H]. now apply H.
  - split.
    + intros [<- | []]. split; [reflexivity|discriminate].
    + intros [-> _]. now left.
Qed.

Lemma performance_issues_In (entries : list Entry) (f : PerformanceIssue) :
  In f (_detect_performance_issues entries)
  <-> exists kind,
      f = {| pi_type := kind; pi_severity := issue_severity kind;
             pi_requests :=
               offenders (fun e => Qltb (issue_threshold kind)
                                        (issue_timing kind e))
                         (issue_timing kind) entries |}
      /\ pi_requests f <> [].
Proof.
  unfold _detect_performance_issues.
  destruct entries as [|e es].
  - split; [intros []|]. intros [kind [-> H]]. now destruct kind.
  - set (doc := e :: es). rewrite !in_app_iff.
    rewrite (timing_issue_In SlowDns doc f),
      (timing_issue_In SlowConnect doc f), (timing_issue_In SlowSsl doc f).
    split.
    + intros [H | [H | H]]; eexists; exact H.
    + intros [[| |] H]; tauto.
Qed.

(** X10.  An entry is reported by a performance issue of a kind exactly
    when its timing of that kind exceeds the threshold (DNS 1000 ms,
    connect 3000 ms, SSL 2000 ms); the finding has the severity of its
    kind.  An absent timing reads as -1 and is never reported. *)
Theorem performance_issue_reported (entries : list Entry)
        (kind : PerformanceIssueType) (i : nat) (e : Entry) :
  nth_error entries i = Some e ->
  ((issue_threshold kind < issue_timing kind e)%Q
   <-> exists f, In f (_detect_performance_issues entries)
                 /\ pi_type f = kind
                 /\ pi_severity f = issue_severity kind
                 /\ In {| of_index := Z.of_nat i + 1;
                          of_url := url_of e;
                          of_value := issue_timing kind e |}
                       (pi_requests f))
  /\ (e_timings e = None -> ~ (issue_threshold kind < issue_timing kind e)%Q).
Proof.
  intros Hnth. split; [split|].
  - intros Hlt. apply Qltb_lt in Hlt.
    assert (Hin : In {| of_index := Z.of_nat i + 1; of_url := url_of e;
                        of_value := issue_timing kind e |}
                     (offenders (fun e0 => Qltb (issue_threshold kind)
                                             (issue_timing kind e0))
                                (issue_timing kind) entries)).
    { apply offenders_In. exists i, e.
      split; [assumption|split; [assumption|reflexivity]]. }
    exists {| pi_type := kind; pi_severity := issue_severity kind;
              pi_requests :=
                offenders (fun e0 => Qltb (issue_threshold kind)
                                        (issue_timing kind e0))
                          (issue_timing kind) entries |}.
    split; [|split; [reflexivity|split; [reflexivity|exact Hin]]].
    apply performance_issues_In. exists kind. split; [reflexivity|].
    cbn [pi_requests]. intros Hnil. rewrite Hnil in Hin. destruct Hin.
  - intros [f [Hf [Hkind [_ Hin]]]].
    apply performance_issues_In in Hf. destruct Hf as [kind' [-> _]].
    cbn [pi_type] in Hkind. subst kind'. cbn [pi_requests] in Hin.
    apply offenders_In in Hin. destruct Hin as [j [e' [Hj [Ht Heq]]]].
    injection Heq as Hidx _ Hval.
    assert (j = i) by lia. subst j.
    rewrite Hnth in Hj. injection Hj as <-. now apply Qltb_lt.
  - intros Hnone Hlt. destruct kind; cbn [issue_timing issue_threshold] in Hlt;
      rewrite Hnone in Hlt; cbn [get2] in Hlt; lra.
Qed.

(** A DNS resolution of two seconds is reported, with medium severity. *)
Lemma performance_issue_reported_witness :
  ((issue_threshold SlowDns < issue_timing SlowDns (entry_with_dns 2000))%Q
   <-> exists f, In f (_detect_performance_issues [entry_with_dns 2000])
                 /\ pi_type f = SlowDns
                 /\ pi_severity f = issue_severity SlowDns
                 /\ In {| of_index := Z.of_nat 0 + 1;
                          of_url := url_of (entry_with_dns 2000);
                          of_value := issue_timing SlowDns
                                        (entry_with_dns 2000) |}
                       (pi_requests f))
  /\ (e_timings (entry_with_dns 2000) = None ->
      ~ (issue_threshold SlowDns
         < issue_timing SlowDns (entry_with_dns 2000))%Q).
Proof.
  apply (performance_issue_reported [entry_with_dns 2000] SlowDns 0%nat
           (entry_with_dns 2000)).
  reflexivity.
Defined.

(** ** Suspicious patterns: large responses and timeouts *)

Lemma suspicious_patterns_In (entries : list Entry) (f : SuspiciousFinding) :
  In f (_detect_suspicious_patterns entries)
  -> (exists count total rate,
        sp_evidence f = HighErrorRate count total rate)
     \/ (f = {| sp_severity := Medium;
                sp_evidence :=
                  LargeResponses
                    (offenders (fun e => 10 * 1024 * 1024 <? size_of e)
                               (fun e => inject_Z (size_of e)) entries) |})
     \/ (f = {| sp_severity := Medium;
                sp_evidence :=
                  TimeoutRequests
                    (offenders (fun e => Qltb 30000 (time_of e))
                               time_of entries) |}).
Proof.
  unfold _detect_suspicious_patterns. cbv zeta. rewrite !in_app_iff.
  intros [H | [H | H]].
  - left.
    destruct ((0 <? len entries)
              && over_30_percent
                   (len (filter (fun e => is_http_error (status_of e))
                                entries)) (len entries));
      [|destruct H].
    destruct H as [<- | []]. cbn [sp_evidence]. eauto.
  - right. left.
    destruct (offenders (fun e => 10 * 1024 * 1024 <? size_of e)
                        (fun e => inject_Z (size_of e)) entries);
      [destruct H|].
    destruct H as [<- | []]. reflexivity.
  - right. right.
    destruct (offenders (fun e => Qltb 30000 (time_of e)) time_of entries);
      [destruct H|].
    destruct H as [<- | []]. reflexivity.
Qed.

(** X9.  An entry is listed in the finding on large responses exactly
    when the size of its body is above 10 * 1024 * 1024 bytes, and in the
    finding on timeouts exactly when its total time is above 30000 ms;
    both findings have medium severity and give the 1-based position of
    the entry.  A size or a time equal to the threshold is not listed. *)
Theorem suspicious_offenders_reported (entries : list Entry) (i : nat)
        (e : Entry) :
  nth_error entries i = Some e ->
  (10 * 1024 * 1024 < size_of e
   <-> exists l,
       In {| sp_severity := Medium; sp_evidence := LargeResponses l |}
          (_detect_suspicious_patterns entries)
       /\ In {| of_index := Z.of_nat i + 1;
                of_url := url_of e;
                of_value := inject_Z (size_of e) |} l)
  /\ ((30000 < time_of e)%Q
      <-> exists l,
          In {| sp_severity := Medium; sp_evidence := TimeoutRequests l |}
             (_detect_suspicious_patterns entries)
          /\ In {| of_index := Z.of_nat i + 1;
                   of_url := url_of e;
                   of_value := time_of e |} l).
Proof.
  intros Hnth. split; split.
  - intros Hlt. apply Z.ltb_lt in Hlt.
    exists (offenders (fun e => 10 * 1024 * 1024 <? size_of e)
                      (fun e => inject_Z (size_of e)) entries).
    assert (Hin : In {| of_index := Z.of_nat i + 1; of_url := url_of e;
                        of_value := inject_Z (size_of e) |}
                     (offenders (fun e => 10 * 1024 * 1024 <? size_of e)
                                (fun e => inject_Z (size_of e)) entries)).
    { apply offenders_In. exists i, e.
      split; [assumption|split; [assumption|reflexivity]]. }
    split; [|exact Hin].
    unfold _detect_suspicious_patterns. cbv zeta. rewrite !in_app_iff.
    right. left.
    destruct (offenders (fun e => 10 * 1024 * 1024 <? size_of e)
                        (fun e => inject_Z (size_of e)) entries);
      [destruct Hin|now left].
  - intros [l [Hf Hin]]. apply suspicious_patterns_In in Hf.
    destruct Hf as [[c [t [r Hf]]] | [Hf | Hf]]; try discriminate Hf.
    injection Hf as ->.
    apply offenders_In in Hin. destruct Hin as [j [e' [Hj [Ht Heq]]]].
    injection Heq as Hidx _ _.
    assert (j = i) by lia. subst j.
    rewrite Hnth in Hj. injection Hj as <-. now apply Z.ltb_lt.
  - intros Hlt. apply Qltb_lt in Hlt.
    exists (offenders (fun e => Qltb 30000 (time_of e)) time_of entries).
    assert (Hin : In {| of_index := Z.of_nat i + 1; of_url := url_of e;
                        of_value := time_of e |}
                     (offenders (fun e => Qltb 30000 (time_of e)) time_of
                                entries)).
    { apply offenders_In. exists i, e.
      split; [assumption|split; [assumption|reflexivity]]. }
    split; [|exact Hin].
    unfold _detect_suspicious_patterns. cbv zeta. rewrite !in_app_iff.
    right. right.
    destruct (offenders (fun e => Qltb 30000 (time_of e)) time_of entries);
      [destruct Hin|now left].
  - intros [l [Hf Hin]]. apply suspicious_patterns_In in Hf.
    destruct Hf as [[c [t [r Hf]]] | [Hf | Hf]]; try discriminate Hf.
    injection Hf as ->.
    apply offenders_In in Hin. destruct Hin as [j [e' [Hj [Ht Heq]]]].
    injection Heq as Hidx _ _.
    assert (j = i) by lia. subst j.
    rewrite Hnth in Hj. injection Hj as <-. now apply Qltb_lt.
Qed.

(** A request of 40 seconds is listed as a timeout, one of exactly 30
    seconds is not. *)
Lemma suspicious_offenders_reported_witness :
  ((30000 < time_of (entry_with_time 40000))%Q
   <-> exists l,
       In {| sp_severity := Medium; sp_evidence := TimeoutRequests l |}
          (_detect_suspicious_patterns
             [entry_with_time 30000; entry_with_time 40000])
       /\ In {| of_index := Z.of_nat 1 + 1;
                of_url := url_of (entry_with_time 40000);
                of_value := time_of (entry_with_time 40000) |} l)
  /\ _detect_suspicious_patterns [entry_with_time 30000] = [].
Proof.
  split; [|reflexivity].
  apply (suspicious_offenders_reported
           [entry_with_time 30000; entry_with_time 40000] 1%nat
           (entry_with_time 40000)).
  reflexivity.
Defined.

(** ** Security concerns: plain http and authentication failures *)

Lemma existsb_auth (s : Z) :
  existsb (Z.eqb s) [401; 403] = (s =? 401) || (s =? 403).
Proof. cbn [existsb]. now rewrite Bool.orb_false_r. Qed.

(** X11.  The detector reports plain-http urls with one medium finding as
    soon as there is one: it shows the first 10 of them and gives the
    number of all of them.  It reports authentication failures (status 401
    or 403) with one high finding that lists them all, but only when there
    are more than 5. *)
Theorem security_http_and_auth_findings (entries : list Entry) :
  let http :=
    map (fun ie => (fst ie + 1, url_of (snd ie)))
        (filter (fun ie => is_plain_http (snd ie)) (enumerate entries)) in
  let auth :=
    map (fun ie => {| af_index := fst ie + 1;
                      af_url := url_of (snd ie);
                      af_status := status_of (snd ie);
                      af_method := method_of (snd ie) |})
        (filter (fun ie => is_auth_failure (snd ie)) (enumerate entries)) in
  len http = count is_plain_http entries
  /\ len auth = count is_auth_failure entries
  /\ filter (fun f => is_medium (sc_severity f))
            (_detect_security_concerns entries)
     = (if 0 <? count is_plain_http entries
        then [ {| sc_severity := Medium;
                  sc_evidence :=
                    InsecureHttp (firstn 10 http)
                                 (count is_plain_http entries) |} ]
        else [])
  /\ filter (fun f => is_high (sc_severity f))
            (_detect_security_concerns entries)
     = (if 5 <? count is_auth_failure entries
        then [ {| sc_severity := High; sc_evidence := AuthFailures auth |} ]
        else []).
Proof.
  cbv zeta.
  set (http := map _ (filter (fun ie => is_plain_http (snd ie)) _)).
  set (auth := map _ (filter (fun ie => is_auth_failure (snd ie)) _)).
  assert (Hhttp : len http = count is_plain_http entries).
  { unfold http, len, count, enumerate. rewrite length_map.
    apply (f_equal Z.of_nat).
    pose proof (filter_enumerate_len is_plain_http entries 0) as H.
    unfold len in H. lia. }
  assert (Hauth : len auth = count is_auth_failure entries).
  { unfold auth, len, count, enumerate. rewrite length_map.
    apply (f_equal Z.of_nat).
    pose proof (filter_enumerate_len is_auth_failure entries 0) as H.
    unfold len in H. lia. }
  split; [exact Hhttp|split; [exact Hauth|]].
  unfold _detect_security_concerns.
  assert (Ea : filter (fun ie : Z * Entry =>
                         existsb (Z.eqb (status_of (snd ie))) [401; 403])
                      (enumerate entries)
               = filter (fun ie => is_auth_failure (snd ie))
                        (enumerate entries)).
  { apply filter_ext. intros ie. apply existsb_auth. }
  rewrite Ea. fold auth.
  change (map (fun ie : Z * Entry => (fst ie + 1, url_of (snd ie)))
            (filter (fun ie => Str.startswith "http://" (url_of (snd ie)))
                    (enumerate entries))) with http.
  rewrite Hauth, <- Hhttp.
  set (ua := suspicious_user_agents (enumerate entries)).
  rewrite !filter_app.
  assert (Hua : forall p : Severity -> bool,
             p Low = false ->
             filter (fun f => p (sc_severity f))
               match ua with
               | [] => []
               | _ :: _ => [ {| sc_severity := Low;
                                sc_evidence :=
                                  SuspiciousUserAgent (firstn 5 ua) (len ua) |} ]
               end = []).
  { intros p Hp. destruct ua; cbn [filter sc_severity];
      [reflexivity|now rewrite Hp]. }
  rewrite (Hua is_medium eq_refl), (Hua is_high eq_refl), !app_nil_r.
  split.
  - destruct (5 <? count is_auth_failure entries); cbn [filter app];
      rewrite ?app_nil_r.
    all: destruct http as [|h hs];
      [reflexivity|rewrite len_cons;
       assert (Hpos : (0 <? len hs + 1) = true)
         by (apply Z.ltb_lt; pose proof (len_nonneg hs); lia);
       rewrite Hpos; reflexivity].
  - destruct http as [|h hs]; cbn [filter app sc_severity is_high];
      destruct (5 <? count is_auth_failure entries); reflexivity.
Qed.

(** ** Redirect chains: what the loop test sees *)

Lemma hops_in_from_url (u : string) (indexed : list (Z * Entry)) (h : Hop) :
  In h (hops_in u indexed) ->
  from_url h = u /\ 300 <= hop_status h < 400 /\ to_url h <> "".
Proof.
  unfold hops_in. intros Hin.
  apply in_map_iff in Hin. destruct Hin as [[i e] [<- Hin]].
  apply filter_In in Hin. destruct Hin as [_ Hhop]. cbn [snd] in Hhop.
  apply Bool.andb_true_iff in Hhop. destruct Hhop as [Hhop Hu].
  apply String.eqb_eq in Hu.
  unfold is_hop in Hhop. apply Bool.andb_true_iff in Hhop.
  destruct Hhop as [Hst Hloc]. apply Bool.andb_true_iff in Hst.
  destruct Hst as [Hlo Hhi]. apply Z.leb_le in Hlo. apply Z.ltb_lt in Hhi.
  cbn [hop_of from_url hop_status to_url fst snd].
  split; [assumption|split; [lia|]].
  unfold truthy in Hloc.
  destruct (header_lookup "location" (response_headers_of e)) as [l|];
    [|discriminate].
  cbn [get]. intros ->. discriminate.
Qed.

Lemma chain_revisits_self (u : string) (entries : list Entry) :
  chain_revisits (hops_of u entries)
  <-> exists i h, (1 <= i)%nat /\ nth_error (hops_of u entries) i = Some h
                  /\ to_url h = u.
Proof.
  unfold chain_revisits, hops_of. split.
  - intros [i [j [hi [hj [Hlt [Hi [Hj Heq]]]]]]].
    exists i, hi. split; [lia|split; [assumption|]].
    rewrite Heq. apply (hops_in_from_url u (enumerate entries)).
    eapply nth_error_In. eassumption.
  - intros [i [h [Hi [Hnth Hto]]]].
    destruct (nth_error (hops_in u (enumerate entries)) 0) as [h0|] eqn:E0.
    + exists i, 0%nat, h, h0.
      split; [lia|split; [assumption|split; [assumption|]]].
      rewrite Hto. symmetry.
      apply (hops_in_from_url u (enumerate entries)).
      eapply nth_error_In. eassumption.
    + apply nth_error_None in E0.
      assert (Hsome : nth_error (hops_in u (enumerate entries)) i <> None)
        by congruence.
      apply nth_error_Some in Hsome. lia.
Qed.

Lemma redirect_finding_In (entries : list Entry) (f : RedirectFinding) :
  In f (_detect_redirect_loops entries)
  <-> hops_of (rf_url f) entries <> []
      /\ In f (chain_findings (rf_url f, hops_of (rf_url f) entries)).
Proof.
  assert (H : In f (_detect_redirect_loops entries)
              <-> In f (findings_for (rf_url f) entries)).
  { unfold findings_for. rewrite filter_In, String.eqb_refl. tauto. }
  rewrite H, findings_for_chain.
  destruct (hops_of (rf_url f) entries) as [|h chain] eqn:E.
  - split; [intros []|]. intros [Hne _]. now apply Hne.
  - split; [intros Hin; split; [discriminate|assumption]|tauto].
Qed.

(** X12.  A redirect loop is reported for a url exactly when the url has
    more than 3 hops and a hop after the first one leads back to the url
    itself.  The hops of a chain all start from the same url, so a cycle
    through other urls is not seen by the loop test. *)
Theorem redirect_loop_iff_self_target (entries : list Entry) (u : string) :
  (exists f, In f (_detect_redirect_loops entries)
             /\ rf_url f = u /\ rf_severity f = High)
  <-> 3 < len (hops_of u entries)
      /\ exists i h, (1 <= i)%nat
                     /\ nth_error (hops_of u entries) i = Some h
                     /\ to_url h = u.
Proof.
  rewrite <- chain_revisits_self. split.
  - intros [f [Hin [Hu Hsev]]]. apply redirect_finding_In in Hin.
    destruct Hin as [_ Hin]. rewrite Hu in Hin. unfold chain_findings in Hin.
    destruct (3 <? len (hops_of u entries)) eqn:E3.
    + apply Z.ltb_lt in E3. split; [assumption|].
      destruct (revisits [] (hops_of u entries)) eqn:R; [|destruct Hin].
      apply revisits_iff in R.
      destruct R as [[i [hi [_ []]]] | R]. exact R.
    + destruct (1 <? len (hops_of u entries)); [|destruct Hin].
      destruct Hin as [<- | []]. discriminate.
  - intros [Hlen Hrev].
    exists {| rf_type := RedirectLoop; rf_severity := High; rf_url := u;
              rf_chain_length := len (hops_of u entries);
              rf_chain := hops_of u entries |}.
    split; [|split; reflexivity].
    apply redirect_finding_In. cbn [rf_url].
    split; [intros Hnil; rewrite Hnil, len_nil in Hlen; lia|].
    unfold chain_findings. apply Z.ltb_lt in Hlen. rewrite Hlen.
    assert (R : revisits [] (hops_of u entries) = true)
      by (apply revisits_iff; now right).
    rewrite R. now left.
Qed.

Lemma chain_findings_urls (d : list (string * list Hop)) :
  NoDup (map fst d) -> NoDup (map rf_url (flat_map chain_findings d)).
Proof.
  assert (Hsub : forall d' u, In u (map rf_url (flat_map chain_findings d')) ->
                              In u (map fst d')).
  { induction d' as [|[k c] rest IHd]; cbn [flat_map map fst]; intros u Hin.
    - destruct Hin.
    - rewrite map_app in Hin. apply in_app_or in Hin.
      destruct Hin as [Hin | Hin]; [left|right; now apply IHd].
      unfold chain_findings in Hin.
      destruct (3 <? len c);
        [destruct (revisits [] c)|destruct (1 <? len c)];
        cbn [map rf_url In] in Hin; tauto. }
  induction d as [|[k c] rest IH]; cbn [flat_map map fst]; intros Hnd.
  - constructor.
  - apply NoDup_cons_iff in Hnd. destruct Hnd as [Hk Hnd].
    rewrite map_app. apply NoDup_app.
    + unfold chain_findings.
      destruct (3 <? len c);
        [destruct (revisits [] c)|destruct (1 <? len c)];
        cbn [map]; repeat constructor; intros [].
    + now apply IH.
    + intros u Hu Hrest. apply Hsub in Hrest.
      unfold chain_findings in Hu.
      destruct (3 <? len c);
        [destruct (revisits [] c)|destruct (1 <? len c)];
        cbn [map rf_url In] in Hu; try tauto;
        destruct Hu as [<- | []]; contradiction.
Qed.

(** X13.  The redirect findings concern distinct urls.  Each finding
    carries the whole hop list of its url, at least 2 hops, with its
    length; every hop starts from that url, has a 3xx status and a
    non-empty target; the finding is of high severity exactly when it is a
    loop finding. *)
Theorem redirect_findings_shape (entries : list Entry) :
  NoDup (map rf_url (_detect_redirect_loops entries))
  /\ Forall (fun f =>
               rf_chain f = hops_of (rf_url f) entries
               /\ rf_chain_length f = len (rf_chain f)
               /\ 2 <= rf_chain_length f
               /\ (rf_severity f = High <-> rf_type f = RedirectLoop)
               /\ (rf_severity f = Medium <-> rf_type f = FrequentRedirect)
               /\ Forall (fun h => from_url h = rf_url f
                                   /\ 300 <= hop_status h < 400
                                   /\ to_url h <> "") (rf_chain f))
            (_detect_redirect_loops entries).
Proof.
  split.
  - unfold _detect_redirect_loops. apply chain_findings_urls.
    apply record_hop_NoDup. constructor.
  - apply Forall_forall. intros f Hin. apply redirect_finding_In in Hin.
    destruct Hin as [_ Hin].
    assert (Hhops : Forall (fun h => from_url h = rf_url f
                                     /\ 300 <= hop_status h < 400
                                     /\ to_url h <> "")
                           (hops_of (rf_url f) entries)).
    { apply Forall_forall. intros h Hh.
      now apply (hops_in_from_url (rf_url f) (enumerate entries)). }
    revert Hin Hhops. generalize (hops_of (rf_url f) entries) as chain.
    generalize (rf_url f) as u. intros u chain Hin Hhops.
    unfold chain_findings in Hin.
    destruct (3 <? len chain) eqn:E3.
    + apply Z.ltb_lt in E3.
      destruct (revisits [] chain); [|destruct Hin].
      destruct Hin as [<- | []].
      cbn [rf_chain rf_chain_length rf_severity rf_type rf_url] in *.
      repeat split; try assumption; try reflexivity; try lia;
        discriminate.
    + destruct (1 <? len chain) eqn:E1; [|destruct Hin].
      apply Z.ltb_lt in E1. destruct Hin as [<- | []].
      cbn [rf_chain rf_chain_length rf_severity rf_type rf_url] in *.
      repeat split; try assumption; try reflexivity; try lia;
        discriminate.
Qed.

(** Four redirects from one url to another one: a long chain that never
    leads back. *)
Lemma long_chain_without_revisit_witness :
  findings_for "https://a.example/x" four_plain_redirects = [].
Proof.
  apply (long_chain_without_revisit four_plain_redirects
           "https://a.example/x").
  - reflexivity.
  - intros [i [j [hi [hj [Hlt [Hi [Hj Heq]]]]]]].
    destruct i as [|[|[|[|i]]]]; cbn in Hi;
      try (injection Hi as <-); try (destruct i; discriminate Hi);
      (destruct j as [|[|[|[|j]]]]; cbn in Hj;
       try (injection Hj as <-); try (destruct j; discriminate Hj);
       discriminate Heq).
Defined.

(** ** Duplicate requests: the findings that are returned *)

Section DuplicateShape.
Variable fromisoformat : string -> option DateTime.

Lemma group_findings_shape (group : list Occurrence)
      (l : list DuplicateFinding) (f : DuplicateFinding) :
  group_findings fromisoformat group = Ok l -> In f l ->
  l = [f]
  /\ df_requests f = group
  /\ df_count f = len group
  /\ 3 < len group
  /\ 2 <= len (parsed_times fromisoformat group)
  /\ (exists first rest, group = first :: rest
                         /\ df_url f = oc_url first
                         /\ df_method f = oc_method first)
  /\ df_severity f = interval_severity (text_value (df_avg_interval f)).
Proof.
  unfold group_findings.
  destruct (3 <? len group) eqn:E3; [|intros [= <-] []].
  apply Z.ltb_lt in E3.
  destruct (parsed_times fromisoformat group) as [|t ts];
    [intros [= <-] []|].
  destruct group as [|first rest]; [intros [= <-] []|].
  destruct (1 <? len (t :: ts)) eqn:E1; [|intros [= <-] []].
  apply Z.ltb_lt in E1.
  destruct (max_from t ts) as [hi|]; [|discriminate].
  destruct (min_from t ts) as [lo|]; [|discriminate].
  cbn [bind]. intros [= <-] [<- | []].
  cbn [df_requests df_count df_url df_method df_severity df_avg_interval
       text_value].
  split; [reflexivity|split; [reflexivity|split; [reflexivity|]]].
  split; [assumption|split; [lia|split]].
  - exists first, rest. repeat split.
  - apply severity_of_interval_bands.
Qed.

Lemma duplicate_groups_shape (d : list (string * list Occurrence))
      (found : list DuplicateFinding) :
  duplicate_groups fromisoformat d = Ok found ->
  NoDup (map fst d) ->
  (forall k group o, In (k, group) d -> In o group -> occurrence_key o = k) ->
  NoDup (map finding_key found)
  /\ forall f, In f found ->
               In (finding_key f, df_requests f) d
               /\ exists l, group_findings fromisoformat (df_requests f) = Ok l
                            /\ In f l.
Proof.
  revert found. induction d as [|[k group] rest IH]; intros found;
    cbn [duplicate_groups].
  - intros [= <-] _ _. split; [constructor|intros f []].
  - destruct (group_findings fromisoformat group) as [l|] eqn:Eg;
      [|discriminate].
    destruct (duplicate_groups fromisoformat rest) as [more|];
      [|discriminate].
    cbn [bind]. intros [= <-] Hnd Hkeys.
    cbn [map fst] in Hnd. apply NoDup_cons_iff in Hnd.
    destruct Hnd as [Hk Hnd].
    destruct (IH more eq_refl Hnd) as [IHnd IHin].
    { intros k' g' o Hin. apply (Hkeys k' g' o). now right. }
    assert (Hl : forall f, In f l ->
                           l = [f] /\ finding_key f = k /\ df_requests f = group).
    { intros f Hf.
      destruct (group_findings_shape group l f Eg Hf)
        as [Hone [Hreq [_ [_ [_ [[first [tl [Hg [Hu Hm]]]] _]]]]]].
      split; [assumption|split; [|assumption]].
      unfold finding_key. rewrite Hu, Hm.
      apply (Hkeys k group first); [now left|]. rewrite Hg. now left. }
    split.
    + rewrite map_app. apply NoDup_app; [|assumption|].
      * destruct l as [|f l']; [constructor|].
        destruct (Hl f (or_introl eq_refl)) as [Hone _].
        injection Hone as ->. repeat constructor. intros [].
      * intros key Hkey Hmore.
        apply in_map_iff in Hkey. destruct Hkey as [f [<- Hf]].
        destruct (Hl f Hf) as [_ [Hfk _]].
        apply in_map_iff in Hmore. destruct Hmore as [g [Hgk Hg]].
        destruct (IHin g Hg) as [Hgin _].
        apply Hk. rewrite <- Hfk, <- Hgk.
        change (finding_key g) with (fst (finding_key g, df_requests g)).
        now apply in_map.
    + intros f Hf. apply in_app_or in Hf. destruct Hf as [Hf | Hf].
      * destruct (Hl f Hf) as [_ [Hfk Hreq]]. rewrite Hfk, Hreq.
        split; [now left|]. exists l. now split.
      * destruct (IHin f Hf) as [Hin Hex]. split; [now right|assumption].
Qed.


End DuplicateShape.


(** ** Duplicate requests: when the detector raises *)

Lemma max_from_mixed (ts : list DateTime) (m : DateTime) :
  forallb (fun x => Bool.eqb (dt_aware x) (dt_aware m)) ts = false ->
  max_from m ts = Raise TypeError.
Proof.
  revert m. induction ts as [|t ts IH]; intros m; cbn [forallb max_from].
  - discriminate.
  - destruct (Bool.eqb (dt_aware t) (dt_aware m)) eqn:E;
      [|reflexivity].
    cbn [andb]. intros Hf. apply IH.
    assert (Ha : dt_aware (if dt_micros m <? dt_micros t then t else m)
                 = dt_aware m).
    { destruct (dt_micros m <? dt_micros t); [|reflexivity].
      now apply Bool.eqb_prop in E. }
    rewrite Ha. exact Hf.
Qed.

Section DuplicateRaises.
Variable fromisoformat : string -> option DateTime.

Lemma group_findings_raises (requests : list Occurrence) :
  group_findings fromisoformat requests = Raise TypeError
  <-> 3 < len requests
      /\ mixed_awareness (parsed_times fromisoformat requests) = true.
Proof.
  unfold group_findings, mixed_awareness.
  destruct (3 <? len requests) eqn:E3.
  2: { apply Z.ltb_ge in E3. split; [discriminate|]. intros [H _]. lia. }
  apply Z.ltb_lt in E3.
  destruct (parsed_times fromisoformat requests) as [|t ts].
  { split; [discriminate|]. intros [_ H]. discriminate. }
  destruct requests as [|first rest].
  { rewrite len_nil in E3. lia. }
  cbv zeta.
  destruct (1 <? len (t :: ts)) eqn:E1.
  - destruct (forallb (fun x => Bool.eqb (dt_aware x) (dt_aware t)) ts)
      eqn:Ef.
    + assert (Hall : forall x, In x ts -> dt_aware x = dt_aware t).
      { intros x Hx. rewrite forallb_forall in Ef.
        apply Bool.eqb_prop. now apply Ef. }
      destruct (max_from_latest ts t Hall) as [hi [-> _]].
      destruct (min_from_earliest ts t Hall) as [lo [-> _]].
      cbn [bind negb]. split; [discriminate|]. intros [_ H]. discriminate.
    + rewrite (max_from_mixed ts t Ef). cbn [bind negb].
      split; [intros _; split; [assumption|reflexivity]|reflexivity].
  - destruct ts as [|t' ts].
    + cbn [forallb negb]. split; [discriminate|]. intros [_ H].
      discriminate.
    + apply Z.ltb_ge in E1. rewrite !len_cons in E1.
      pose proof (len_nonneg ts). lia.
Qed.

Lemma duplicate_groups_raises (groups : list (string * list Occurrence)) :
  duplicate_groups fromisoformat groups = Raise TypeError
  <-> exists k g, In (k, g) groups
                  /\ group_findings fromisoformat g = Raise TypeError.
Proof.
  induction groups as [|[k g] rest IH]; cbn [duplicate_groups].
  - split; [discriminate|]. intros [k [g [[] _]]].
  - destruct (group_findings fromisoformat g) as [found|[]] eqn:Eg;
      cbn [bind].
    + destruct (duplicate_groups fromisoformat rest) as [more|[]];
        cbn [bind].
      * split; [discriminate|]. intros [k' [g' [[Heq | Hin] Hr]]].
        -- injection Heq as <- <-. congruence.
        -- assert (Hm : Ok more = Raise TypeError)
             by (apply (proj2 IH); now exists k', g').
           discriminate Hm.
      * split; [|reflexivity]. intros _.
        destruct (proj1 IH eq_refl) as [k' [g' [Hin Hr]]].
        exists k', g'. split; [now right|assumption].
    + split; [|reflexivity]. intros _. exists k, g.
      split; [now left|assumption].
Qed.

Lemma detect_duplicates_raises (entries : list Entry) :
  _detect_duplicate_requests fromisoformat entries = Raise TypeError
  <-> exists k,
      3 < len (occurrences_of k entries)
      /\ mixed_awareness
           (parsed_times fromisoformat (occurrences_of k entries)) = true.
Proof.
  unfold _detect_duplicate_requests.
  assert (Hb : bind (duplicate_groups fromisoformat (url_requests entries))
                 (fun found =>
                    Ok (sorted (fun y x => df_count x <? df_count y) found))
               = Raise TypeError
               <-> duplicate_groups fromisoformat (url_requests entries)
                   = Raise TypeError).
  { destruct (duplicate_groups fromisoformat (url_requests entries))
      as [found|[]]; cbn [bind]; split; congruence. }
  rewrite Hb, duplicate_groups_raises. split.
  - intros [k [g [Hin Hr]]]. apply url_requests_groups in Hin.
    destruct Hin as [-> _]. exists k. now apply group_findings_raises.
  - intros [k Hk]. exists k, (occurrences_of k entries).
    split; [|now apply group_findings_raises].
    apply dict_get_In. rewrite url_requests_get.
    destruct (occurrences_of k entries) as [|o os]; [|reflexivity].
    destruct Hk as [Hlen _]. rewrite len_nil in Hlen. lia.
Qed.

End DuplicateRaises.


(** ** The report as a whole *)

Lemma detect_duplicates_returns (fromisoformat : string -> option DateTime)
      (entries : list Entry) :
  uniform_awareness fromisoformat entries = true ->
  exists found, _detect_duplicate_requests fromisoformat entries = Ok found.
Proof.
  intros Hu. unfold _detect_duplicate_requests.
  rewrite (duplicate_groups_expected fromisoformat entries) by
    (try assumption; intros k g Hin; now apply url_requests_groups in Hin).
  cbn [bind]. eexists. reflexivity.
Qed.

Lemma len_nil_iff {A : Type} (l : list A) : len l = 0 <-> l = [].
Proof.
  destruct l as [|x l]; [now split|].
  rewrite len_cons. pose proof (len_nonneg l).
  split; [lia|discriminate].
Qed.

(** X17.  Whenever the anomaly analysis returns, its total is the number
    of findings of the five detectors taken together, and the flag
    [has_anomalies] is off exactly when all five lists are empty. *)
Theorem anomalies_totals (fromisoformat : string -> option DateTime)
        (entries : list Entry) (a : Anomalies) :
  _analyze_anomalies fromisoformat entries = Ok a ->
  redirect_loops a = _detect_redirect_loops entries
  /\ _detect_duplicate_requests fromisoformat entries
     = Ok (duplicate_requests a)
  /\ suspicious_patterns a = _detect_suspicious_patterns entries
  /\ performance_issues a = _detect_performance_issues entries
  /\ security_concerns a = _detect_security_concerns entries
  /\ total_anomalies a
     = len (redirect_loops a) + len (duplicate_requests a)
       + len (suspicious_patterns a) + len (performance_issues a)
       + len (security_concerns a)
  /\ (has_anomalies a = false
      <-> redirect_loops a = [] /\ duplicate_requests a = []
          /\ suspicious_patterns a = [] /\ performance_issues a = []
          /\ security_concerns a = []).
Proof.
  unfold _analyze_anomalies.
  destruct (_detect_duplicate_requests fromisoformat entries) as [dups|];
    [|discriminate].
  cbn [bind]. intros [= <-].
  cbn [redirect_loops duplicate_requests suspicious_patterns
       performance_issues security_concerns total_anomalies has_anomalies].
  do 5 (split; [reflexivity|]).
  set (r := _detect_redirect_loops entries).
  set (s := _detect_suspicious_patterns entries).
  set (p := _detect_performance_issues entries).
  set (c := _detect_security_concerns entries).
  assert (Hsum : sumZ [len r; len dups; len s; len p; len c]
                 = len r + len dups + len s + len p + len c)
    by (unfold sumZ; cbn [fold_left]; lia).
  split; [exact Hsum|].
  rewrite Hsum, Z.ltb_ge, <- !len_nil_iff.
  pose proof (len_nonneg r). pose proof (len_nonneg dups).
  pose proof (len_nonneg s). pose proof (len_nonneg p).
  pose proof (len_nonneg c). lia.
Qed.

(** The anomalies of the four polls. *)
Lemma anomalies_totals_witness :
  exists a,
    _analyze_anomalies sample_fromisoformat half_second_polls = Ok a
    /\ total_anomalies a
       = len (redirect_loops a) + len (duplicate_requests a)
         + len (suspicious_patterns a) + len (performance_issues a)
         + len (security_concerns a).
Proof.
  eexists. split; [reflexivity|].
  apply (anomalies_totals sample_fromisoformat half_second_polls).
  reflexivity.
Defined.

Lemma len_filter_map {A B : Type} (f : A -> B) (p : B -> bool) (l : list A) :
  len (filter p (map f l)) = len (filter (fun x => p (f x)) l).
Proof.
  induction l as [|x l IH]; cbn [map filter].
  - reflexivity.
  - destruct (p (f x)); rewrite ?len_cons, IH; reflexivity.
Qed.



(** ** Grouping with counters *)

Lemma fold_add_shift (l : list Z) (a : Z) :
  fold_left Z.add l a = a + fold_left Z.add l 0.
Proof.
  revert a. induction l as [|x l IH]; intros a; cbn [fold_left].
  - lia.
  - rewrite (IH (a + x)), (IH (0 + x)). lia.
Qed.

Lemma sumZ_cons (x : Z) (l : list Z) : sumZ (x :: l) = x + sumZ l.
Proof. unfold sumZ. cbn [fold_left]. rewrite fold_add_shift. lia. Qed.

Lemma sumZ_app (l1 l2 : list Z) : sumZ (l1 ++ l2) = sumZ l1 + sumZ l2.
Proof.
  induction l1 as [|x l1 IH]; cbn [app].
  - reflexivity.
  - rewrite !sumZ_cons, IH. lia.
Qed.

Lemma sumZ_perm (l1 l2 : list Z) : Permutation l1 l2 -> sumZ l1 = sumZ l2.
Proof.
  intros Hp. induction Hp; rewrite ?sumZ_cons; lia.
Qed.

Section UpdateFold.
Context {X V : Type} (key : X -> string) (init : V) (upd : X -> V -> V).
Context (m : V -> Z) (w : X -> Z).
Hypothesis m_init : m init = 0.
Hypothesis m_upd : forall x v, m (upd x v) = m v + w x.

Lemma dict_update_sum (x : X) (d : list (string * V)) :
  sumZ (map (fun kv => m (snd kv)) (dict_update (key x) init (upd x) d))
  = sumZ (map (fun kv => m (snd kv)) d) + w x.
Proof.
  induction d as [|[k v] d IH]; cbn [dict_update map snd].
  - rewrite sumZ_cons, m_upd, m_init. lia.
  - destruct (String.eqb k (key x)); cbn [map snd]; rewrite !sumZ_cons.
    + rewrite m_upd. lia.
    + rewrite IH. lia.
Qed.

Lemma fold_update_sum (xs : list X) (d : list (string * V)) :
  sumZ (map (fun kv => m (snd kv))
            (fold_left (fun d x => dict_update (key x) init (upd x) d) xs d))
  = sumZ (map (fun kv => m (snd kv)) d) + sumZ (map w xs).
Proof.
  revert d. induction xs as [|x xs IH]; intros d; cbn [fold_left map].
  - unfold sumZ at 3. cbn [fold_left]. lia.
  - rewrite IH, dict_update_sum, sumZ_cons. lia.
Qed.

Lemma fold_update_measure (k : string) (xs : list X) (d : list (string * V)) :
  m (get (dict_get k
            (fold_left (fun d x => dict_update (key x) init (upd x) d) xs d))
         init)
  = m (get (dict_get k d) init)
    + sumZ (map w (filter (fun x => String.eqb (key x) k) xs)).
Proof.
  revert d. induction xs as [|x xs IH]; intros d; cbn [fold_left filter].
  - unfold sumZ. cbn [map fold_left]. lia.
  - rewrite IH. destruct (String.eqb (key x) k) eqn:E.
    + apply String.eqb_eq in E. subst k.
      rewrite dict_get_update_same. cbn [get map].
      rewrite m_upd, sumZ_cons. lia.
    + apply String.eqb_neq in E.
      rewrite dict_get_update_other by congruence. reflexivity.
Qed.

End UpdateFold.

Section UpdateInvariant.
Context {X V : Type} (key : X -> string) (init : V) (upd : X -> V -> V).
Context (P : V -> Prop).
Hypothesis P_first : forall x, P (upd x init).
Hypothesis P_next : forall x v, P v -> P (upd x v).

Lemma fold_update_Forall (xs : list X) (d : list (string * V)) :
  Forall (fun kv => P (snd kv)) d ->
  Forall (fun kv => P (snd kv))
         (fold_left (fun d x => dict_update (key x) init (upd x) d) xs d).
Proof.
  revert d. induction xs as [|x xs IH]; intros d Hd; cbn [fold_left].
  - assumption.
  - apply IH. clear IH.
    induction d as [|[k v] d IHd]; cbn [dict_update].
    + constructor; [apply P_first|constructor].
    + apply Forall_cons_iff in Hd. destruct Hd as [Hv Hd].
      destruct (String.eqb k (key x)); constructor;
        try assumption; [now apply P_next|now apply IHd].
Qed.

Lemma fold_update_NoDup (xs : list X) (d : list (string * V)) :
  NoDup (map fst d) ->
  NoDup (map fst
           (fold_left (fun d x => dict_update (key x) init (upd x) d) xs d)).
Proof.
  revert d. induction xs as [|x xs IH]; intros d Hd; cbn [fold_left].
  - assumption.
  - apply IH. now apply dict_update_NoDup.
Qed.

End UpdateInvariant.

Lemma sumZ_ones {A : Type} (l : list A) : sumZ (map (fun _ => 1) l) = len l.
Proof.
  induction l as [|x l IH]; cbn [map].
  - reflexivity.
  - rewrite sumZ_cons, len_cons, IH. lia.
Qed.

Lemma sumZ_indicator {A : Type} (p q : A -> bool) (l : list A) :
  sumZ (map (fun x => if q x then 1 else 0) (filter p l))
  = len (filter (fun x => p x && q x) l).
Proof.
  induction l as [|x l IH]; cbn [filter map].
  - reflexivity.
  - destruct (p x); cbn [andb map]; [|exact IH].
    rewrite sumZ_cons, IH. destruct (q x); rewrite ?len_cons; lia.
Qed.

Lemma rate_bounds (a b : Z) :
  0 <= a <= b -> 0 < b ->
  (0 <= inject_Z a / inject_Z b * 100 <= 100)%Q.
Proof.
  intros [Ha Hab] Hb.
  assert (Hx : (0 <= inject_Z a)%Q)
    by (unfold Qle, inject_Z; cbn [Qnum Qden]; lia).
  assert (Hy : (0 < inject_Z b)%Q)
    by (unfold Qlt, inject_Z; cbn [Qnum Qden]; lia).
  assert (Hxy : (inject_Z a <= inject_Z b)%Q)
    by (unfold Qle, inject_Z; cbn [Qnum Qden]; lia).
  assert (H0 : (0 <= inject_Z a / inject_Z b)%Q)
    by (apply Qle_shift_div_l; [assumption|lra]).
  assert (H1 : (inject_Z a / inject_Z b <= 1)%Q)
    by (apply Qle_shift_div_r; [assumption|lra]).
  lra.
Qed.

(** ** Domains *)

(** X19.  The domain report has one line per distinct url authority, in
    descending order of request count, and the request counts add up to
    the number of entries.  A line counts the entries of its authority and,
    as errors, those of them with a status of at least 400 (a status of 0
    is not counted here); its error rate is a percentage between 0 and
    100, never the fallback text. *)
Theorem domain_stats_shape (urlparse : string -> UrlParts)
        (entries : list Entry) :
  let report := _analyze_domains urlparse entries in
  total_domains report = len (domain_stats report)
  /\ NoDup (map ds_domain (domain_stats report))
  /\ sumZ (map ds_request_count (domain_stats report)) = len entries
  /\ StronglySorted (fun a b => ds_request_count b <= ds_request_count a)
                    (domain_stats report)
  /\ Forall (fun s =>
               ds_request_count s
               = count (fun e => String.eqb (domain_of urlparse e)
                                            (ds_domain s)) entries
               /\ ds_error_count s
                  = count (fun e => String.eqb (domain_of urlparse e)
                                               (ds_domain s)
                                    && is_http_error (status_of e)) entries
               /\ 1 <= ds_request_count s
               /\ 0 <= ds_error_count s <= ds_request_count s
               /\ exists rate, ds_error_rate s = Fixed 1 rate UPercent
                               /\ (0 <= rate <= 100)%Q)
            (domain_stats report).
Proof.
  cbv zeta. unfold _analyze_domains. cbn [total_domains domain_stats].
  set (init := {| dc_count := 0; dc_total_size := 0; dc_total_time := 0;
                  dc_errors := 0 |}).
  set (upd := fun (entry : Entry) (st : DomainCounters) =>
                {| dc_count := dc_count st + 1;
                   dc_total_size := dc_total_size st + size_of entry;
                   dc_total_time := (dc_total_time st + time_of entry)%Q;
                   dc_errors :=
                     if is_http_error (status_of entry) then dc_errors st + 1
                     else dc_errors st |}).
  change (fold_left (count_domain urlparse) entries [])
    with (fold_left (fun d x => dict_update (domain_of urlparse x) init
                                            (upd x) d) entries []).
  set (d := fold_left _ entries []).
  assert (Hnd : NoDup (map fst d))
    by (apply fold_update_NoDup; constructor).
  assert (Hfst : map ds_domain (map format_domain d) = map fst d).
  { rewrite map_map. apply map_ext. now intros [k st]. }
  assert (Hcnt : map ds_request_count (map format_domain d)
                 = map (fun kv => dc_count (snd kv)) d).
  { rewrite map_map. apply map_ext. now intros [k st]. }
  assert (Hinv : Forall (fun kv => 1 <= dc_count (snd kv)
                                   /\ 0 <= dc_errors (snd kv)
                                      <= dc_count (snd kv)) d).
  { apply (fold_update_Forall (domain_of urlparse) init upd
             (fun v => 1 <= dc_count v /\ 0 <= dc_errors v <= dc_count v)).
    - intros x. cbn. destruct (is_http_error (status_of x)); lia.
    - intros x v Hv. cbn. destruct (is_http_error (status_of x)); lia.
    - constructor. }
  split; [|split; [|split; [|split]]].
  - unfold len. now rewrite (Permutation_length (sorted_perm _ _)), length_map.
  - eapply Permutation_NoDup;
      [apply Permutation_map, Permutation_sym, sorted_perm|].
    now rewrite Hfst.
  - rewrite (sumZ_perm _ _ (Permutation_map _ (sorted_perm _ _))), Hcnt.
    unfold d.
    rewrite (fold_update_sum (domain_of urlparse) init upd dc_count
               (fun _ => 1)) by reflexivity.
    rewrite sumZ_ones. reflexivity.
  - eapply StronglySorted_impl; [|apply sorted_ordered].
    + intros a b H. cbv beta in H. now apply Z.ltb_ge in H.
    + intros x y z Hxy Hyz. apply Z.ltb_ge in Hxy, Hyz. apply Z.ltb_ge. lia.
    + intros x y Hxy. apply Z.ltb_lt in Hxy. apply Z.ltb_ge. lia.
  - apply Forall_forall. intros s Hs. apply sorted_In in Hs.
    apply in_map_iff in Hs. destruct Hs as [[k st] [<- Hin]].
    rewrite Forall_forall in Hinv. specialize (Hinv (k, st) Hin).
    cbn [snd] in Hinv. destruct Hinv as [H1 [H0 Hle]].
    apply (In_dict_get _ _ _ Hnd) in Hin.
    cbn [format_domain ds_domain ds_request_count ds_error_count
         ds_error_rate].
    assert (Hc : dc_count st
                 = count (fun e => String.eqb (domain_of urlparse e) k)
                         entries).
    { pose proof (fold_update_measure (domain_of urlparse) init upd dc_count
                    (fun _ => 1) (fun x v => eq_refl) k entries [])
        as Hm.
      fold d in Hm. rewrite Hin in Hm. cbn [get dict_get dc_count init] in Hm.
      rewrite sumZ_ones in Hm. unfold count. lia. }
    assert (He : dc_errors st
                 = count (fun e => String.eqb (domain_of urlparse e) k
                                   && is_http_error (status_of e)) entries).
    { pose proof (fold_update_measure (domain_of urlparse) init upd dc_errors
                    (fun x => if is_http_error (status_of x) then 1 else 0))
        as Hm.
      specialize (Hm (fun x v => ltac:(cbn;
                        destruct (is_http_error (status_of x)); lia))
                     k entries []).
      fold d in Hm. rewrite Hin in Hm. cbn [get dict_get dc_errors init] in Hm.
      rewrite sumZ_indicator in Hm. unfold count. lia. }
    split; [exact Hc|split; [exact He|split; [exact H1|split; [lia|]]]].
    assert (Hpos : (0 <? dc_count st) = true) by (apply Z.ltb_lt; lia).
    rewrite Hpos. eexists. split; [reflexivity|].
    apply rate_bounds; lia.
Qed.

(** ** File types *)

(** X20.  The file-type report has one line per distinct resolved content
    type, in descending order of count; the counts add up to the number of
    entries; a line counts the entries of its type, at least one, and its
    share is a percentage between 0 and 100, never the fallback text. *)
Theorem file_types_shape (entries : list Entry) :
  NoDup (map ft_type (_analyze_file_types entries))
  /\ sumZ (map ft_count (_analyze_file_types entries)) = len entries
  /\ StronglySorted (fun a b => ft_count b <= ft_count a)
                    (_analyze_file_types entries)
  /\ Forall (fun s =>
               ft_count s = tally (ft_type s) entries
               /\ 1 <= ft_count s <= len entries
               /\ exists share, ft_percentage s = Fixed 1 share UPercent
                                /\ (0 <= share <= 100)%Q)
            (_analyze_file_types entries).
Proof.
  unfold _analyze_file_types, file_type_counters.
  set (init := {| tc_count := 0; tc_total_size := 0 |}).
  set (upd := fun (entry : Entry) (st : TypeCounters) =>
                {| tc_count := tc_count st + 1;
                   tc_total_size := tc_total_size st + size_of entry |}).
  change (fold_left count_type entries [])
    with (fold_left (fun d x => dict_update (content_type_of x) init
                                            (upd x) d) entries []).
  set (d := fold_left _ entries []).
  assert (Hnd : NoDup (map fst d))
    by (apply fold_update_NoDup; constructor).
  assert (Hfst : map ft_type (map (format_type (len entries)) d) = map fst d).
  { rewrite map_map. apply map_ext. now intros [k st]. }
  assert (Hcnt : map ft_count (map (format_type (len entries)) d)
                 = map (fun kv => tc_count (snd kv)) d).
  { rewrite map_map. apply map_ext. now intros [k st]. }
  assert (Hinv : Forall (fun kv => 1 <= tc_count (snd kv)) d).
  { apply (fold_update_Forall content_type_of init upd
             (fun v => 1 <= tc_count v)).
    - intros x. cbn. lia.
    - intros x v Hv. cbn. lia.
    - constructor. }
  split; [|split; [|split]].
  - eapply Permutation_NoDup;
      [apply Permutation_map, Permutation_sym, sorted_perm|].
    now rewrite Hfst.
  - rewrite (sumZ_perm _ _ (Permutation_map _ (sorted_perm _ _))), Hcnt.
    unfold d.
    rewrite (fold_update_sum content_type_of init upd tc_count
               (fun _ => 1)) by reflexivity.
    rewrite sumZ_ones. reflexivity.
  - eapply StronglySorted_impl; [|apply sorted_ordered].
    + intros a b H. cbv beta in H. now apply Z.ltb_ge in H.
    + intros x y z Hxy Hyz. apply Z.ltb_ge in Hxy, Hyz. apply Z.ltb_ge. lia.
    + intros x y Hxy. apply Z.ltb_lt in Hxy. apply Z.ltb_ge. lia.
  - apply Forall_forall. intros s Hs. apply sorted_In in Hs.
    apply in_map_iff in Hs. destruct Hs as [[k st] [<- Hin]].
    rewrite Forall_forall in Hinv. specialize (Hinv (k, st) Hin).
    cbn [snd] in Hinv.
    apply (In_dict_get _ _ _ Hnd) in Hin.
    cbn [format_type ft_type ft_count ft_percentage].
    assert (Hc : tc_count st = tally k entries).
    { pose proof (fold_update_measure content_type_of init upd tc_count
                    (fun _ => 1) (fun x v => eq_refl) k entries [])
        as Hm.
      fold d in Hm. rewrite Hin in Hm. cbn [get dict_get tc_count init] in Hm.
      rewrite sumZ_ones in Hm. unfold tally, count. lia. }
    assert (Hle : tally k entries <= len entries)
      by (unfold tally, count; apply len_filter_le).
    split; [exact Hc|split; [lia|]].
    assert (Hpos : (0 <? len entries) = true) by (apply Z.ltb_lt; lia).
    rewrite Hpos. eexists. split; [reflexivity|].
    apply rate_bounds; lia.
Qed.

(** ** Rates *)

Lemma rate_sum_bound (a b t : Z) :
  0 <= a -> 0 <= b -> a + b <= t -> 0 < t ->
  (inject_Z a / inject_Z t * 100 + inject_Z b / inject_Z t * 100 <= 100)%Q.
Proof.
  intros Ha Hb Hab Ht.
  assert (Hne : ~ (inject_Z t == 0)%Q)
    by (unfold Qeq, inject_Z; cbn [Qnum Qden]; lia).
  assert (Hsum : (inject_Z a / inject_Z t * 100
                  + inject_Z b / inject_Z t * 100
                  == inject_Z (a + b) / inject_Z t * 100)%Q)
    by (rewrite inject_Z_plus; field; exact Hne).
  rewrite Hsum. apply rate_bounds; lia.
Qed.



(** ** Preview lengths *)

Lemma clip_short (limit : nat) (s : string) :
  (String.length s <= limit)%nat -> clip limit s = s.
Proof.
  intros H. unfold clip. apply Nat.leb_le in H. now rewrite H.
Qed.

(** X23.  A preview is never longer than 2003 characters (2000 and the
    ellipsis).  When the body is not treated as JSON and its text has at
    most 1000 characters, the preview is the text itself. *)
Theorem previews_are_bounded (json_pretty : string -> option string) :
  (forall pd : PostData,
      match _format_post_data json_pretty (Some pd) with
      | Some v =>
          (String.length (pv_text v) <= 2003)%nat
          /\ (pv_is_json v = false ->
              (String.length (pv_full_content v) <= 1000)%nat ->
              pv_text v = pv_full_content v)
      | None => False
      end)
  /\ (forall c : Content,
         match _get_response_preview json_pretty (Some c) with
         | Some v =>
             (String.length (rv_preview v) <= 2003)%nat
             /\ (rv_is_json v = false ->
                 (String.length (rv_full_content v) <= 1000)%nat ->
                 rv_preview v = rv_full_content v)
         | None => False
         end).
Proof.
  split.
  - intros pd. cbn [_format_post_data pv_text pv_is_json pv_full_content].
    split.
    + destruct (String.eqb (get (pd_mimeType pd) "") "application/json"
                && negb (String.eqb (get (pd_text pd) "") ""));
        [destruct (json_pretty (get (pd_text pd) ""))|].
      * pose proof (length_truncate 2000 s). lia.
      * pose proof (length_truncate 1000 (get (pd_text pd) "")). lia.
      * pose proof (length_truncate 1000 (get (pd_text pd) "")). lia.
    + intros Hj Hlen. rewrite Hj. cbn [andb].
      rewrite truncate_clip. now apply clip_short.
  - intros c.
    cbn [_get_response_preview rv_preview rv_is_json rv_full_content].
    split.
    + destruct (Str.startswith "application/json" (get (c_mimeType c) ""));
        destruct (String.eqb (get (c_text c) "") "");
        try (cbn [String.length]; lia);
        try destruct (json_pretty (get (c_text c) ""));
        try (pose proof (length_truncate 2000 s); lia);
        pose proof (length_truncate 1000 (get (c_text c) "")); lia.
    + intros Hj Hlen. rewrite Hj.
      destruct (String.eqb (get (c_text c) "") "") eqn:E.
      * apply String.eqb_eq in E. now rewrite E.
      * rewrite truncate_clip. now apply clip_short.
Qed.

(** * The web shells *)

(** ** File names *)

Lemma contains_app (c : ascii) (a b : string) :
  Upload.contains c (a ++ b) = Upload.contains c a || Upload.contains c b.
Proof.
  induction a as [|d a IH]; cbn [append Upload.contains].
  - reflexivity.
  - rewrite IH. apply Bool.orb_assoc.
Qed.

Lemma rsplit1_no_sep (sep : ascii) (s : string) :
  Upload.contains sep s = false -> Upload.rsplit1 sep s = [s].
Proof.
  induction s as [|c r IH]; cbn [Upload.contains Upload.rsplit1].
  - reflexivity.
  - intros H. apply Bool.orb_false_iff in H. destruct H as [Hc Hr].
    rewrite (IH Hr), Hc. reflexivity.
Qed.

Lemma rsplit1_last (sep : ascii) (a b : string) :
  Upload.contains sep b = false ->
  Upload.rsplit1 sep (a ++ String sep b) = [a; b].
Proof.
  intros Hb. induction a as [|c a IH]; cbn [append Upload.rsplit1].
  - rewrite (rsplit1_no_sep sep b Hb), Ascii.eqb_refl. reflexivity.
  - rewrite IH. reflexivity.
Qed.

Lemma rsplit1_spec (sep : ascii) (s : string) :
  Upload.contains sep s = true ->
  exists a b, Upload.rsplit1 sep s = [a; b] /\ s = a ++ String sep b
              /\ Upload.contains sep b = false.
Proof.
  induction s as [|c r IH]; cbn [Upload.contains Upload.rsplit1].
  - discriminate.
  - intros H. destruct (Upload.contains sep r) eqn:Er.
    + destruct (IH eq_refl) as [a [b [Hs [Hr Hb]]]].
      exists (String c a), b. rewrite Hs, Hr.
      split; [reflexivity|split; [reflexivity|assumption]].
    + rewrite Bool.orb_false_r in H. rewrite (rsplit1_no_sep sep r Er), H.
      apply Ascii.eqb_eq in H. subst c.
      exists EmptyString, r.
      split; [reflexivity|split; [reflexivity|assumption]].
Qed.

Lemma allowed_file_intro (stem ext : string) :
  Upload.contains "." ext = false -> Str.lower ext = "har" ->
  RunPy.allowed_file (stem ++ "." ++ ext) = true.
Proof.
  intros Hext Hlow.
  unfold RunPy.allowed_file, RunPy.ALLOWED_EXTENSIONS. cbn [existsb].
  change (stem ++ "." ++ ext) with (stem ++ String "." ext).
  rewrite Bool.orb_false_r, Bool.andb_true_iff. split.
  - rewrite contains_app. cbn [Upload.contains].
    rewrite Ascii.eqb_refl. cbn [orb]. apply Bool.orb_true_r.
  - rewrite (rsplit1_last "." stem ext Hext). cbn [nth].
    rewrite Hlow. reflexivity.
Qed.

(** X24.  The Flask shell accepts a file name exactly when it has a dot
    and the text after its last dot is "har" in any mix of cases. *)
Theorem allowed_file_iff (filename : string) :
  RunPy.allowed_file filename = true
  <-> exists stem ext,
      filename = stem ++ "." ++ ext
      /\ Upload.contains "." ext = false
      /\ Str.lower ext = "har".
Proof.
  split.
  - unfold RunPy.allowed_file, RunPy.ALLOWED_EXTENSIONS. cbn [existsb].
    rewrite Bool.orb_false_r, Bool.andb_true_iff.
    intros [Hdot Hext].
    destruct (rsplit1_spec "." filename Hdot) as [a [b [Hs [Hf Hb]]]].
    rewrite Hs in Hext. cbn [nth] in Hext. apply String.eqb_eq in Hext.
    exists a, b. split; [exact Hf|split; assumption].
  - intros [stem [ext [-> [Hext Hlow]]]]. now apply allowed_file_intro.
Qed.

Lemma substring_suffix (a p : string) :
  String.substring (String.length a) (String.length p) (a ++ p) = p.
Proof.
  induction a as [|c a IH]; cbn [String.length append].
  - apply (take_all (String.length p) p). apply Nat.le_refl.
  - cbn [substring]. exact IH.
Qed.

Lemma substring_split (s : string) (n : nat) :
  (n <= String.length s)%nat ->
  s = String.substring 0 n s
      ++ String.substring n (String.length s - n) s.
Proof.
  revert n. induction s as [|c s IH]; intros [|n] Hn;
    cbn [String.length] in *; cbn [substring append Nat.sub].
  - reflexivity.
  - lia.
  - f_equal. symmetry. apply (take_all (String.length s) s). apply Nat.le_refl.
  - f_equal. apply IH. lia.
Qed.

Lemma endswith_iff (suffix s : string) :
  Upload.endswith suffix s = true <-> exists a, s = a ++ suffix.
Proof.
  unfold Upload.endswith. rewrite Bool.andb_true_iff, Nat.leb_le. split.
  - intros [Hlen Heq]. apply String.eqb_eq in Heq.
    exists (String.substring 0 (String.length s - String.length suffix) s).
    assert (Hle : (String.length s - String.length suffix
                   <= String.length s)%nat) by lia.
    pose proof (substring_split s _ Hle) as Hs.
    replace (String.length s - (String.length s - String.length suffix))%nat
      with (String.length suffix) in Hs by lia.
    rewrite Heq in Hs. exact Hs.
  - intros [a ->]. rewrite length_append. split; [lia|].
    replace (String.length a + String.length suffix - String.length suffix)%nat
      with (String.length a) by lia.
    rewrite substring_suffix. apply String.eqb_refl.
Qed.

Lemma har_name_allowed (filename : string) :
  Upload.endswith ".har" filename = true ->
  RunPy.allowed_file filename = true /\ filename <> "".
Proof.
  intros H. apply endswith_iff in H. destruct H as [a ->]. split.
  - now apply (allowed_file_intro a "har").
  - destruct a; discriminate.
Qed.

(** ** Status codes *)

Section Shells.
Import Upload.
Variable load : string -> Loaded.
Variable fromisoformat : string -> option DateTime.
Variable urlparse : string -> UrlParts.
Variable json_pretty : string -> option string.
Variable now : string.


(** X26.  The Flask shell answers with status 200, 400 or 500; the
    envelope reports success, and carries a report, exactly with status
    200, which it gives exactly when the file name is accepted, the bytes
    load and the analysis returns. *)
Theorem flask_status_codes (upload : option (string * string)) :
  let answer :=
    RunPy.analyze load fromisoformat urlparse json_pretty now upload in
  In (status answer) [200; 400; 500]
  /\ (success answer = true <-> status answer = 200)
  /\ (data answer <> None <-> status answer = 200)
  /\ (status answer = 200
      <-> exists filename content entries report,
          upload = Some (filename, content)
          /\ RunPy.allowed_file filename = true
          /\ load content = Entries entries
          /\ analyze fromisoformat urlparse json_pretty now entries
             = Ok report
          /\ data answer = Some report).
Proof.
  cbv zeta. unfold RunPy.analyze, RunPy.try_block.
  destruct upload as [[filename content]|].
  2: { cbn. repeat split; try tauto; try discriminate;
         try congruence.
       intros [f [c [es [r [H _]]]]]. discriminate. }
  destruct (String.eqb filename "") eqn:En.
  { apply String.eqb_eq in En. subst filename. cbn.
    repeat split; try tauto; try discriminate; try congruence.
    intros [f [c [es [r [H [Ha _]]]]]]. injection H as <- <-.
    discriminate Ha. }
  destruct (RunPy.allowed_file filename) eqn:Ea.
  2: { cbn. repeat split; try tauto; try discriminate; try congruence.
       intros [f [c [es [r [H [Ha _]]]]]]. injection H as <- <-.
       congruence. }
  destruct (load content) as [entries| |] eqn:El.
  - destruct (analyze fromisoformat urlparse json_pretty now entries)
      as [r|e] eqn:Er.
    + cbn. repeat split; try tauto; try discriminate; try congruence.
      intros _. exists filename, content, entries, r. repeat split;
        assumption.
    + cbn. repeat split; try tauto; try discriminate; try congruence.
      intros [f [c [es [r [H [_ [Hl [Hr _]]]]]]]]. injection H as <- <-.
      rewrite El in Hl. injection Hl as <-. congruence.
  - cbn. repeat split; try tauto; try discriminate; try congruence.
    intros [f [c [es [r [H [_ [Hl _]]]]]]]. injection H as <- <-. congruence.
  - cbn. repeat split; try tauto; try discriminate; try congruence.
    intros [f [c [es [r [H [_ [Hl _]]]]]]]. injection H as <- <-. congruence.
Qed.


End Shells.


